(** * pytorch_wrapper: the train-manager layer, the classical-ML predictor
      and the JSON dump helper, embedded and verified.

    Sources embedded here:
    - [ml/models/train_managers/base_train_manager.py]  (BaseTrainManager)
    - [ml/models/train_managers/nn_train_manager.py]    (NNTrainManager)
    - [ml/models/ml_models/toolbox.py]                  (BaseMLPredictor)
    - [ml/utils/utils.py]                               (dump_dict)

    Conventions of the embedding:
    - a Python method is a computation in the monad [Py Σ], a state
      transformer over the object [Σ] it is a method of, that either returns
      a value or raises; the object keeps the mutations made before a raise;
    - float64 values (losses, predictions, labels, metric averages) are exact
      rationals [Qc];
    - the collaborators whose code is outside these files (the model manager,
      the data loaders, the metrics and their average meters, the
      TensorBoard logger) are interfaces (type classes); every call made on a
      model manager or on the logger is appended to the [calls] log of the
      train manager;
    - messages sent to Python's [logging] module and wall-clock time are not
      part of the state; the sub-expressions those messages evaluate (and
      that can raise) are kept. *)

From Stdlib Require Import ZArith QArith Qcanon.
From Stdlib Require Import Ascii String Decimal DecimalString DecimalN DecimalPos.
From stdpp Require Import base option list numbers strings gmap fin_maps.

(** ** Python values, exceptions and the method monad *)

(** The values a configuration dictionary holds. *)
#[warnings="-register-all"]
Inductive Val :=
| VNone
| VBool (b : bool)
| VInt (z : Z)
| VFloat (q : Qc)
| VStr (s : string)
| VList (l : list Val).

(** Python's truth value testing. *)
Definition truthy (v : Val) : bool :=
  match v with
  | VNone => false
  | VBool b => b
  | VInt z => negb (z =? 0)%Z
  | VFloat q => negb (bool_decide (q = 0%Qc))
  | VStr s => negb (bool_decide (s = ""))
  | VList l => negb (bool_decide (length l = 0))
  end.

Inductive Exn :=
| KeyError (key : string)
| IndexError
| AssertionError (key : string)
| TypeError
| ValueError
| ZeroDivisionError
| AttributeError
| AxisError
| UnboundLocalError
| NotFittedError
| RuntimeError
| OSError.

Inductive Result (A : Type) :=
| Ok (a : A)
| Raise (e : Exn).
Arguments Ok {A} a.
Arguments Raise {A} e.

Definition Py (Σ A : Type) : Type := Σ → Result A * Σ.

#[global] Instance Py_ret {Σ} : MRet (Py Σ) := λ A a σ, (Ok a, σ).
#[global] Instance Py_bind {Σ} : MBind (Py Σ) := λ A B f m σ,
  match m σ with
  | (Ok a, σ') => f a σ'
  | (Raise e, σ') => (Raise e, σ')
  end.

Definition raise {Σ A} (e : Exn) : Py Σ A := λ σ, (Raise e, σ).
Definition lift {Σ A} (r : Result A) : Py Σ A := λ σ, (r, σ).
Definition gets {Σ A} (f : Σ → A) : Py Σ A := λ σ, (Ok (f σ), σ).
Definition modify {Σ} (f : Σ → Σ) : Py Σ unit := λ σ, (Ok (), f σ).

(** [for x in l: acc = body(acc, x)] *)
Fixpoint foldM {Σ A B} (body : B → A → Py Σ B) (acc : B) (l : list A) : Py Σ B :=
  match l with
  | [] => mret acc
  | x :: l' => acc' ← body acc x; foldM body acc' l'
  end.

(** [for x in l: body(x)] *)
Definition for_each {Σ A} (l : list A) (body : A → Py Σ unit) : Py Σ unit :=
  foldM (λ _ x, body x) () l.

(** [range(n)]: empty when [n <= 0]. *)
Definition range (n : Z) : list nat := seq 0 (Z.to_nat n).

(** The integer a value is, if any: [bool] is a subclass of [int]. *)
Definition int_of (v : Val) : option Z :=
  match v with
  | VInt z => Some z
  | VBool b => Some (Z.b2z b)
  | _ => None
  end.

(** An argument that has to be an integer. *)
Definition as_int {Σ} (v : Val) : Py Σ Z :=
  match int_of v with
  | Some z => mret z
  | None => raise TypeError
  end.

(** ** Total correctness: the computation returns and the result satisfies [Q] *)

Definition returns {Σ A} (m : Py Σ A) (σ : Σ) (Q : A → Σ → Prop) : Prop :=
  match m σ with
  | (Ok a, σ') => Q a σ'
  | (Raise _, _) => False
  end.

Definition raises {Σ A} (m : Py Σ A) (σ : Σ) : Prop :=
  match m σ with
  | (Ok _, _) => False
  | (Raise _, _) => True
  end.

(** ** What a computation leaves unchanged *)

(** [m] leaves [f] of the state as it was, whether it returns or raises. *)
Definition preserves {Σ X A} (f : Σ → X) (m : Py Σ A) : Prop :=
  ∀ σ r σ', m σ = (r, σ') → f σ' = f σ.

(** ** The collaborators of a train manager

    Their code is outside the embedded files; the train managers only call
    them, so they are interfaces here. *)

(** A torch tensor of rank one or two. *)
Inductive Tensor :=
| T1 (xs : list Qc)
| T2 (rows : list (list Qc)).

(** [ml.models.model_managers]: the object behind [self.model_manager]. *)
Class ModelManager (MM Inputs : Type) := {
  (** [fit(inputs, labels, phase)] returns [(loss, predicts)] *)
  mm_fit : MM → Inputs → list Qc → string → Qc * list Qc * MM;
  (** [predict(inputs)] *)
  mm_predict : MM → Inputs → list Qc * MM;
  mm_anneal_lr : MM → Val → MM;
  mm_save_model : MM → MM;
  mm_load_model : MM → MM;
  mm_get_lr : MM → Qc;
  (** [criterion(input, target)], the loss function the manager holds *)
  mm_criterion : MM → Tensor → Tensor → Qc;
}.

(** [sklearn.metrics.confusion_matrix(y_true, y_pred, labels=range(n))]:
    whether it accepts its arguments or raises. *)
Class Sklearn := {
  confusion_matrix : list Qc → list Qc → nat → Result unit;
}.

(** A [torch.utils.data.DataLoader] over one of the repository's datasets:
    one pass yields the batches [(inputs, labels)] and advances the loader
    (its sampler may shuffle). *)
Class DataLoader (DL Inputs : Type) := {
  dl_iter : DL → list (Inputs * list Qc) * DL;
  dl_len : DL → nat;
  get_input_size : DL → Val;
  get_batch_norm_size : DL → Val;
  get_seq_len : DL → Val;
  get_image_size : DL → Val;
  get_n_channels : DL → Val;
}.

(** [ml.src.metrics]: a metric has a name, the [save_model] flag and an
    average meter. *)
Record Metric (Meter : Type) := {
  name : string;
  save_model : bool;
  average_meter : Meter;
}.
Arguments name {Meter} _.
Arguments save_model {Meter} _.
Arguments average_meter {Meter} _.

Class AverageMeter (Meter : Type) := {
  (** [average_meter.update_best()] reports whether the epoch attained a new
      best value *)
  update_best : Meter → bool * Meter;
  (** [average_meter.reset()] *)
  reset : Meter → Meter;
  (** [average_meter.average] *)
  average : Meter → Qc;
  (** [metric.update(loss_value, preds, labels)] *)
  metric_update : Metric Meter → Qc → list Qc → list Qc → Metric Meter;
}.

Inductive TensorBoardLogger := TBLogger (log_id log_dir : Val).

(** The calls a train manager makes on its model manager and its logger. *)
Inductive Call {Inputs : Type} :=
| CFit (inputs : Inputs) (labels : list Qc) (phase : string)
| CPredict (inputs : Inputs)
| CAnnealLr (learning_anneal : Val)
| CSaveModel
| CLoadModel
| CGetLr
| CCriterion (input target : Tensor)
| CLoggerUpdate (epoch : nat) (values : list (string * Qc))
| CLoggerClose.
Arguments Call : clear implicits.

(** [self] of a [BaseTrainManager]. [self.device] is left out: [.to(device)]
    does not change a value. *)
Record TrainManager {Inputs MM DL Meter : Type} := {
  class_labels : list Val;
  cfg : gmap string Val;
  (** a [dict], in insertion order *)
  dataloaders : list (string * DL);
  model_manager : option MM;
  logger : option TensorBoardLogger;
  metrics : gmap string (list (Metric Meter));
  calls : list (Call Inputs);
}.
Arguments TrainManager : clear implicits.

(** ** numpy on one-dimensional float arrays *)

Definition Qc_sum (xs : list Qc) : Qc := foldr Qcplus 0%Qc xs.

(** The [k] rows of [xs.reshape(k, c)], row-major. *)
Fixpoint np_rows (k c : nat) (xs : list Qc) : list (list Qc) :=
  match k with
  | O => []
  | S k' => take c xs :: np_rows k' c (drop c xs)
  end.

(** [xs.reshape(k, -1)]: numpy refuses a negative [k], a zero [k] and a size
    that [k] does not divide. *)
Definition np_reshape_rows (k : Z) (xs : list Qc) : Result (list (list Qc)) :=
  if bool_decide (k ≤ 0)%Z then Raise ValueError
  else if bool_decide (Z.of_nat (length xs) `mod` k = 0)%Z
  then Ok (np_rows (Z.to_nat k) (length xs / Z.to_nat k) xs)
  else Raise ValueError.

(** [rows.mean(axis=0)] for [k] rows of [c] columns, [k > 0]. *)
Definition np_mean_axis0 (k c : nat) (rows : list (list Qc)) : list Qc :=
  (λ i, Qc_sum ((λ row, nth i row 0%Qc) <$> rows) / Qc_of_Z (Z.of_nat k))%Qc
    <$> seq 0 c.

(** [xs[:stop]] for an integer [stop]. *)
Definition np_slice_to (stop : Z) (xs : list Qc) : list Qc :=
  if bool_decide (0 ≤ stop)%Z then take (Z.to_nat stop) xs
  else take (length xs - Z.to_nat (- stop)) xs.

(** [np.argmax(xs, axis=1)] on a one-dimensional array. *)
Definition np_argmax_axis1 {Σ} (xs : list Qc) : Py Σ (list Qc) := raise AxisError.

(** [torch.from_numpy(x).type(torch.LongTensor)]: truncation towards zero. *)
Definition long_of (x : Qc) : Z := Z.quot (Qnum x) (Zpos (Qden x)).

(** [torch.zeros(len(xs), n).scatter_(1, long(xs).view(-1, 1), 1)]: the
    one-hot rows; an index outside [0, n) is refused. *)
Definition one_hot {Σ} (n : nat) (xs : list Qc) : Py Σ (list (list Qc)) :=
  foldM (λ rows x,
           let i := long_of x in
           if bool_decide (0 ≤ i < Z.of_nat n)%Z
           then mret (rows ++ [(λ j, if bool_decide (j = Z.to_nat i)
                                     then 1%Qc else 0%Qc) <$> seq 0 n])
           else raise RuntimeError)
        [] xs.

(** ** Insertion-ordered dictionaries with string keys *)

Fixpoint dict_get {V} (d : list (string * V)) (key : string) : option V :=
  match d with
  | [] => None
  | (k, v) :: d' => if bool_decide (k = key) then Some v else dict_get d' key
  end.

Fixpoint dict_set {V} (d : list (string * V)) (key : string) (v : V) : list (string * V) :=
  match d with
  | [] => [(key, v)]
  | (k, w) :: d' =>
      if bool_decide (k = key) then (k, v) :: d' else (k, w) :: dict_set d' key v
  end.

Definition dict_keys {V} (d : list (string * V)) : list string := d.*1.

(** [v in strs] for a list of [str]: only a [str] equals one of them. *)
Definition in_strs (v : Val) (strs : list string) : bool :=
  match v with
  | VStr s => bool_decide (s ∈ strs)
  | _ => false
  end.

(** ** [BaseTrainManager] (base_train_manager.py) *)

Module BaseTrainManager.
Section methods.
Context {Inputs MM DL Meter : Type}.
Context `{!ModelManager MM Inputs, !DataLoader DL Inputs, !AverageMeter Meter}.

Local Abbreviation Self := (TrainManager Inputs MM DL Meter).
Local Abbreviation M := (Py Self).

(** *** Attribute assignment *)

Definition set_cfg (c : gmap string Val) (self : Self) : Self :=
  {| class_labels := class_labels self; cfg := c;
     dataloaders := dataloaders self; model_manager := model_manager self;
     logger := logger self; metrics := metrics self; calls := calls self |}.

Definition set_dataloaders (d : list (string * DL)) (self : Self) : Self :=
  {| class_labels := class_labels self; cfg := cfg self;
     dataloaders := d; model_manager := model_manager self;
     logger := logger self; metrics := metrics self; calls := calls self |}.

Definition set_model_manager (mm : option MM) (self : Self) : Self :=
  {| class_labels := class_labels self; cfg := cfg self;
     dataloaders := dataloaders self; model_manager := mm;
     logger := logger self; metrics := metrics self; calls := calls self |}.

Definition set_metrics (ms : gmap string (list (Metric Meter))) (self : Self) : Self :=
  {| class_labels := class_labels self; cfg := cfg self;
     dataloaders := dataloaders self; model_manager := model_manager self;
     logger := logger self; metrics := ms; calls := calls self |}.

Definition add_call (c : Call Inputs) (self : Self) : Self :=
  {| class_labels := class_labels self; cfg := cfg self;
     dataloaders := dataloaders self; model_manager := model_manager self;
     logger := logger self; metrics := metrics self;
     calls := calls self ++ [c] |}.

(** *** Attribute and item access *)

(** [self.cfg[key]] *)
Definition cfg_get (key : string) : M Val := λ self,
  match cfg self !! key with
  | Some v => (Ok v, self)
  | None => (Raise (KeyError key), self)
  end.

(** [self.cfg[key] = v] *)
Definition cfg_set (key : string) (v : Val) : M unit :=
  modify (λ self, set_cfg (<[key := v]> (cfg self)) self).

(** [self.dataloaders[phase]] *)
Definition dataloader (phase : string) : M DL := λ self,
  match dict_get (dataloaders self) phase with
  | Some dl => (Ok dl, self)
  | None => (Raise (KeyError phase), self)
  end.

(** [list(self.dataloaders.values())[0]] *)
Definition first_dataloader : M DL := λ self,
  match dataloaders self with
  | (_, dl) :: _ => (Ok dl, self)
  | [] => (Raise IndexError, self)
  end.

(** [enumerate(self.dataloaders[phase])]: one pass over the loader. *)
Definition batches (phase : string) : M (list (Inputs * list Qc)) :=
  dl ← dataloader phase;
  let '(bs, dl') := dl_iter dl in
  modify (λ self, set_dataloaders (dict_set (dataloaders self) phase dl') self);;
  mret bs.

(** [self.metrics[phase]] *)
Definition metrics_of (phase : string) : M (list (Metric Meter)) := λ self,
  match metrics self !! phase with
  | Some ms => (Ok ms, self)
  | None => (Raise (KeyError phase), self)
  end.

(** In-place mutation of the metric object [self.metrics[phase][i]]. *)
Definition mutate_metric (phase : string) (i : nat)
    (f : Metric Meter → Metric Meter) : M unit :=
  modify (λ self, set_metrics (alter (alter f i) phase (metrics self)) self).

Definition set_average_meter (am : Meter) (m : Metric Meter) : Metric Meter :=
  {| name := name m; save_model := save_model m; average_meter := am |}.

(** A method call on [self.model_manager]. *)
Definition call_model_manager {A} (c : Call Inputs) (f : MM → A * MM) : M A := λ self,
  match model_manager self with
  | Some mm =>
      let '(a, mm') := f mm in
      (Ok a, add_call c (set_model_manager (Some mm') self))
  | None => (Raise AttributeError, self)
  end.

(** A method call on [self.logger]. *)
Definition call_logger (c : Call Inputs) : M unit := λ self,
  match logger self with
  | Some _ => (Ok (), add_call c self)
  | None => (Raise AttributeError, self)
  end.

(** *** Methods *)

(** [check_keys_from_dict(must_contain_keys, dic)], on the keys of [dic] *)
Definition check_keys_from_dict (must_contain_keys keys : list string) : M unit :=
  for_each must_contain_keys (λ key,
    if bool_decide (key ∈ keys) then mret () else raise (AssertionError key)).

(** The object [_init_model_manager] instantiates. *)
Inductive ModelManagerObject :=
| NNModelManager (class_labels : list Val) (cfg : gmap string Val)
| MLModelManager (class_labels : list Val) (cfg : gmap string Val).

Section init_model_manager.
(** The lists imported from [ml.models.model_managers]; of the dictionary
    [supported_pretrained_models] the method uses the keys. *)
Variables supported_ml_models supported_nn_models : list string.
Variable supported_pretrained_models_keys : list string.

Definition _init_model_manager : M (option ModelManagerObject) :=
  dl ← first_dataloader;
  cfg_set "input_size" (get_input_size dl);;
  model_type ← cfg_get "model_type";
  if in_strs model_type (supported_nn_models ++ supported_pretrained_models_keys)
  then
    (if in_strs model_type ["rnn"] then
       batch_norm ← cfg_get "batch_norm";
       (if truthy batch_norm then
          dl ← first_dataloader;
          cfg_set "batch_norm_size" (get_batch_norm_size dl)
        else mret ());;
       dl ← first_dataloader;
       cfg_set "seq_len" (get_seq_len dl)
     else if in_strs model_type
               (["logmel_cnn"; "cnn"; "cnn_rnn"] ++ supported_pretrained_models_keys)
     then
       dl ← first_dataloader;
       cfg_set "image_size" (get_image_size dl);;
       dl ← first_dataloader;
       cfg_set "n_channels" (get_n_channels dl)
     else mret ());;
    self ← gets id;
    mret (Some (NNModelManager (class_labels self) (cfg self)))
  else if in_strs model_type supported_ml_models then
    self ← gets id;
    mret (Some (MLModelManager (class_labels self) (cfg self)))
  else mret None.
End init_model_manager.

(** [_record_log(phase, epoch)] *)
Definition _record_log (phase : string) (epoch : nat) : M unit :=
  ms ← metrics_of phase;
  let values :=
    foldl (λ values metric,
             dict_set values (phase +:+ "_" +:+ name metric +:+ "_mean")
                      (average (average_meter metric)))
          [] ms in
  call_logger (CLoggerUpdate epoch values).

(** [_average_tta(pred_list, label_list)]: the shape passed to [np.zeros]
    has a negative dimension. No method of these files calls it. *)
Definition _average_tta (pred_list : list (list Qc)) (label_list : list Qc)
    : M (list (list Qc) * list Qc) :=
  tta ← cfg_get "tta";
  k ← as_int tta;
  if bool_decide (k = 0)%Z then raise ZeroDivisionError else raise ValueError.

Section inherited.
(** The methods below call [self._predict], which the subclass provides. *)
Variable _predict : string → M (list Qc * list Qc).
Context `{!Sklearn}.

(** The body of [for metric in self.metrics['test']] in [test], for the
    metric at index [i]; [loss_value] is the local variable, unbound at
    first. *)
Definition test_metric (pred_list label_list : list Qc)
    (loss_value : option Qc) (im : nat * Metric Meter) : M (option Qc) :=
  let '(i, metric) := im in
  loss_value ←
    (if bool_decide (name metric = "loss") then
       task_type ← cfg_get "task_type";
       if in_strs task_type ["classify"] then
         self ← gets id;
         y_onehot ← one_hot (length (class_labels self)) label_list;
         return_prob ← cfg_get "return_prob";
         pred_onehot ←
           (if negb (truthy return_prob)
            then one_hot (length (class_labels self)) pred_list
            else raise UnboundLocalError);
         l ← call_model_manager (CCriterion (T2 pred_onehot) (T2 y_onehot))
               (λ mm, (mm_criterion mm (T2 pred_onehot) (T2 y_onehot), mm));
         mret (Some l)
       else
         model_type ← cfg_get "model_type";
         if in_strs model_type ["rnn"; "cnn"; "cnn_rnn"] then
           l ← call_model_manager (CCriterion (T1 pred_list) (T1 label_list))
                 (λ mm, (mm_criterion mm (T1 pred_list) (T1 label_list), mm));
           mret (Some l)
         else mret loss_value
     else mret (Some (Qc_of_Z 10000000)));
  match loss_value with
  | None => raise UnboundLocalError
  | Some l =>
      mutate_metric "test" i (λ metric, metric_update metric l pred_list label_list);;
      mutate_metric "test" i (λ metric,
        set_average_meter (update_best (average_meter metric)).2 metric);;
      mret loss_value
  end.

(** [test(return_metrics, load_best, phase)], with [_predict] returning
    one-dimensional predictions. *)
Definition test (return_metrics load_best : bool) (phase : string)
    : M (list Qc * list Qc * option (gmap string (list (Metric Meter)))) :=
  (if load_best
   then call_model_manager CLoadModel (λ mm, ((), mm_load_model mm))
   else mret ());;
  '(pred_list, label_list) ← _predict phase;
  return_prob ← cfg_get "return_prob";
  pred_list ← (if truthy return_prob then np_argmax_axis1 pred_list
               else mret pred_list);
  ms ← metrics_of "test";
  foldM (test_metric pred_list label_list) None (zip (seq 0 (length ms)) ms);;
  task_type ← cfg_get "task_type";
  (if in_strs task_type ["classify"] then
     self ← gets id;
     lift (confusion_matrix label_list pred_list (length (class_labels self)))
   else mret ());;
  if return_metrics then
    return_prob ← cfg_get "return_prob";
    if truthy return_prob then raise UnboundLocalError
    else self ← gets id; mret (pred_list, label_list, Some (metrics self))
  else mret (pred_list, label_list, None).

(** [infer(load_best, phase)] *)
Definition infer (load_best : bool) (phase : string) : M (list Qc) :=
  (if load_best
   then call_model_manager CLoadModel (λ mm, ((), mm_load_model mm))
   else mret ());;
  '(pred_list, _) ← _predict phase;
  mret pred_list.
End inherited.
End methods.
End BaseTrainManager.

(** ** [NNTrainManager] (nn_train_manager.py) *)

Module NNTrainManager.
Import BaseTrainManager.
Section methods.
Context {Inputs MM DL Meter : Type}.
Context `{!ModelManager MM Inputs, !DataLoader DL Inputs, !AverageMeter Meter}.
Context `{!Sklearn}.

Local Abbreviation Self := (TrainManager Inputs MM DL Meter).
Local Abbreviation M := (Py Self).

(** [_verbose(epoch, phase, i, elapsed)]: it only formats a progress
    message, from [len(self.dataloaders[phase])] and [self.metrics[phase]]. *)
Definition _verbose (epoch : nat) (phase : string) (i : nat) : M unit :=
  _ ← dataloader phase;
  _ ← metrics_of phase;
  mret ().

(** The body of [for metric in self.metrics[phase]] in [_update_by_epoch],
    for the metric at index [i]. *)
Definition update_metric_by_epoch (phase : string)
    (best_val_flag : bool) (im : nat * Metric Meter) : M bool :=
  let '(i, metric) := im in
  let '(best_flag, am) := update_best (average_meter metric) in
  mutate_metric phase i (set_average_meter am);;
  best_val_flag ←
    (if save_model metric && best_flag && bool_decide (phase = "val") then
       _ ← cfg_get "model_path";
       call_model_manager CSaveModel (λ mm, ((), mm_save_model mm));;
       mret true
     else mret best_val_flag);
  mutate_metric phase i (λ metric,
    set_average_meter (reset (average_meter metric)) metric);;
  mret best_val_flag.

(** [_update_by_epoch(phase, learning_anneal)] *)
Definition _update_by_epoch (phase : string) (learning_anneal : Val) : M bool :=
  ms ← metrics_of phase;
  best_val_flag ←
    foldM (update_metric_by_epoch phase) false (zip (seq 0 (length ms)) ms);
  (if bool_decide (phase = "train")
   then call_model_manager (CAnnealLr learning_anneal)
          (λ mm, ((), mm_anneal_lr mm learning_anneal))
   else mret ());;
  mret best_val_flag.

(** A call [self._update_by_epoch(phase, *rest)]: the method has the two
    parameters [phase] and [learning_anneal]. *)
Definition _update_by_epoch_call (phase : string) (rest : list Val) : M bool :=
  match rest with
  | [learning_anneal] => _update_by_epoch phase learning_anneal
  | _ => raise TypeError
  end.

(** [_epoch_verbose(epoch, epoch_metrics, phases)]: it only formats a
    message, from [self.model_manager.get_lr()] and [epoch_metrics[phase]]. *)
Definition _epoch_verbose (epoch : nat)
    (epoch_metrics : gmap string (list (Metric Meter))) (phases : list string) : M unit :=
  _ ← call_model_manager CGetLr (λ mm, (mm_get_lr mm, mm));
  for_each phases (λ phase,
    match epoch_metrics !! phase with
    | Some _ => mret ()
    | None => raise (KeyError phase)
    end).

(** Lines 64-75 of [_predict]: the predictions and the labels of all the
    batches of the phase, concatenated. *)
Definition _predict_batches (phase : string) : M (list Qc * list Qc) :=
  batch_size ← cfg_get "batch_size";
  self ← gets id;
  check_keys_from_dict [phase] (dict_keys (dataloaders self));;
  bs ← batches phase;
  foldM (λ '(pred_list, label_list) '(inputs, labels),
           preds ← call_model_manager (CPredict inputs)
                     (λ mm, mm_predict mm inputs);
           mret (pred_list ++ preds, label_list ++ labels))
        ([], []) bs.

(** [_predict(phase)] *)
Definition _predict (phase : string) : M (list Qc * list Qc) :=
  '(pred_list, label_list) ← _predict_batches phase;
  tta ← cfg_get "tta";
  if truthy tta then
    tta ← cfg_get "tta";
    k ← as_int tta;
    rows ← lift (np_reshape_rows k pred_list);
    let pred_list := np_mean_axis0 (Z.to_nat k) (length pred_list / Z.to_nat k) rows in
    tta ← cfg_get "tta";
    k ← as_int tta;
    let label_list := np_slice_to (Z.of_nat (length label_list) `div` k) label_list in
    mret (pred_list, label_list)
  else mret (pred_list, label_list).

(** The phases of [train]: [only_validate] overrides [with_validate]. *)
Definition phases_of (with_validate only_validate : bool) : list string :=
  let phases := if with_validate then ["train"; "val"] else ["train"] in
  if only_validate then ["val"] else phases.

(** The body of [for i, (inputs, labels) in enumerate(self.dataloaders[phase])]
    in [train]. *)
Definition train_batch (epoch : nat) (phase : string)
    (acc : list Qc * list Qc) (ib : nat * (Inputs * list Qc)) : M (list Qc * list Qc) :=
  let '(pred_list, label_list) := acc in
  let '(i, (inputs, labels)) := ib in
  '(loss, predicts) ← call_model_manager (CFit inputs labels phase)
                        (λ mm, mm_fit mm inputs labels phase);
  let pred_list := pred_list ++ predicts in
  let label_list := label_list ++ labels in
  ms ← metrics_of phase;
  match ms with
  | [] => raise IndexError
  | _ :: _ => mutate_metric phase 0 (λ metric, metric_update metric loss predicts labels)
  end;;
  _verbose epoch phase i;;
  mret (pred_list, label_list).

(** Lines 102-118 of [train]: the batches of one phase of one epoch, the
    metrics computed on the whole epoch and the log record. *)
Definition train_batches (epoch : nat) (phase : string) : M (list Qc * list Qc) :=
  bs ← batches phase;
  '(pred_list, label_list) ←
    foldM (train_batch epoch phase) ([], []) (zip (seq 0 (length bs)) bs);
  ms ← metrics_of phase;
  for_each (seq 1 (length ms - 1)) (λ i,
    mutate_metric phase i (λ metric, metric_update metric 0%Qc pred_list label_list));;
  self ← gets id;
  match logger self with
  | Some _ => _record_log phase epoch
  | None => mret ()
  end;;
  mret (pred_list, label_list).

(** The body of [for phase in phases] in [train]; the local variables
    [epoch_metrics] and [best_val_pred] are threaded. *)
Definition train_phase (epoch : nat)
    (locals : gmap string (list (Metric Meter)) * list Qc) (phase : string)
    : M (gmap string (list (Metric Meter)) * list Qc) :=
  let '(epoch_metrics, best_val_pred) := locals in
  '(pred_list, label_list) ← train_batches epoch phase;
  learning_anneal ← cfg_get "learning_anneal";
  best_val_flag ← _update_by_epoch phase learning_anneal;
  ms ← metrics_of phase;
  let epoch_metrics := <[phase := ms]> epoch_metrics in
  mret (epoch_metrics, if (best_val_flag : bool) then pred_list else best_val_pred).

(** The body of [for epoch in range(self.cfg['epochs'])] in [train]. *)
Definition train_epoch (phases : list string)
    (locals : gmap string (list (Metric Meter)) * list Qc) (epoch : nat)
    : M (gmap string (list (Metric Meter)) * list Qc) :=
  locals ← foldM (train_phase epoch) locals phases;
  _epoch_verbose epoch locals.1 phases;;
  mret locals.

(** [train(model_manager, with_validate, only_validate)] *)
Definition train (new_model_manager : option MM) (with_validate only_validate : bool)
    : M (gmap string (list (Metric Meter)) * list Qc) :=
  match new_model_manager with
  | Some mm => modify (set_model_manager (Some mm))
  | None => mret ()
  end;;
  let phases := phases_of with_validate only_validate in
  self ← gets id;
  check_keys_from_dict phases (dict_keys (dataloaders self));;
  epochs ← cfg_get "epochs";
  n ← as_int epochs;
  locals ← foldM (train_epoch phases) (∅, []) (range n);
  self ← gets id;
  match logger self with
  | Some _ => call_logger CLoggerClose
  | None => mret ()
  end;;
  (if negb with_validate
   then call_model_manager CSaveModel (λ mm, ((), mm_save_model mm))
   else mret ());;
  self ← gets id;
  mret (metrics self, locals.2).

(** The body of [for i, (inputs, labels) in enumerate(self.dataloaders[phase])]
    in [retrain]; the local variable [start] is bound only by the loop over
    [self.metrics]. *)
Definition retrain_batch (start_bound : bool) (epoch : nat) (phase : string)
    (ib : nat * (Inputs * list Qc)) : M unit :=
  let '(i, (inputs, labels)) := ib in
  '(loss, predicts) ← call_model_manager (CFit inputs labels "train")
                        (λ mm, mm_fit mm inputs labels "train");
  ms ← metrics_of phase;
  for_each (seq 0 (length ms)) (λ j,
    mutate_metric phase j (λ metric, metric_update metric loss predicts labels));;
  silent ← cfg_get "silent";
  if negb (truthy silent) then
    if start_bound then _verbose epoch phase i else raise UnboundLocalError
  else mret ().

(** [retrain()]. Iterating the dictionary [self.metrics] yields its keys,
    which are strings and have no [add_average_meter]. *)
Definition retrain : M (gmap string (list (Metric Meter))) :=
  let phase := "retrain" in
  call_model_manager CLoadModel (λ mm, ((), mm_load_model mm));;
  self ← gets id;
  let keys := (map_to_list (metrics self)).*1 in
  for_each keys (λ metric, raise AttributeError);;
  let start_bound := negb (bool_decide (keys = [])) in
  retrain_epochs ← cfg_get "retrain_epochs";
  n ← as_int retrain_epochs;
  for_each (range n) (λ epoch,
    bs ← batches phase;
    for_each (zip (seq 0 (length bs)) bs) (retrain_batch start_bound epoch phase);;
    self ← gets id;
    match logger self with
  | Some _ => _record_log phase epoch
  | None => mret ()
  end;;
    learning_anneal ← cfg_get "learning_anneal";
    _ ← _update_by_epoch_call phase [VInt (Z.of_nat epoch); learning_anneal];
    mret ());;
  _ ← test _predict true false "retrain_test";
  self ← gets id;
  mret (metrics self).
End methods.
End NNTrainManager.

(** ** A small concrete instance of the collaborators

    Used to run the methods on concrete train managers. *)

Module Demo.
(** A model manager that remembers its learning rate and how often it was
    fitted and saved; it predicts its inputs. *)
Record DemoManager := {
  lr : Qc;
  fits : nat;
  saves : nat;
}.

#[global] Instance demo_model_manager : ModelManager DemoManager (list Qc) := {|
  mm_fit mm inputs labels phase :=
    (Qc_sum inputs, inputs,
     {| lr := lr mm; fits := S (fits mm); saves := saves mm |});
  mm_predict mm inputs := (inputs, mm);
  mm_anneal_lr mm v :=
    {| lr := match v with VFloat q => (lr mm / q)%Qc | _ => lr mm end;
       fits := fits mm; saves := saves mm |};
  mm_save_model mm := {| lr := lr mm; fits := fits mm; saves := S (saves mm) |};
  mm_load_model mm := mm;
  mm_get_lr := lr;
  mm_criterion mm input target := 0%Qc;
|}.

(** A loader that yields the same batches on every pass. *)
#[global] Instance demo_data_loader : DataLoader (list (list Qc * list Qc)) (list Qc) := {|
  dl_iter dl := (dl, dl);
  dl_len := length;
  get_input_size dl := VInt 1;
  get_batch_norm_size dl := VInt 1;
  get_seq_len dl := VInt 1;
  get_image_size dl := VInt 1;
  get_n_channels dl := VInt 1;
|}.

(** A meter of the running sum and count of an epoch and of the best (lowest)
    average seen. *)
Record DemoMeter := {
  total : Qc;
  count : nat;
  best : option Qc;
}.

Definition demo_average (am : DemoMeter) : Qc :=
  match count am with
  | O => 0%Qc
  | S _ => (total am / Qc_of_Z (Z.of_nat (count am)))%Qc
  end.

#[global] Instance demo_average_meter : AverageMeter DemoMeter := {|
  update_best am :=
    match best am with
    | Some b =>
        if bool_decide (demo_average am < b)%Qc
        then (true, {| total := total am; count := count am; best := Some (demo_average am) |})
        else (false, am)
    | None => (true, {| total := total am; count := count am; best := Some (demo_average am) |})
    end;
  reset am := {| total := 0%Qc; count := 0; best := best am |};
  average := demo_average;
  metric_update metric loss preds labels :=
    {| name := name metric; save_model := save_model metric;
       average_meter := {| total := (total (average_meter metric) + loss)%Qc;
                           count := S (count (average_meter metric));
                           best := best (average_meter metric) |} |};
|}.

#[global] Instance demo_sklearn : Sklearn := {|
  confusion_matrix y_true y_pred n := Ok ();
|}.

Definition fresh_meter : DemoMeter := {| total := 0%Qc; count := 0; best := None |}.

Definition loss_metric : Metric DemoMeter :=
  {| name := "loss"; save_model := true; average_meter := fresh_meter |}.

Definition one_batch : list (list Qc * list Qc) :=
  [(Qc_of_Z <$> [1; 2; 3; 4]%Z, Qc_of_Z <$> [0; 1; 0; 1]%Z)].

(** A train manager with one batch per phase and one [loss] metric per phase. *)
Definition manager (c : gmap string Val)
    : TrainManager (list Qc) DemoManager (list (list Qc * list Qc)) DemoMeter :=
  {| class_labels := [VInt 0; VInt 1];
     cfg := c;
     dataloaders := [("train", one_batch); ("val", one_batch); ("test", one_batch);
                     ("retrain", one_batch); ("retrain_test", one_batch)];
     model_manager := Some {| lr := 1%Qc; fits := 0; saves := 0 |};
     logger := None;
     metrics := list_to_map [("train", [loss_metric]); ("val", [loss_metric]);
                             ("test", [loss_metric]); ("retrain", [loss_metric]);
                             ("retrain_test", [loss_metric])];
     calls := [] |}.

Definition config : gmap string Val :=
  list_to_map [("epochs", VInt 2); ("retrain_epochs", VInt 1);
               ("learning_anneal", VFloat (Qc_of_Z 2));
               ("model_path", VStr "model.pth"); ("model_type", VStr "cnn");
               ("batch_size", VInt 4); ("tta", VInt 2);
               ("task_type", VStr "classify"); ("return_prob", VBool false);
               ("silent", VBool true); ("batch_norm", VBool false)].
End Demo.

(** ** Files *)

(** The files a process sees: their contents, and the paths that cannot be
    opened for writing (missing directory, no permission). *)
Record FileSystem := {
  files : gmap string string;
  locked : gset string;
}.

(** [open(path, 'w')]: the file exists and is empty afterwards. *)
Definition open_w (path : string) (disk : FileSystem) : Result FileSystem :=
  if bool_decide (path ∈ locked disk) then Raise OSError
  else Ok {| files := <[path := ""]> (files disk); locked := locked disk |}.

(** [f.write(text)] on the file opened at [path]. *)
Definition write (path text : string) (disk : FileSystem) : FileSystem :=
  {| files := alter (λ old, old +:+ text) path (files disk); locked := locked disk |}.

(** [open(path, 'r').read()] *)
Definition read (path : string) (disk : FileSystem) : Result string :=
  match files disk !! path with
  | Some text => Ok text
  | None => Raise OSError
  end.

(** ** [BaseMLPredictor] (toolbox.py) *)

Module BaseMLPredictor.

(** The scikit-learn estimator behind [self.model], [sklearn.metrics.log_loss]
    and [pickle]; they return or raise. *)
Class Estimator (Model X Y : Type) := {
  (** [model.fit(x, y)] fits the estimator in place *)
  sk_fit : Model → X → Y → Result unit * Model;
  sk_predict : Model → X → Result (list Qc);
  sk_predict_proba : Model → X → Result (list (list Qc));
  log_loss : Y → list (list Qc) → list Val → Result Qc;
  pickle_dumps : Model → string;
  pickle_loads : string → Result Model;
}.

Section methods.
Context {Model X Y : Type} `{!Estimator Model X Y}.

(** [self]; [self.model] is set by the subclasses only. *)
Record Predictor := {
  class_labels : list Val;
  cfg : gmap string Val;
  fitted : bool;
  model : option Model;
}.

(** The predictor and the files of its process. *)
Record World := {
  self : Predictor;
  disk : FileSystem;
}.

Local Abbreviation M := (Py World).

(** [BaseMLPredictor.__init__(class_labels, cfg)]; [KNN], [SGDC], [SVM] and
    [NaiveBayes] also set [self.model] to the estimator they build, which is
    [estimator] here. *)
Definition __init__ (class_labels : list Val) (cfg : gmap string Val)
    (estimator : option Model) : Predictor :=
  {| class_labels := class_labels; cfg := cfg; fitted := false; model := estimator |}.

Definition set_fitted (b : bool) (w : World) : World :=
  {| self := {| class_labels := class_labels (self w); cfg := cfg (self w);
                fitted := b; model := model (self w) |};
     disk := disk w |}.

Definition set_model (m : Model) (w : World) : World :=
  {| self := {| class_labels := class_labels (self w); cfg := cfg (self w);
                fitted := fitted (self w); model := Some m |};
     disk := disk w |}.

Definition set_disk (d : FileSystem) (w : World) : World :=
  {| self := self w; disk := d |}.

(** [self.model] *)
Definition the_model : M Model := λ w,
  match model (self w) with
  | Some m => (Ok m, w)
  | None => (Raise AttributeError, w)
  end.

(** [save_model(fname)] *)
Definition save_model (fname : string) : M unit :=
  w ← gets id;
  d ← lift (open_w fname (disk w));
  modify (set_disk d);;
  m ← the_model;
  modify (λ w, set_disk (write fname (pickle_dumps m) (disk w)) w).

(** [load_model(fname)] *)
Definition load_model (fname : string) : M unit :=
  w ← gets id;
  bytes ← lift (read fname (disk w));
  m ← lift (pickle_loads bytes);
  modify (set_model m);;
  modify (set_fitted true).

(** [fit(x, y)] *)
Definition fit (x : X) (y : Y) : M Qc :=
  modify (set_fitted true);;
  m ← the_model;
  let '(r, m') := sk_fit m x y in
  modify (set_model m');;
  lift r;;
  m ← the_model;
  proba ← lift (sk_predict_proba m x);
  w ← gets id;
  lift (log_loss y proba (class_labels (self w))).

(** [predict(x)] *)
Definition predict (x : X) : M (list Qc) :=
  w ← gets id;
  if negb (fitted (self w)) then raise NotFittedError
  else
    m ← the_model;
    lift (sk_predict m x).

(** [predict_proba(x)] *)
Definition predict_proba (x : X) : M (list (list Qc)) :=
  m ← the_model;
  lift (sk_predict_proba m x).

(** *** Sequences of method calls on one predictor *)

Inductive Op :=
| OSaveModel (fname : string)
| OLoadModel (fname : string)
| OFit (x : X) (y : Y)
| OPredict (x : X)
| OPredictProba (x : X).

Definition perform (op : Op) : M unit :=
  match op with
  | OSaveModel fname => save_model fname
  | OLoadModel fname => load_model fname
  | OFit x y => _ ← fit x y; mret ()
  | OPredict x => _ ← predict x; mret ()
  | OPredictProba x => _ ← predict_proba x; mret ()
  end.

Definition returned {A} (r : Result A) : bool :=
  match r with Ok _ => true | Raise _ => false end.

(** A caller performs [ops] in order and goes on after an exception; the log
    tells which calls returned. *)
Fixpoint run (ops : list Op) (w : World) : list (Op * bool) * World :=
  match ops with
  | [] => ([], w)
  | op :: ops' =>
      let '(r, w') := perform op w in
      let '(log, w'') := run ops' w' in
      ((op, returned r) :: log, w'')
  end.

Definition is_fit (op : Op) : bool :=
  match op with OFit _ _ => true | _ => false end.

Definition is_load_model (op : Op) : bool :=
  match op with OLoadModel _ => true | _ => false end.

(** Neither [fit] nor [load_model] is among the calls [ops]. *)
Definition neither_called (ops : list Op) : Prop :=
  Forall (λ op, is_fit op = false ∧ is_load_model op = false) ops.

(** No [fit] was called and no call of [load_model] returned. *)
Definition never_fitted (log : list (Op * bool)) : Prop :=
  Forall (λ '(op, ok), is_fit op = false ∧ (is_load_model op = true → ok = false)) log.
End methods.
End BaseMLPredictor.

(** A small estimator, to run predictors on concrete inputs: it memorises
    the labels it was fitted on, refuses to fit on no label at all, and
    pickles to a fixed text. *)
Module DemoEstimator.
#[global] Instance demo_estimator : BaseMLPredictor.Estimator (list Qc) (list Qc) (list Qc) := {|
  BaseMLPredictor.sk_fit m x y :=
    match y with
    | [] => (Raise ValueError, m)
    | _ :: _ => (Ok (), y)
    end;
  BaseMLPredictor.sk_predict m x := Ok m;
  BaseMLPredictor.sk_predict_proba m x := Ok [m];
  BaseMLPredictor.log_loss y proba labels := Ok 0%Qc;
  BaseMLPredictor.pickle_dumps m := "pickled";
  BaseMLPredictor.pickle_loads bytes :=
    if bool_decide (bytes = "pickled") then Ok [] else Raise ValueError;
|}.

Definition empty_disk : FileSystem := {| files := ∅; locked := ∅ |}.

(** A predictor of a subclass, just constructed, in a process with no file. *)
Definition fresh : BaseMLPredictor.World (Model:=list Qc) :=
  {| BaseMLPredictor.self := BaseMLPredictor.__init__ [VInt 0; VInt 1] ∅ (Some []);
     BaseMLPredictor.disk := empty_disk |}.

(** A predictor of the base class itself: no [self.model]. *)
Definition fresh_base : BaseMLPredictor.World (Model:=list Qc) :=
  {| BaseMLPredictor.self := BaseMLPredictor.__init__ [VInt 0; VInt 1] ∅ None;
     BaseMLPredictor.disk := empty_disk |}.
End DemoEstimator.

(** ** Python's [json] module, as [dump_dict] uses it

    [json.dump(obj, fp, indent=4)] and [json.load(fp)] on the objects below.
    A [str] is a sequence of the code points U+0000 to U+00FF; [float] is
    not modelled (neither as a value nor as a number the decoder reads).
    The characters ["034"] and ["092"] are the double quote and the
    backslash. *)

#[warnings="-register-all"]
Inductive PyObj :=
| PNone
| PBool (b : bool)
| PInt (z : Z)
| PStr (s : string)
| PList (items : list PyObj)
| PTuple (items : list PyObj)
| PDict (items : list (PyObj * PyObj)).

Module json.

(** *** Encoding *)

(** [int.__repr__] *)
Definition int_repr (z : Z) : string :=
  (if (z <? 0)%Z then "-" else "")
  +:+ NilEmpty.string_of_uint (N.to_uint (Z.abs_N z)).

Definition hex_digit (n : N) : ascii :=
  if (n <? 10)%N then ascii_of_N (48 + n) else ascii_of_N (87 + n).

(** One character of a string, as [encode_basestring_ascii] writes it. *)
Definition escape (c : ascii) : string :=
  if Ascii.eqb c "034" then String "092" (String "034" "")
  else if Ascii.eqb c "092" then String "092" (String "092" "")
  else if Ascii.eqb c "010" then String "092" "n"
  else if Ascii.eqb c "013" then String "092" "r"
  else if Ascii.eqb c "009" then String "092" "t"
  else if Ascii.eqb c "008" then String "092" "b"
  else if Ascii.eqb c "012" then String "092" "f"
  else if (N_of_ascii c <? 32)%N || (126 <? N_of_ascii c)%N then
    String "092" (String "u" (String "0" (String "0"
      (String (hex_digit (N_of_ascii c / 16))
         (String (hex_digit (N_of_ascii c mod 16)) "")))))
  else String c "".

Fixpoint escape_all (s : string) : string :=
  match s with
  | EmptyString => ""
  | String c s' => escape c +:+ escape_all s'
  end.

(** [encode_basestring_ascii(s)] *)
Definition encode_basestring_ascii (s : string) : string :=
  String "034" (escape_all s +:+ String "034" "").

Fixpoint spaces (n : nat) : string :=
  match n with
  | O => ""
  | S n' => String " " (spaces n')
  end.

(** ['\n' + ' ' * 4 * level] *)
Definition newline_indent (level : nat) : string :=
  String "010" (spaces (4 * level)).

(** The text of a key of a dictionary; other keys are a [TypeError]. *)
Definition key_text (key : PyObj) : option string :=
  match key with
  | PStr s => Some s
  | PBool true => Some "true"
  | PBool false => Some "false"
  | PNone => Some "null"
  | PInt z => Some (int_repr z)
  | _ => None
  end.

(** The chunks written for the items [xs] of a list or of a dictionary, the
    first one after [sep], and for the closing bracket. [enc] gives the text
    of one item and whether it is complete, or nothing when the item is
    refused before anything is written for it. Encoding stops at the first
    item that cannot be encoded. *)
Definition encode_items {A} (enc : A → option (string * bool))
    (level : nat) (close : string) : string → list A → string * bool :=
  fix loop sep xs :=
    match xs with
    | [] => (newline_indent level +:+ close, true)
    | x :: xs' =>
        match enc x with
        | Some (t, true) =>
            let '(t', ok) := loop ("," +:+ newline_indent (S level)) xs' in
            (sep +:+ t +:+ t', ok)
        | Some (t, false) => (sep +:+ t, false)
        | None => ("", false)
        end
    end.

(** The text [JSONEncoder(indent=4).iterencode(o)] yields at nesting depth
    [level], and whether it is complete ([false]: a [TypeError] stopped it). *)
Fixpoint encode (level : nat) (o : PyObj) : string * bool :=
  match o with
  | PNone => ("null", true)
  | PBool true => ("true", true)
  | PBool false => ("false", true)
  | PInt z => (int_repr z, true)
  | PStr s => (encode_basestring_ascii s, true)
  | PList [] | PTuple [] => ("[]", true)
  | PList items | PTuple items =>
      let '(t, ok) :=
        encode_items (λ value, Some (encode (S level) value))
          level "]" (newline_indent (S level)) items in
      ("[" +:+ t, ok)
  | PDict [] => ("{}", true)
  | PDict items =>
      let '(t, ok) :=
        encode_items
          (λ '(key, value),
             match key_text key with
             | Some k =>
                 let '(t, ok) := encode (S level) value in
                 Some (encode_basestring_ascii k +:+ ": " +:+ t, ok)
             | None => None
             end)
          level "}" "" items in
      ("{" +:+ newline_indent (S level) +:+ t, ok)
  end.

(** *** Decoding *)














(** [json.dump(obj, fp, indent=4)] on the file opened at [path]: the chunks
    are written as they come. *)
Definition dump (o : PyObj) (path : string) : Py FileSystem unit :=
  let '(text, ok) := encode 0 o in
  modify (write path text);;
  if ok then mret () else raise TypeError.


(** *** The dictionaries that are JSON objects *)





(** [rest] is what the encoder writes after a value: nothing, a comma or a
    new line. *)
Definition delimited (rest : string) : bool :=
  match rest with
  | EmptyString => true
  | String c _ => Ascii.eqb c "," || Ascii.eqb c "010"
  end.




End json.

(** ** [ml/utils/utils.py] *)

Module utils.
(** [dump_dict(path, dict_)] *)
Definition dump_dict (path : string) (dict_ : PyObj) : Py FileSystem unit :=
  disk ← gets id;
  opened ← lift (open_w path disk);
  modify (λ _, opened);;
  json.dump dict_ path.

End utils.

(** ** The course of a call of [NNTrainManager.train]

    What [train] did is described by the list of its epochs, each with the
    list of its phase runs; a run records the train manager when the phase
    starts, when its batches are done ([_update_by_epoch] is then called) and
    when [_update_by_epoch] has returned. *)

Module TrainHistory.
Import BaseTrainManager NNTrainManager.
Section history.
Context {Inputs MM DL Meter : Type}.
Context `{!ModelManager MM Inputs, !DataLoader DL Inputs, !AverageMeter Meter}.
Context `{!Sklearn}.

Local Abbreviation Self := (TrainManager Inputs MM DL Meter).

Record PhaseRun := {
  run_phase : string;
  run_start : Self;
  run_preds : list Qc;
  run_labels : list Qc;
  run_end : Self;
  run_best : bool;
  run_stop : Self;
}.

Record EpochRun := {
  epoch_no : nat;
  phase_runs : list PhaseRun;
  epoch_stop : Self;
}.

(** The calls made between two states of the same train manager. *)
Definition calls_since (σ σ' : Self) : list (Call Inputs) :=
  drop (length (calls σ)) (calls σ').

(** The calls of a whole phase run, and those of its [_update_by_epoch]. *)
Definition run_calls (r : PhaseRun) : list (Call Inputs) :=
  calls_since (run_start r) (run_stop r).

(** [r] is a run of the body of [for phase in phases] in epoch [epoch]. *)
Definition is_phase_run (epoch : nat) (r : PhaseRun) : Prop :=
  ∃ learning_anneal,
    train_batches epoch (run_phase r) (run_start r)
      = (Ok (run_preds r, run_labels r), run_end r) ∧
    cfg (run_end r) !! "learning_anneal" = Some learning_anneal ∧
    _update_by_epoch (run_phase r) learning_anneal (run_end r)
      = (Ok (run_best r), run_stop r).

(** The runs [rs] follow one another from [σ] to [σ']. *)
Fixpoint linked (σ : Self) (rs : list PhaseRun) (σ' : Self) : Prop :=
  match rs with
  | [] => σ' = σ
  | r :: rs' => run_start r = σ ∧ linked (run_stop r) rs' σ'
  end.

(** [er] is a run of the body of [for epoch in range(...)] from [σ]: the
    phases in order, then [_epoch_verbose], which asks the model manager for
    its learning rate. *)
Definition is_epoch_run (phases : list string) (σ : Self) (er : EpochRun) : Prop :=
  run_phase <$> phase_runs er = phases ∧
  Forall (is_phase_run (epoch_no er)) (phase_runs er) ∧
  ∃ σ_mid, linked σ (phase_runs er) σ_mid ∧ epoch_stop er = add_call CGetLr σ_mid.

Fixpoint linked_epochs (phases : list string) (σ : Self)
    (ers : list EpochRun) (σ' : Self) : Prop :=
  match ers with
  | [] => σ' = σ
  | er :: ers' => is_epoch_run phases σ er ∧ linked_epochs phases (epoch_stop er) ers' σ'
  end.

(** All the phase runs of a call, in order. *)
Definition all_runs (ers : list EpochRun) : list PhaseRun :=
  ers ≫= phase_runs.

(** The value of the local variable [best_val_pred] after the runs [rs]. *)
Definition best_val_pred_after (rs : list PhaseRun) : list Qc :=
  foldl (λ best r, if run_best r then run_preds r else best) [] rs.

(** A metric that asks for checkpoints and whose meter reports a new best
    value when [update_best] is called on it. *)
Definition attains_best (metric : Metric Meter) : bool :=
  save_model metric && (update_best (average_meter metric)).1.

(** A metric once [_update_by_epoch] is done with it: the best value of its
    meter updated, then the meter reset. *)
Definition end_of_epoch (metric : Metric Meter) : Metric Meter :=
  set_average_meter (reset (update_best (average_meter metric)).2) metric.

(** The number of [save_model] calls of [_update_by_epoch] on the metrics [ms]. *)
Definition saves_of (phase : string) (ms : list (Metric Meter)) : nat :=
  if bool_decide (phase = "val") then length (filter (λ m, attains_best m = true) ms) else 0.

(** What [train] does before its loops: the replacement of the model manager. *)
Definition train_start (new_model_manager : option MM) (σ : Self) : Self :=
  match new_model_manager with
  | Some mm => set_model_manager (Some mm) σ
  | None => σ
  end.

(** [ers] is the course of [train(new_model_manager, with_validate,
    only_validate)] called on [σ], whose loops end in [σ']. *)
Definition is_train_history (new_model_manager : option MM)
    (with_validate only_validate : bool) (σ : Self)
    (ers : list EpochRun) (σ' : Self) : Prop :=
  ∃ n,
    cfg σ !! "epochs" ≫= int_of = Some n ∧
    epoch_no <$> ers = range n ∧
    linked_epochs (phases_of with_validate only_validate)
      (train_start new_model_manager σ) ers σ'.

Definition is_save (c : Call Inputs) : bool :=
  match c with CSaveModel => true | _ => false end.


(** The meter of [metric] has just been reset. *)
Definition is_reset (metric : Metric Meter) : Prop :=
  ∃ am, average_meter metric = reset am.

(** The meters of the phases [phases] have all just been reset. *)
Definition resets (phases : list string) (σ : Self) : Prop :=
  ∀ p, p ∈ phases → ∃ ms, metrics σ !! p = Some ms ∧ Forall is_reset ms.

(** The calls of the batches of a phase: fits and log records. *)
Definition is_batch_call (c : Call Inputs) : Prop :=
  match c with
  | CFit _ _ _ | CLoggerUpdate _ _ => True
  | _ => False
  end.

(** [later phase σ σ' cs]: [σ'] is [σ] after the calls [cs] were made and the
    metric objects of [phase] were updated in place; nothing else changed
    but the states of the model manager and of the data loaders. *)
Record later (phase : string) (σ σ' : Self) (cs : list (Call Inputs)) : Prop := {
  later_cfg : cfg σ' = cfg σ;
  later_class_labels : class_labels σ' = class_labels σ;
  later_logger : logger σ' = logger σ;
  later_model_manager : is_Some (model_manager σ) → is_Some (model_manager σ');
  later_dataloaders : dict_keys (dataloaders σ') = dict_keys (dataloaders σ);
  later_metrics : ∀ q, q ≠ phase → metrics σ' !! q = metrics σ !! q;
  later_length : length <$> metrics σ' !! phase = length <$> metrics σ !! phase;
  later_calls : calls σ' = calls σ ++ cs;
}.

(** What a phase run did, from the specifications of its two halves. *)
Definition phase_run_facts (r : PhaseRun) : Prop :=
  ∃ cs ms,
    later (run_phase r) (run_start r) (run_end r) cs ∧
    Forall is_batch_call cs ∧
    metrics (run_end r) !! run_phase r = Some ms ∧
    run_best r = bool_decide (0 < saves_of (run_phase r) ms) ∧
    metrics (run_stop r) !! run_phase r = Some (end_of_epoch <$> ms) ∧
    ∃ learning_anneal,
      cfg (run_start r) !! "learning_anneal" = Some learning_anneal ∧
      later (run_phase r) (run_end r) (run_stop r)
        (replicate (saves_of (run_phase r) ms) CSaveModel
         ++ if bool_decide (run_phase r = "train")
            then [CAnnealLr learning_anneal] else []).

(** The local variable [best_val_pred] after one more run. *)
Definition next_best (best : list Qc) (r : PhaseRun) : list Qc :=
  if run_best r then run_preds r else best.

(** The calls of an epoch: those of its phase runs, then the one of
    [_epoch_verbose]. *)
Definition epoch_calls (er : EpochRun) : list (Call Inputs) :=
  concat (run_calls <$> phase_runs er) ++ [CGetLr].

(** The calls of [train] after its loops. *)
Definition closing_calls (with_validate : bool) (lg : option TensorBoardLogger)
    : list (Call Inputs) :=
  match lg with Some _ => [CLoggerClose] | None => [] end
  ++ if with_validate then [] else [CSaveModel].

(** Enough for [train] to run to its end: a model manager, the
    configuration keys it reads, and for every phase a data loader and a
    non-empty list of metrics. *)
Definition phase_ready (σ : Self) (phase : string) : bool :=
  match dict_get (dataloaders σ) phase, metrics σ !! phase with
  | Some _, Some (_ :: _) => true
  | _, _ => false
  end.

Definition ready (phases : list string) (σ : Self) : bool :=
  bool_decide (is_Some (model_manager σ))
  && bool_decide (is_Some (cfg σ !! "learning_anneal"))
  && bool_decide (is_Some (cfg σ !! "model_path"))
  && forallb (phase_ready σ) phases.

Definition train_ready (new_model_manager : option MM)
    (with_validate only_validate : bool) (σ : Self) : bool :=
  ready (phases_of with_validate only_validate) (train_start new_model_manager σ)
  && bool_decide (is_Some (cfg σ !! "epochs" ≫= int_of)).
End history.
End TrainHistory.

(** ** Evaluation: what [_predict], [test] and [infer] compute *)

Module Evaluation.
Import BaseTrainManager NNTrainManager.
Section evaluation.
Context {Inputs MM DL Meter : Type}.
Context `{!ModelManager MM Inputs, !DataLoader DL Inputs, !AverageMeter Meter}.

Local Abbreviation Self := (TrainManager Inputs MM DL Meter).

(** The predictions of the model manager [mm] on the batches [inputs], one
    after the other, concatenated, and the model manager afterwards. *)
Fixpoint predict_all (mm : MM) (inputs : list Inputs) : list Qc * MM :=
  match inputs with
  | [] => ([], mm)
  | x :: inputs' =>
      let '(preds, mm') := mm_predict mm x in
      let '(preds', mm'') := predict_all mm' inputs' in
      (preds ++ preds', mm'')
  end.

(** The train manager after the calls [cs] that left its model manager as
    [mm]; [dls] are its data loaders then. *)
Definition after_calls (cs : list (Call Inputs)) (mm : MM)
    (dls : list (string * DL)) (σ : Self) : Self :=
  {| class_labels := class_labels σ; cfg := cfg σ; dataloaders := dls;
     model_manager := Some mm; logger := logger σ; metrics := metrics σ;
     calls := calls σ ++ cs |}.

(** The loss [test] hands to a metric in a classification task: the value of
    the criterion for the metric named ['loss'], ten millions for another. *)
Definition test_loss (criterion_value : Qc) (metric : Metric Meter) : Qc :=
  if bool_decide (name metric = "loss") then criterion_value
  else Qc_of_Z 10000000.

(** A metric of [self.metrics['test']] once [test] is done with it: updated
    with the loss, the predictions and the labels, then its best value
    updated. *)
Definition tested (loss : Qc) (preds labels : list Qc) (metric : Metric Meter)
    : Metric Meter :=
  let metric' := metric_update metric loss preds labels in
  set_average_meter (update_best (average_meter metric')).2 metric'.

(** The rows [torch.zeros(len(xs), n).scatter_(1, xs, 1)] has when every
    index is a class. *)
Definition one_hot_rows (n : nat) (xs : list Qc) : list (list Qc) :=
  (λ x, (λ j, if bool_decide (j = Z.to_nat (long_of x)) then 1%Qc else 0%Qc)
          <$> seq 0 n) <$> xs.

(** Every entry of [xs] is the index of one of [n] classes. *)
Definition class_indices (n : nat) (xs : list Qc) : Prop :=
  Forall (λ x, (0 ≤ long_of x < Z.of_nat n)%Z) xs.

Definition is_fit (c : Call Inputs) : bool :=
  match c with CFit _ _ _ => true | _ => false end.

(** The train manager once [test] has loaded the checkpoint, if asked to. *)
Definition loaded (load_best : bool) (σ : Self) : Self :=
  match load_best, model_manager σ with
  | true, Some mm => add_call CLoadModel (set_model_manager (Some (mm_load_model mm)) σ)
  | _, _ => σ
  end.

(** The train manager with [ms] for [self.metrics['test']], after the calls
    [cs] that left the model manager as [mm]. *)
Definition with_test_metrics (ms : list (Metric Meter)) (cs : list (Call Inputs))
    (mm : MM) (σ : Self) : Self :=
  {| class_labels := class_labels σ; cfg := cfg σ; dataloaders := dataloaders σ;
     model_manager := Some mm; logger := logger σ;
     metrics := <["test" := ms]> (metrics σ);
     calls := calls σ ++ cs |}.

(** The calls of the criterion [test] makes in a classification task: one
    for every metric named ['loss']. *)
Definition criterion_calls (input target : Tensor) (ms : list (Metric Meter))
    : list (Call Inputs) :=
  ms ≫= λ metric,
    if bool_decide (name metric = "loss") then [CCriterion input target] else [].
End evaluation.
End Evaluation.

(** A train manager to evaluate: its model predicts the class indices it is
    given, and nothing is averaged over augmented copies. *)
Module DemoEvaluation.
Import Demo.

Definition test_batches : list (list Qc * list Qc) :=
  [(Qc_of_Z <$> [0; 1; 1]%Z, Qc_of_Z <$> [0; 1; 0]%Z);
   (Qc_of_Z <$> [1]%Z, Qc_of_Z <$> [1]%Z)].

Definition accuracy_metric : Metric DemoMeter :=
  {| name := "accuracy"; save_model := false; average_meter := fresh_meter |}.

Definition config : gmap string Val :=
  <["tta" := VInt 0]> Demo.config.

Definition manager (c : gmap string Val)
    : TrainManager (list Qc) DemoManager (list (list Qc * list Qc)) DemoMeter :=
  {| class_labels := [VInt 0; VInt 1];
     cfg := c;
     dataloaders := [("train", one_batch); ("test", test_batches)];
     model_manager := Some {| lr := 1%Qc; fits := 0; saves := 0 |};
     logger := Some (TBLogger (VStr "results") (VStr "log"));
     metrics := list_to_map [("train", [loss_metric]);
                             ("test", [accuracy_metric; loss_metric])];
     calls := [] |}.
End DemoEvaluation.

(** ** [KNN] (toolbox.py) *)

Module KNN.
Import BaseMLPredictor.
Section methods.
Context {Model X Y : Type} `{!Estimator Model X Y}.

Local Abbreviation M := (Py (World (Model:=Model))).

(** [np.eye(n)[idx]]: the rows of the identity matrix at the indices [idx];
    a negative index counts from the end, an index outside [-n, n) is
    refused. *)
Definition np_eye_rows {Σ} (n : nat) (idx : list Z) : Py Σ (list (list Qc)) :=
  foldM (λ rows i,
           if bool_decide (- Z.of_nat n ≤ i < Z.of_nat n)%Z
           then mret (rows ++ [(λ j, if bool_decide (j = Z.to_nat (i `mod` Z.of_nat n))
                                     then 1%Qc else 0%Qc) <$> seq 0 n])
           else raise IndexError)
        [] idx.

(** [KNN.predict_proba(x)]:
    [np.eye(len(self.class_labels))[self.model.predict(x).astype(int)]] *)
Definition predict_proba (x : X) : M (list (list Qc)) :=
  w ← gets id;
  m ← the_model;
  preds ← lift (sk_predict m x);
  np_eye_rows (length (class_labels (self w))) (long_of <$> preds).
End methods.
End KNN.

(** ** The characters of a text *)

Module Text.

End Text.

(** ** What [json.load] gives back for a value [json.dump] wrote *)

Module Reload.
Import json.





End Reload.

(** * Theorems *)

Import BaseTrainManager NNTrainManager TrainHistory.

(** ** The method monad *)

Section monad.
Context {Σ : Type}.

Lemma bind_ok {A B} (m : Py Σ A) (f : A → Py Σ B) σ a σ' :
  m σ = (Ok a, σ') → (m ≫= f) σ = f a σ'.
Proof. unfold mbind, Py_bind. by intros ->. Qed.

Lemma bind_raise {A B} (m : Py Σ A) (f : A → Py Σ B) σ e σ' :
  m σ = (Raise e, σ') → (m ≫= f) σ = (Raise e, σ').
Proof. unfold mbind, Py_bind. by intros ->. Qed.

Lemma returns_iff {A} (m : Py Σ A) σ Q :
  returns m σ Q ↔ ∃ a σ', m σ = (Ok a, σ') ∧ Q a σ'.
Proof.
  unfold returns. destruct (m σ) as [[a|e] σ']; split.
  - eauto.
  - by intros (? & ? & [= <- <-] & ?).
  - done.
  - by intros (? & ? & [=] & ?).
Qed.

Lemma returns_inv {A} (m : Py Σ A) σ a σ' (Q : A → Σ → Prop) :
  returns m σ Q → m σ = (Ok a, σ') → Q a σ'.
Proof. unfold returns. intros HQ E. by rewrite E in HQ. Qed.

Lemma returns_ret {A} (a : A) σ (Q : A → Σ → Prop) : Q a σ → returns (mret a) σ Q.
Proof. done. Qed.

Lemma returns_bind {A B} (m : Py Σ A) (f : A → Py Σ B) σ Q :
  returns m σ (λ a σ', returns (f a) σ' Q) → returns (m ≫= f) σ Q.
Proof.
  unfold returns at 1. destruct (m σ) as [[a|e] σ'] eqn:E; [|done].
  intros Hf. unfold returns. by rewrite (bind_ok _ _ _ _ _ E).
Qed.

Lemma returns_mono {A} (m : Py Σ A) σ (Q Q' : A → Σ → Prop) :
  returns m σ Q → (∀ a σ', Q a σ' → Q' a σ') → returns m σ Q'.
Proof. unfold returns. destruct (m σ) as [[a|e] σ']; eauto. Qed.

Lemma returns_gets {A} (f : Σ → A) σ (Q : A → Σ → Prop) :
  Q (f σ) σ → returns (gets f) σ Q.
Proof. done. Qed.

Lemma returns_modify (f : Σ → Σ) σ (Q : unit → Σ → Prop) :
  Q () (f σ) → returns (modify f) σ Q.
Proof. done. Qed.

(** The invariant rule of a [for] loop: [I done acc σ] holds after the items
    [done] have been processed. *)
Lemma returns_foldM {A B} (body : B → A → Py Σ B) (I : list A → B → Σ → Prop) l :
  ∀ done acc σ,
    I done acc σ →
    (∀ done' x acc σ, I done' acc σ → x ∈ l →
       returns (body acc x) σ (I (done' ++ [x]))) →
    returns (foldM body acc l) σ (I (done ++ l)).
Proof.
  induction l as [|x l IH]; intros done acc σ HI Hbody; simpl.
  - rewrite app_nil_r. by apply returns_ret.
  - apply returns_bind. eapply returns_mono.
    + apply (Hbody done x acc σ HI). by left.
    + intros acc' σ' HI'. simpl in HI'.
      replace (done ++ x :: l) with ((done ++ [x]) ++ l) by (by rewrite <-app_assoc).
      apply IH; [done|]. intros. apply Hbody; [done|]. by right.
Qed.

Lemma returns_for_each {A} (body : A → Py Σ unit) (I : list A → Σ → Prop) l σ :
  I [] σ →
  (∀ done x σ, I done σ → x ∈ l → returns (body x) σ (λ _, I (done ++ [x]))) →
  returns (for_each l body) σ (λ _, I l).
Proof.
  intros HI Hbody. unfold for_each.
  eapply returns_mono.
  - apply (returns_foldM (λ _ x, body x) (λ done _, I done) l [] () σ HI).
    intros done' x [] σ' HI' Hx. apply Hbody; done.
  - by intros [] σ'.
Qed.
End monad.

(** ** Insertion-ordered dictionaries *)

Lemma dict_get_is_Some {V} (d : list (string * V)) key :
  is_Some (dict_get d key) ↔ key ∈ dict_keys d.
Proof.
  unfold dict_keys. induction d as [|[k v] d IH]; simpl.
  - split; [by intros [? [=]] | by intros ?%elem_of_nil].
  - case_bool_decide as Hk; subst.
    + split; [intros _; by left | by eauto].
    + rewrite IH. split; [by right|]. intros [?|?]%elem_of_cons; [congruence|done].
Qed.

Lemma dict_keys_set {V} (d : list (string * V)) key v :
  is_Some (dict_get d key) → dict_keys (dict_set d key v) = dict_keys d.
Proof.
  unfold dict_keys. induction d as [|[k w] d IH]; simpl.
  - by intros [? [=]].
  - case_bool_decide; simpl; [done|]. intros ?. f_equal. by apply IH.
Qed.

(** ** How a train manager evolves *)

Section train_manager.
Context {Inputs MM DL Meter : Type}.
Context `{!ModelManager MM Inputs, !DataLoader DL Inputs, !AverageMeter Meter}.
Context `{!Sklearn}.

Local Abbreviation Self := (TrainManager Inputs MM DL Meter).
Implicit Types σ : Self.

Lemma later_refl phase σ : later phase σ σ [].
Proof. split; try done. by rewrite app_nil_r. Qed.

Lemma later_trans phase σ1 σ2 σ3 cs cs' :
  later phase σ1 σ2 cs → later phase σ2 σ3 cs' → later phase σ1 σ3 (cs ++ cs').
Proof.
  intros [] []. split; try congruence; eauto.
  - intros q Hq. rewrite later_metrics1, later_metrics0; done.
  - by rewrite later_calls1, later_calls0, app_assoc.
Qed.

Lemma later_length_any phase σ σ' cs q :
  later phase σ σ' cs → length <$> metrics σ' !! q = length <$> metrics σ !! q.
Proof.
  intros []. destruct (decide (q = phase)) as [->|]; [done|]. by rewrite later_metrics0.
Qed.

Lemma later_call phase σ c mm :
  later phase σ (add_call c (set_model_manager (Some mm) σ)) [c].
Proof. split; simpl; eauto. Qed.

Lemma later_add_call phase σ c : later phase σ (add_call c σ) [c].
Proof. split; simpl; eauto. Qed.

Lemma later_mutate phase σ i f :
  later phase σ (set_metrics (alter (alter f i) phase (metrics σ)) σ) [].
Proof.
  split; simpl; eauto.
  - intros q Hq. by rewrite lookup_alter_ne.
  - rewrite lookup_alter_eq. destruct (metrics σ !! phase); simpl; [|done].
    by rewrite length_alter.
  - by rewrite app_nil_r.
Qed.

Lemma later_set_dataloader phase σ q dl :
  is_Some (dict_get (dataloaders σ) q) →
  later phase σ (set_dataloaders (dict_set (dataloaders σ) q dl) σ) [].
Proof.
  intros Hq. split; simpl; eauto.
  - by apply dict_keys_set.
  - by rewrite app_nil_r.
Qed.

(** Readiness is kept along [later]. *)
Lemma phase_ready_later phase σ σ' cs q :
  later phase σ σ' cs → phase_ready σ q = true → phase_ready σ' q = true.
Proof.
  intros Hl. unfold phase_ready.
  destruct (dict_get (dataloaders σ) q) as [dl|] eqn:Hdl; [|done].
  destruct (metrics σ !! q) as [[|m ms]|] eqn:Hms; try done. intros _.
  assert (is_Some (dict_get (dataloaders σ') q)) as [dl' ->].
  { apply dict_get_is_Some. rewrite (later_dataloaders _ _ _ _ Hl).
    apply dict_get_is_Some. by rewrite Hdl. }
  pose proof (later_length_any _ _ _ _ q Hl) as Hlen. rewrite Hms in Hlen.
  destruct (metrics σ' !! q) as [[|m' ms']|]; simpl in *; done.
Qed.

Lemma ready_later phases phase σ σ' cs :
  later phase σ σ' cs → ready phases σ = true → ready phases σ' = true.
Proof.
  intros Hl. unfold ready. rewrite !andb_true_iff, !bool_decide_eq_true, !forallb_forall.
  intros [[[Hmm Hla] Hmp] Hph]. rewrite (later_cfg _ _ _ _ Hl). repeat split; try done.
  - by apply (later_model_manager _ _ _ _ Hl).
  - intros q Hq. eapply phase_ready_later; eauto.
Qed.
End train_manager.

Section train_manager.
Context {Inputs MM DL Meter : Type}.
Context `{!ModelManager MM Inputs, !DataLoader DL Inputs, !AverageMeter Meter}.
Context `{!Sklearn}.

Local Abbreviation Self := (TrainManager Inputs MM DL Meter).
Implicit Types σ : Self.

(** *** Item access *)

Lemma returns_cfg_get key σ v (Q : Val → Self → Prop) :
  cfg σ !! key = Some v → Q v σ → returns (cfg_get key) σ Q.
Proof. unfold returns, cfg_get. by intros ->. Qed.

Lemma returns_metrics_of phase σ ms (Q : list (Metric Meter) → Self → Prop) :
  metrics σ !! phase = Some ms → Q ms σ → returns (metrics_of phase) σ Q.
Proof. unfold returns, metrics_of. by intros ->. Qed.

Lemma returns_dataloader phase σ dl (Q : DL → Self → Prop) :
  dict_get (dataloaders σ) phase = Some dl → Q dl σ → returns (dataloader phase) σ Q.
Proof. unfold returns, dataloader. by intros ->. Qed.

Lemma returns_call_model_manager {A} c (f : MM → A * MM) σ mm (Q : A → Self → Prop) :
  model_manager σ = Some mm →
  Q (f mm).1 (add_call c (set_model_manager (Some (f mm).2) σ)) →
  returns (call_model_manager c f) σ Q.
Proof. unfold returns, call_model_manager. intros ->. by destruct (f mm). Qed.

Lemma returns_call_logger c σ (Q : unit → Self → Prop) :
  is_Some (logger σ) → Q () (add_call c σ) → returns (call_logger c) σ Q.
Proof. unfold returns, call_logger. by intros [? ->]. Qed.

Lemma phase_ready_inv σ phase :
  phase_ready σ phase = true →
  ∃ dl m ms, dict_get (dataloaders σ) phase = Some dl ∧ metrics σ !! phase = Some (m :: ms).
Proof.
  unfold phase_ready.
  destruct (dict_get (dataloaders σ) phase) as [dl|]; [|done].
  destruct (metrics σ !! phase) as [[|m ms]|]; try done. eauto.
Qed.

(** *** The batches of a phase *)

Lemma returns_batches phase σ (Q : list (Inputs * list Qc) → Self → Prop) :
  is_Some (dict_get (dataloaders σ) phase) →
  (∀ bs σ', later phase σ σ' [] → Q bs σ') →
  returns (batches phase) σ Q.
Proof.
  intros [dl Hdl] HQ. unfold batches. apply returns_bind.
  eapply returns_dataloader; [done|].
  destruct (dl_iter dl) as [bs dl'] eqn:?. apply returns_bind, returns_modify.
  apply returns_ret, HQ. apply later_set_dataloader. by rewrite Hdl.
Qed.

Lemma returns__verbose epoch phase i σ (Q : unit → Self → Prop) :
  phase_ready σ phase = true → Q () σ → returns (_verbose epoch phase i) σ Q.
Proof.
  intros (dl & m & ms & Hdl & Hms)%phase_ready_inv HQ. unfold _verbose.
  apply returns_bind. eapply returns_dataloader; [done|].
  apply returns_bind. eapply returns_metrics_of; [done|]. by apply returns_ret.
Qed.

Lemma returns_train_batch epoch phase acc ib σ :
  is_Some (model_manager σ) → phase_ready σ phase = true →
  returns (train_batch epoch phase acc ib) σ
    (λ _ σ', later phase σ σ' [CFit ib.2.1 ib.2.2 phase]).
Proof.
  intros [mm Hmm] Hready.
  destruct acc as [pred_list label_list], ib as [i [inputs labels]]. simpl.
  apply returns_bind. eapply returns_call_model_manager; [done|].
  destruct (mm_fit mm inputs labels phase) as [[loss predicts] mm'] eqn:Hfit. simpl.
  set (σ1 := add_call _ _).
  assert (later phase σ σ1 [CFit inputs labels phase]) as H1 by apply later_call.
  pose proof (phase_ready_later _ _ _ _ _ H1 Hready) as Hready1.
  destruct (phase_ready_inv _ _ Hready1) as (dl & m & ms & Hdl & Hms).
  apply returns_bind. eapply returns_metrics_of; [done|].
  apply returns_bind, returns_modify. set (σ2 := set_metrics _ _).
  assert (later phase σ1 σ2 []) as H2 by apply later_mutate.
  apply returns_bind, returns__verbose.
  { eapply phase_ready_later; eauto. }
  apply returns_ret. pose proof (later_trans _ _ _ _ _ _ H1 H2) as H3.
  by rewrite app_nil_r in H3.
Qed.

Lemma returns__record_log phase epoch σ (Q : unit → Self → Prop) :
  is_Some (logger σ) → is_Some (metrics σ !! phase) →
  (∀ values, Q () (add_call (CLoggerUpdate epoch values) σ)) →
  returns (_record_log phase epoch) σ Q.
Proof.
  intros Hlog [ms Hms] HQ. unfold _record_log.
  apply returns_bind. eapply returns_metrics_of; [done|].
  by apply returns_call_logger.
Qed.

Lemma returns_train_batches epoch phase σ :
  is_Some (model_manager σ) → phase_ready σ phase = true →
  returns (train_batches epoch phase) σ
    (λ _ σ', ∃ cs, later phase σ σ' cs ∧ Forall is_batch_call cs).
Proof.
  intros Hmm Hready. unfold train_batches.
  apply returns_bind, returns_batches.
  { destruct (phase_ready_inv _ _ Hready) as (? & ? & ? & -> & _). done. }
  intros bs σ1 H1. apply returns_bind.
  eapply returns_mono.
  { apply (returns_foldM (train_batch epoch phase)
             (λ _ _ σ', ∃ cs, later phase σ σ' cs ∧ Forall is_batch_call cs)
             _ [] ([], []) σ1).
    - exists []. by split.
    - intros done' ib acc σ2 (cs & H2 & Hcs) _.
      eapply returns_mono.
      + apply returns_train_batch.
        * by apply (later_model_manager _ _ _ _ H2).
        * eapply phase_ready_later; eauto.
      + intros ? σ3 H3. simpl in H3. eexists. split; [by eapply later_trans|].
        apply Forall_app. split; [done|]. by repeat constructor. }
  intros [pred_list label_list] σ2 (cs & H2 & Hcs). simpl.
  pose proof (phase_ready_later _ _ _ _ _ H2 Hready) as Hready2.
  destruct (phase_ready_inv _ _ Hready2) as (dl & m & ms & Hdl & Hms).
  apply returns_bind. eapply returns_metrics_of; [done|].
  apply returns_bind. eapply returns_mono.
  { apply (returns_for_each _ (λ _ σ', later phase σ σ' cs)); [done|].
    intros done' i σ3 H3 _. apply returns_modify.
    pose proof (later_trans _ _ _ _ _ _ H3 (later_mutate phase σ3 i
      (λ metric, metric_update metric 0%Qc pred_list label_list))) as H4.
    by rewrite app_nil_r in H4. }
  intros ? σ3 H3. simpl in H3. apply returns_bind, returns_gets. simpl.
  apply returns_bind.
  pose proof (phase_ready_later _ _ _ _ _ H3 Hready) as Hready3.
  destruct (phase_ready_inv _ _ Hready3) as (dl3 & m3 & ms3 & Hdl3 & Hms3).
  destruct (logger σ3) as [lg|] eqn:Hlog.
  - apply returns__record_log; [by rewrite Hlog | by rewrite Hms3 |].
    intros values. apply returns_ret. eexists. split.
    + eapply later_trans; [done|]. apply later_add_call.
    + apply Forall_app. split; [done|]. by repeat constructor.
  - apply returns_ret, returns_ret. eauto.
Qed.
End train_manager.

Section train_manager.
Context {Inputs MM DL Meter : Type}.
Context `{!ModelManager MM Inputs, !DataLoader DL Inputs, !AverageMeter Meter}.
Context `{!Sklearn}.

Local Abbreviation Self := (TrainManager Inputs MM DL Meter).
Implicit Types σ : Self.

(** *** The end of a phase *)

Lemma saves_of_cons phase (m : Metric Meter) ms :
  saves_of phase (m :: ms)
  = (if attains_best m && bool_decide (phase = "val") then 1 else 0) + saves_of phase ms.
Proof.
  unfold saves_of. rewrite filter_cons.
  case_bool_decide; destruct (attains_best m); simpl; try done;
    case_decide; simpl; congruence.
Qed.


Lemma update_metrics_by_epoch phase (rest : list (Metric Meter)) :
  ∀ pre b σ,
    metrics σ !! phase = Some (pre ++ rest) →
    is_Some (model_manager σ) → is_Some (cfg σ !! "model_path") →
    returns (foldM (update_metric_by_epoch phase) b
               (zip (seq (length pre) (length rest)) rest)) σ
      (λ b' σ',
         b' = b || bool_decide (0 < saves_of phase rest) ∧
         metrics σ' !! phase = Some (pre ++ (end_of_epoch <$> rest)) ∧
         later phase σ σ' (replicate (saves_of phase rest) CSaveModel)).
Proof.
  induction rest as [|m rest IH]; intros pre b σ Hms Hmm Hpath; simpl.
  - apply returns_ret.
    assert (saves_of phase [] = 0) as -> by (unfold saves_of; by case_bool_decide).
    rewrite bool_decide_false by lia. rewrite orb_false_r.
    split; [done|]. split; [done | apply later_refl].
  - apply returns_bind. unfold update_metric_by_epoch at 1.
    destruct (update_best (average_meter m)) as [best_flag am] eqn:Hub.
    apply returns_bind, returns_modify. set (σ1 := set_metrics _ _).
    assert (later phase σ σ1 []) as H1 by apply later_mutate.
    assert (metrics σ1 !! phase = Some (pre ++ set_average_meter am m :: rest)) as Hms1.
    { unfold σ1. simpl. rewrite lookup_alter_eq, Hms. simpl. f_equal.
      replace (length pre) with (length pre + 0) by lia. by rewrite alter_app_r. }
    assert (∀ σ2 cs (b' : bool),
      later phase σ σ2 cs → metrics σ2 !! phase = metrics σ1 !! phase →
      cs = replicate (if save_model m && best_flag && bool_decide (phase = "val")
                      then 1 else 0) CSaveModel →
      b' = b || (save_model m && best_flag && bool_decide (phase = "val")) →
      returns
        (mutate_metric phase (length pre)
           (λ metric, set_average_meter (reset (average_meter metric)) metric);;
         mret b') σ2
        (λ acc' σ3,
           returns (foldM (update_metric_by_epoch phase) acc'
                      (zip (seq (S (length pre)) (length rest)) rest)) σ3
             (λ b'' σ',
                b'' = b || bool_decide (0 < saves_of phase (m :: rest)) ∧
                metrics σ' !! phase
                  = Some (pre ++ end_of_epoch m :: (end_of_epoch <$> rest)) ∧
                later phase σ σ' (replicate (saves_of phase (m :: rest)) CSaveModel))))
      as Hrest.
    { intros σ2 cs b' H2 Hms2 -> ->.
      apply returns_bind, returns_modify. set (σ3 := set_metrics _ _).
      assert (later phase σ2 σ3 []) as H3 by apply later_mutate.
      apply returns_ret.
      assert (metrics σ3 !! phase = Some ((pre ++ [end_of_epoch m]) ++ rest)) as Hms3.
      { unfold σ3. simpl. rewrite lookup_alter_eq, Hms2, Hms1. simpl. f_equal.
        replace (length pre) with (length pre + 0) by lia.
        rewrite alter_app_r, <-app_assoc. simpl. unfold end_of_epoch. by rewrite Hub. }
      pose proof (later_trans _ _ _ _ _ _ H2 H3) as H23. rewrite app_nil_r in H23.
      eapply returns_mono.
      { replace (S (length pre)) with (length (pre ++ [end_of_epoch m]))
          by (rewrite length_app; simpl; lia).
        apply IH; [done| |].
        - by apply (later_model_manager _ _ _ _ H23).
        - by rewrite (later_cfg _ _ _ _ H23). }
      intros b'' σ4 (-> & Hms4 & H4). simpl. rewrite <-app_assoc in Hms4.
      split; [|split; [done|]].
      - rewrite saves_of_cons, <-orb_assoc. f_equal.
        unfold attains_best. rewrite Hub. simpl.
        by destruct (save_model m && best_flag && bool_decide (phase = "val")).
      - rewrite saves_of_cons, replicate_add. unfold attains_best at 1.
        rewrite Hub. simpl. by eapply later_trans. }
    apply returns_bind.
    destruct (save_model m && best_flag && bool_decide (phase = "val")) eqn:Hsave.
    + destruct Hmm as [mm Hmm]. destruct Hpath as [path Hpath].
      apply returns_bind.
      eapply returns_cfg_get; [by rewrite (later_cfg _ _ _ _ H1)|].
      apply returns_bind. eapply returns_call_model_manager; [done|]. simpl.
      apply returns_ret.
      eapply (Hrest _ ([] ++ [CSaveModel])); [|done|done|by rewrite orb_true_r].
      eapply later_trans; [exact H1|]. apply later_call.
    + apply returns_ret.
      eapply Hrest; [done|done|done|by rewrite orb_false_r].
Qed.

Lemma returns__update_by_epoch phase learning_anneal σ ms :
  metrics σ !! phase = Some ms →
  is_Some (model_manager σ) → is_Some (cfg σ !! "model_path") →
  returns (_update_by_epoch phase learning_anneal) σ
    (λ best_val_flag σ',
       best_val_flag = bool_decide (0 < saves_of phase ms) ∧
       metrics σ' !! phase = Some (end_of_epoch <$> ms) ∧
       later phase σ σ'
         (replicate (saves_of phase ms) CSaveModel
          ++ if bool_decide (phase = "train") then [CAnnealLr learning_anneal] else [])).
Proof.
  intros Hms Hmm Hpath. unfold _update_by_epoch.
  apply returns_bind. eapply returns_metrics_of; [done|].
  apply returns_bind. eapply returns_mono.
  { by apply (update_metrics_by_epoch phase ms [] false σ). }
  intros b σ1 (-> & Hms1 & H1). simpl in *.
  apply returns_bind. case_bool_decide as Hp.
  - destruct (later_model_manager _ _ _ _ H1 Hmm) as [mm Hmm1].
    eapply returns_call_model_manager; [done|]. simpl.
    apply returns_ret. split; [done|]. split; [done|].
    eapply later_trans; [done|]. apply later_call.
  - apply returns_ret, returns_ret. split; [done|]. split; [done|].
    by rewrite app_nil_r.
Qed.
End train_manager.

Section train_manager.
Context {Inputs MM DL Meter : Type}.
Context `{!ModelManager MM Inputs, !DataLoader DL Inputs, !AverageMeter Meter}.
Context `{!Sklearn}.

Local Abbreviation Self := (TrainManager Inputs MM DL Meter).
Local Abbreviation Run := (@PhaseRun Inputs MM DL Meter).
Implicit Types σ : Self.
Implicit Types r : Run.

(** *** One phase of one epoch *)

Lemma ready_inv phases σ :
  ready phases σ = true ↔
  is_Some (model_manager σ) ∧ is_Some (cfg σ !! "learning_anneal") ∧
  is_Some (cfg σ !! "model_path") ∧ ∀ p, p ∈ phases → phase_ready σ p = true.
Proof.
  unfold ready. rewrite !andb_true_iff, !bool_decide_eq_true, forallb_forall.
  setoid_rewrite list_elem_of_In. tauto.
Qed.

Lemma phase_run_has_facts epoch r :
  is_phase_run epoch r → ready [run_phase r] (run_start r) = true →
  phase_run_facts r.
Proof.
  intros (la & Hbatches & Hla & Hupdate) (Hmm & _ & Hpath & Hp)%ready_inv.
  unfold phase_run_facts.
  specialize (Hp (run_phase r) ltac:(by left)).
  pose proof (returns_inv _ _ _ _ _
    (returns_train_batches epoch _ _ Hmm Hp) Hbatches) as (cs & Hl & Hcs).
  pose proof (phase_ready_later _ _ _ _ _ Hl Hp) as Hp'.
  destruct (phase_ready_inv _ _ Hp') as (dl & m & ms & Hdl & Hms).
  pose proof (returns_inv _ _ _ _ _
    (returns__update_by_epoch (run_phase r) la _ _ Hms
       (later_model_manager _ _ _ _ Hl Hmm)
       ltac:(by rewrite (later_cfg _ _ _ _ Hl))) Hupdate) as (Hb & Hms' & Hl').
  exists cs, (m :: ms). do 5 (split; [done|]).
  exists la. split; [|done]. by rewrite <-(later_cfg _ _ _ _ Hl).
Qed.

Lemma phase_run_later r :
  phase_run_facts r → ∃ cs, later (run_phase r) (run_start r) (run_stop r) cs.
Proof.
  intros (cs & ms & Hl & _ & _ & _ & _ & la & _ & Hl').
  eexists. by eapply later_trans.
Qed.

Lemma train_phase_runs epoch locals phase σ :
  ready [phase] σ = true →
  ∃ r, run_phase r = phase ∧ run_start r = σ ∧ is_phase_run epoch r ∧
       ∃ ms, train_phase epoch locals phase σ
             = (Ok (<[phase := ms]> locals.1,
                    if run_best r then run_preds r else locals.2), run_stop r).
Proof.
  intros Hready. pose proof Hready as (Hmm & [la Hla] & Hpath & Hp)%ready_inv.
  specialize (Hp phase ltac:(by left)).
  pose proof (returns_train_batches epoch phase σ Hmm Hp) as Hb.
  apply returns_iff in Hb as ([pred_list label_list] & σ1 & Hb & cs & Hl & Hcs).
  pose proof (phase_ready_later _ _ _ _ _ Hl Hp) as Hp'.
  destruct (phase_ready_inv _ _ Hp') as (dl & m & ms & Hdl & Hms).
  assert (cfg σ1 !! "learning_anneal" = Some la) as Hla1
    by by rewrite (later_cfg _ _ _ _ Hl).
  pose proof (returns__update_by_epoch phase la σ1 _ Hms
    (later_model_manager _ _ _ _ Hl Hmm)
    ltac:(by rewrite (later_cfg _ _ _ _ Hl))) as Hu.
  apply returns_iff in Hu as (flag & σ2 & Hu & Hflag & Hms2 & Hl2).
  exists {| run_phase := phase; run_start := σ; run_preds := pred_list;
            run_labels := label_list; run_end := σ1; run_best := flag;
            run_stop := σ2 |}.
  simpl. repeat split; try done.
  { exists la. by repeat split. }
  exists (end_of_epoch <$> (m :: ms)). destruct locals as [epoch_metrics best]. simpl.
  unfold train_phase. rewrite (bind_ok _ _ _ _ _ Hb). simpl.
  erewrite bind_ok; [|unfold cfg_get; by rewrite Hla1].
  rewrite (bind_ok _ _ _ _ _ Hu).
  erewrite bind_ok; [|unfold metrics_of; by rewrite Hms2]. done.
Qed.
End train_manager.

Section train_manager.
Context {Inputs MM DL Meter : Type}.
Context `{!ModelManager MM Inputs, !DataLoader DL Inputs, !AverageMeter Meter}.
Context `{!Sklearn}.

Local Abbreviation Self := (TrainManager Inputs MM DL Meter).
Local Abbreviation Run := (@PhaseRun Inputs MM DL Meter).
Local Abbreviation Epoch := (@EpochRun Inputs MM DL Meter).
Local Abbreviation Locals := (gmap string (list (Metric Meter)) * list Qc)%type.
Implicit Types σ : Self.
Implicit Types r : Run.

(** *** The phases of one epoch *)

Lemma ready_weaken phases phases' σ :
  (∀ p, p ∈ phases' → p ∈ phases) → ready phases σ = true → ready phases' σ = true.
Proof.
  rewrite !ready_inv. intros Hsub (? & ? & ? & Hp). repeat split; try done.
  intros p Hin. by apply Hp, Hsub.
Qed.

Lemma ready_run_stop phases r epoch :
  is_phase_run epoch r → run_phase r ∈ phases →
  ready phases (run_start r) = true → ready phases (run_stop r) = true.
Proof.
  intros Hrun Hin Hready.
  assert (phase_run_facts r) as Hfacts.
  { eapply phase_run_has_facts; [done|]. eapply ready_weaken; [|done].
    intros p ->%list_elem_of_singleton. done. }
  destruct (phase_run_later _ Hfacts) as [cs Hl]. by eapply ready_later.
Qed.

Lemma train_phases_run epoch all (phases : list string) :
  ∀ (locals : Locals) σ,
    ready all σ = true → (∀ p, p ∈ phases → p ∈ all) →
    ∃ (rs : list Run) (locals' : Locals) σ',
      foldM (train_phase epoch) locals phases σ = (Ok locals', σ') ∧
      run_phase <$> rs = phases ∧
      Forall (is_phase_run epoch) rs ∧
      linked σ rs σ' ∧
      Forall (λ r, ready all (run_start r) = true) rs ∧
      ready all σ' = true ∧
      locals'.2 = foldl next_best locals.2 rs ∧
      (∀ p, p ∈ phases ∨ is_Some (locals.1 !! p) → is_Some (locals'.1 !! p)).
Proof.
  induction phases as [|phase phases IH]; intros locals σ Hready Hsub.
  - exists [], locals, σ. simpl. repeat split; try done.
    intros p [?%elem_of_nil|?]; done.
  - destruct (train_phase_runs epoch locals phase σ) as (r & Hp & Hs & Hrun & ms & Hstep).
    { eapply ready_weaken; [|done]. intros p ->%list_elem_of_singleton.
      apply Hsub. by left. }
    assert (ready all (run_stop r) = true) as Hready'.
    { eapply ready_run_stop; [done| |by rewrite Hs]. rewrite Hp. apply Hsub. by left. }
    destruct (IH (<[phase := ms]> locals.1, next_best locals.2 r) (run_stop r) Hready')
      as (rs & locals' & σ' & Hfold & Hps & Hruns & Hlink & Hstarts & Hready'' & Hbest & Hkeys).
    { intros p Hin. apply Hsub. by right. }
    exists (r :: rs), locals', σ'. simpl.
    rewrite (bind_ok _ _ _ _ _ Hstep). split; [done|].
    split; [by rewrite <-Hp, <-Hps|]. split; [by constructor|]. split; [done|].
    split; [constructor; [by rewrite Hs|done]|]. split; [done|]. split; [done|].
    intros p Hin. apply Hkeys. simpl.
    destruct (decide (p = phase)) as [->|Hne].
    + right. by rewrite lookup_insert_eq.
    + destruct Hin as [[?|?]%elem_of_cons|?]; [done|by left|].
      right. by rewrite lookup_insert_ne.
Qed.

(** *** One epoch *)

Lemma add_call_get_lr σ mm :
  model_manager σ = Some mm →
  add_call CGetLr (set_model_manager (Some mm) σ) = add_call CGetLr σ.
Proof. destruct σ. simpl. by intros ->. Qed.

Lemma _epoch_verbose_run epoch (epoch_metrics : gmap string (list (Metric Meter)))
    phases σ :
  is_Some (model_manager σ) →
  (∀ p, p ∈ phases → is_Some (epoch_metrics !! p)) →
  _epoch_verbose epoch epoch_metrics phases σ = (Ok (), add_call CGetLr σ).
Proof.
  intros [mm Hmm] Hkeys. unfold _epoch_verbose.
  erewrite bind_ok; [|unfold call_model_manager; by rewrite Hmm].
  simpl. rewrite (add_call_get_lr _ _ Hmm).
  generalize (add_call CGetLr σ). intros σ'. unfold for_each.
  induction phases as [|p phases IH]; [done|]. simpl.
  destruct (Hkeys p ltac:(by left)) as [ms ->].
  erewrite bind_ok; [|done]. apply IH. intros q Hq. apply Hkeys. by right.
Qed.

Lemma ready_add_call phases σ (c : Call Inputs) :
  ready phases σ = true → ready phases (add_call c σ) = true.
Proof. intros. eapply (ready_later _ ""); [apply later_add_call|done]. Qed.

Lemma train_epoch_run phases (locals : Locals) epoch σ :
  ready phases σ = true →
  ∃ (er : Epoch) (locals' : Locals),
    train_epoch phases locals epoch σ = (Ok locals', epoch_stop er) ∧
    epoch_no er = epoch ∧
    is_epoch_run phases σ er ∧
    Forall (λ r, ready phases (run_start r) = true) (phase_runs er) ∧
    ready phases (epoch_stop er) = true ∧
    locals'.2 = foldl next_best locals.2 (phase_runs er).
Proof.
  intros Hready.
  destruct (train_phases_run epoch phases phases locals σ Hready ltac:(done))
    as (rs & locals' & σ' & Hfold & Hps & Hruns & Hlink & Hstarts & Hready' & Hbest & Hkeys).
  exists {| epoch_no := epoch; phase_runs := rs; epoch_stop := add_call CGetLr σ' |},
         locals'.
  simpl. unfold train_epoch. rewrite (bind_ok _ _ _ _ _ Hfold).
  apply ready_inv in Hready' as Hr. destruct Hr as (Hmm & _).
  erewrite bind_ok; [|apply _epoch_verbose_run; [done|]; intros p Hp; apply Hkeys; by left].
  split; [done|]. split; [done|]. split.
  { split; [done|]. split; [done|]. by exists σ'. }
  split; [done|]. split; [by apply ready_add_call|done].
Qed.

(** *** All the epochs *)

Lemma train_epochs_run phases (epochs : list nat) :
  ∀ (locals : Locals) σ,
    ready phases σ = true →
    ∃ (ers : list Epoch) (locals' : Locals) σ',
      foldM (train_epoch phases) locals epochs σ = (Ok locals', σ') ∧
      epoch_no <$> ers = epochs ∧
      linked_epochs phases σ ers σ' ∧
      Forall (λ r, ready phases (run_start r) = true) (all_runs ers) ∧
      ready phases σ' = true ∧
      locals'.2 = foldl next_best locals.2 (all_runs ers).
Proof.
  induction epochs as [|epoch epochs IH]; intros locals σ Hready.
  - exists [], locals, σ. by repeat split.
  - destruct (train_epoch_run phases locals epoch σ Hready)
      as (er & locals1 & Hstep & Hno & Hrun & Hstarts & Hready1 & Hbest).
    destruct (IH locals1 (epoch_stop er) Hready1)
      as (ers & locals' & σ' & Hfold & Hnos & Hlink & Hstarts' & Hready' & Hbest').
    exists (er :: ers), locals', σ'. simpl. rewrite (bind_ok _ _ _ _ _ Hstep).
    split; [done|]. split; [by rewrite <-Hno, <-Hnos|]. split; [done|].
    unfold all_runs. simpl. fold (all_runs ers).
    split; [by apply Forall_app|]. split; [done|].
    by rewrite foldl_app, <-Hbest.
Qed.
End train_manager.

Section train_manager.
Context {Inputs MM DL Meter : Type}.
Context `{!ModelManager MM Inputs, !DataLoader DL Inputs, !AverageMeter Meter}.
Context `{!Sklearn}.

Local Abbreviation Self := (TrainManager Inputs MM DL Meter).
Local Abbreviation Run := (@PhaseRun Inputs MM DL Meter).
Local Abbreviation Epoch := (@EpochRun Inputs MM DL Meter).
Local Abbreviation Locals := (gmap string (list (Metric Meter)) * list Qc)%type.
Implicit Types σ : Self.
Implicit Types r : Run.

(** *** The whole call *)

Lemma calls_since_later phase σ σ' cs : later phase σ σ' cs → calls_since σ σ' = cs.
Proof.
  intros Hl. unfold calls_since. rewrite (later_calls _ _ _ _ Hl).
  by rewrite drop_app_length.
Qed.

Lemma run_calls_spec r :
  phase_run_facts r → calls (run_stop r) = calls (run_start r) ++ run_calls r.
Proof.
  intros [cs Hl]%phase_run_later. unfold run_calls.
  rewrite (calls_since_later _ _ _ _ Hl). by apply later_calls in Hl.
Qed.

Lemma linked_calls (rs : list Run) :
  ∀ σ σ', linked σ rs σ' → Forall phase_run_facts rs →
          calls σ' = calls σ ++ concat (run_calls <$> rs).
Proof.
  induction rs as [|r rs IH]; intros σ σ'; simpl.
  - intros -> _. by rewrite app_nil_r.
  - intros [<- Hlink] [Hr Hrs]%Forall_cons.
    rewrite (IH _ _ Hlink Hrs), (run_calls_spec _ Hr). by rewrite app_assoc.
Qed.

Lemma epoch_run_facts phases σ (er : Epoch) :
  is_epoch_run phases σ er →
  Forall (λ r, ready phases (run_start r) = true) (phase_runs er) →
  Forall phase_run_facts (phase_runs er).
Proof.
  intros (Hps & Hruns & _) Hstarts.
  rewrite Forall_forall in Hruns, Hstarts. apply Forall_forall. intros r Hr.
  eapply phase_run_has_facts; [by apply Hruns|].
  eapply ready_weaken; [|by apply Hstarts].
  intros p ->%list_elem_of_singleton. rewrite <-Hps.
  by apply list_elem_of_fmap_2.
Qed.

Lemma linked_epochs_facts phases (ers : list Epoch) :
  ∀ σ σ', linked_epochs phases σ ers σ' →
          Forall (λ r, ready phases (run_start r) = true) (all_runs ers) →
          Forall phase_run_facts (all_runs ers).
Proof.
  induction ers as [|er ers IH]; intros σ σ'; simpl; [done|].
  unfold all_runs. simpl. fold (all_runs ers).
  intros [Her Hlink] [Hs Hss]%Forall_app. apply Forall_app. split.
  - by eapply epoch_run_facts.
  - by eapply IH.
Qed.

Lemma linked_epochs_calls phases (ers : list Epoch) :
  ∀ σ σ', linked_epochs phases σ ers σ' → Forall phase_run_facts (all_runs ers) →
          calls σ' = calls σ ++ concat (epoch_calls <$> ers).
Proof.
  induction ers as [|er ers IH]; intros σ σ'; simpl.
  - intros -> _. by rewrite app_nil_r.
  - unfold all_runs. simpl. fold (all_runs ers).
    intros [(_ & _ & σ_mid & Hlink & Hstop) Hlinks] [Hr Hrs]%Forall_app.
    rewrite (IH _ _ Hlinks Hrs), Hstop. simpl.
    rewrite (linked_calls _ _ _ Hlink Hr). unfold epoch_calls.
    by rewrite <-!app_assoc.
Qed.

Lemma linked_epochs_frame phases (ers : list Epoch) :
  ∀ σ σ', linked_epochs phases σ ers σ' → Forall phase_run_facts (all_runs ers) →
          cfg σ' = cfg σ ∧ logger σ' = logger σ.
Proof.
  assert (∀ (rs : list Run) σ σ', linked σ rs σ' → Forall phase_run_facts rs →
            cfg σ' = cfg σ ∧ logger σ' = logger σ) as Hruns.
  { induction rs as [|r rs IH]; intros σ σ'; simpl.
    - by intros ->.
    - intros [<- Hlink] [[cs Hl]%phase_run_later Hrs]%Forall_cons.
      destruct (IH _ _ Hlink Hrs) as [-> ->].
      by rewrite (later_cfg _ _ _ _ Hl), (later_logger _ _ _ _ Hl). }
  induction ers as [|er ers IH]; intros σ σ'; simpl.
  - by intros ->.
  - unfold all_runs. simpl. fold (all_runs ers).
    intros [(_ & _ & σ_mid & Hlink & Hstop) Hlinks] [Hr Hrs]%Forall_app.
    destruct (IH _ _ Hlinks Hrs) as [-> ->]. rewrite Hstop. simpl.
    by apply (Hruns (phase_runs er)).
Qed.

Lemma check_keys_ok (must_contain_keys keys : list string) σ :
  (∀ key, key ∈ must_contain_keys → key ∈ keys) →
  check_keys_from_dict must_contain_keys keys σ = (Ok (), σ).
Proof.
  unfold check_keys_from_dict, for_each.
  induction must_contain_keys as [|key l IH]; intros Hsub; [done|]. simpl.
  rewrite bool_decide_true by (apply Hsub; by left).
  erewrite bind_ok; [|done]. apply IH. intros k Hk. apply Hsub. by right.
Qed.

Lemma as_int_of (v : Val) n σ : int_of v = Some n → as_int v σ = (Ok n, σ).
Proof. unfold as_int. by intros ->. Qed.

(** The course of a call of [train] that is ready to run: the call returns,
    it has a history, its runs did what [phase_run_facts] says, and the calls
    it made are those of its epochs followed by the closing ones. *)
Lemma train_course new_model_manager with_validate only_validate σ :
  train_ready new_model_manager with_validate only_validate σ = true →
  ∃ (ers : list Epoch) σ' σ'',
    is_train_history new_model_manager with_validate only_validate σ ers σ' ∧
    Forall phase_run_facts (all_runs ers) ∧
    train new_model_manager with_validate only_validate σ
      = (Ok (metrics σ'', best_val_pred_after (all_runs ers)), σ'') ∧
    metrics σ'' = metrics σ' ∧
    cfg σ' = cfg σ ∧
    calls σ'' = calls σ ++ concat (epoch_calls <$> ers)
                  ++ closing_calls with_validate (logger σ).
Proof.
  unfold train_ready. rewrite andb_true_iff, bool_decide_eq_true.
  intros [Hready [n Hn]].
  set (phases := phases_of with_validate only_validate) in *.
  set (σ0 := train_start new_model_manager σ) in *.
  assert (cfg σ0 = cfg σ ∧ logger σ0 = logger σ ∧ calls σ0 = calls σ) as (Hcfg0 & Hlog0 & Hcalls0).
  { unfold σ0. by destruct new_model_manager. }
  destruct (train_epochs_run phases (range n) (∅, []) σ0 Hready)
    as (ers & locals & σ' & Hfold & Hnos & Hlink & Hstarts & Hready' & Hbest).
  pose proof (linked_epochs_facts _ _ _ _ Hlink Hstarts) as Hfacts.
  pose proof (linked_epochs_calls _ _ _ _ Hlink Hfacts) as Hcalls.
  destruct (linked_epochs_frame _ _ _ _ Hlink Hfacts) as [Hcfg Hlog].
  apply ready_inv in Hready' as Hr'. destruct Hr' as ([mm Hmm] & _).
  set (σ1 := match logger σ' with Some _ => add_call CLoggerClose σ' | None => σ' end).
  set (σ2 := if with_validate then σ1
             else add_call CSaveModel (set_model_manager (Some (mm_save_model mm)) σ1)).
  exists ers, σ', σ2.
  split. { exists n. by repeat split. }
  split; [done|].
  assert (model_manager σ1 = Some mm) as Hmm1.
  { unfold σ1. by destruct (logger σ'). }
  split; [|split; [|split]].
  - unfold train.
    erewrite bind_ok with (σ' := σ0) (a := ()); [|unfold σ0; by destruct new_model_manager].
    erewrite bind_ok; [|done]. simpl.
    erewrite bind_ok; [|apply check_keys_ok].
    2:{ intros p Hp. apply ready_inv in Hready as (_ & _ & _ & Hps).
        destruct (phase_ready_inv _ _ (Hps p Hp)) as (dl & _ & _ & Hdl & _).
        apply dict_get_is_Some. by rewrite Hdl. }
    destruct (cfg σ !! "epochs") as [epochs|] eqn:Hepochs; [|done].
    change (int_of epochs = Some n) in Hn.
    erewrite bind_ok; [|unfold cfg_get; by rewrite Hcfg0, Hepochs].
    erewrite bind_ok; [|by apply as_int_of].
    fold phases. rewrite (bind_ok _ _ _ _ _ Hfold).
    erewrite bind_ok; [|done]. simpl.
    erewrite bind_ok with (σ' := σ1) (a := ()).
    2:{ unfold σ1, call_logger. destruct (logger σ') eqn:E; simpl; by rewrite ?E. }
    erewrite bind_ok with (σ' := σ2) (a := ()).
    2:{ unfold σ2. destruct with_validate; simpl; [done|].
        unfold call_model_manager. by rewrite Hmm1. }
    erewrite bind_ok; [|done]. simpl. rewrite Hbest. done.
  - unfold σ2, σ1. by destruct with_validate, (logger σ').
  - congruence.
  - unfold closing_calls. rewrite <-Hlog0, <-Hlog, <-Hcalls0.
    unfold σ2, σ1. destruct with_validate, (logger σ'); simpl;
      rewrite Hcalls, <-?app_assoc; simpl; by rewrite ?app_nil_r.
Qed.
End train_manager.

Section train_manager.
Context {Inputs MM DL Meter : Type}.
Context `{!ModelManager MM Inputs, !DataLoader DL Inputs, !AverageMeter Meter}.
Context `{!Sklearn}.

Local Abbreviation Self := (TrainManager Inputs MM DL Meter).
Local Abbreviation Run := (@PhaseRun Inputs MM DL Meter).
Local Abbreviation Epoch := (@EpochRun Inputs MM DL Meter).
Implicit Types σ : Self.
Implicit Types r : Run.

(** *** The calls of a run *)

Lemma calls_since_app σ σ' cs : calls σ' = calls σ ++ cs → calls_since σ σ' = cs.
Proof. intros Hc. unfold calls_since. by rewrite Hc, drop_app_length. Qed.




Lemma filter_is_save_replicate n :
  filter (λ c : Call Inputs, is_save c = true) (replicate n CSaveModel)
  = replicate n CSaveModel.
Proof. induction n as [|n IH]; [done|]. simpl. by rewrite filter_cons, IH. Qed.




End train_manager.

Section train_manager.
Context {Inputs MM DL Meter : Type}.
Context `{!ModelManager MM Inputs, !DataLoader DL Inputs, !AverageMeter Meter}.
Context `{!Sklearn}.

Local Abbreviation Self := (TrainManager Inputs MM DL Meter).
Local Abbreviation Run := (@PhaseRun Inputs MM DL Meter).
Local Abbreviation Epoch := (@EpochRun Inputs MM DL Meter).
Implicit Types σ : Self.
Implicit Types r : Run.




(** ** C4: annealing of the learning rate *)

End train_manager.

Section train_manager.
Context {Inputs MM DL Meter : Type}.
Context `{!ModelManager MM Inputs, !DataLoader DL Inputs, !AverageMeter Meter}.
Context `{!Sklearn}.

Local Abbreviation Self := (TrainManager Inputs MM DL Meter).
Local Abbreviation Run := (@PhaseRun Inputs MM DL Meter).
Local Abbreviation Epoch := (@EpochRun Inputs MM DL Meter).
Implicit Types σ : Self.
Implicit Types r : Run.

(** ** C3: epochs and phases *)

Lemma linked_epochs_phases phases (ers : list Epoch) :
  ∀ σ σ', linked_epochs phases σ ers σ' →
          Forall (λ er, run_phase <$> phase_runs er = phases) ers.
Proof.
  induction ers as [|er ers IH]; intros σ σ'; simpl; [done|].
  intros [(Hps & _) Hlink]. constructor; [done|]. by eapply IH.
Qed.

(** C3. A call of [train] that runs to its end iterates [range(cfg['epochs'])]:
    its history has one epoch for each of these numbers, in order, and every
    epoch runs exactly the phases [phases_of with_validate only_validate], in
    that order; the calls made are those of these epochs, then the closing
    ones. The phases are [train, val], [train] or [val] as the flags say. *)
Theorem train_iterates_epochs_and_phases
    new_model_manager with_validate only_validate σ :
  train_ready new_model_manager with_validate only_validate σ = true →
  ∃ (ers : list Epoch) σ' result σ'' n,
    train new_model_manager with_validate only_validate σ = (Ok result, σ'') ∧
    is_train_history new_model_manager with_validate only_validate σ ers σ' ∧
    cfg σ !! "epochs" ≫= int_of = Some n ∧
    epoch_no <$> ers = seq 0 (Z.to_nat n) ∧
    Forall (λ er, run_phase <$> phase_runs er
                  = phases_of with_validate only_validate) ers ∧
    calls_since σ σ''
    = concat (epoch_calls <$> ers) ++ closing_calls with_validate (logger σ) ∧
    phases_of true false = ["train"; "val"] ∧
    phases_of false false = ["train"] ∧
    phases_of with_validate true = ["val"].
Proof.
  intros Hready.
  destruct (train_course _ _ _ _ Hready)
    as (ers & σ' & σ'' & Hhist & Hfacts & Htrain & Hms & Hcfg & Hcalls).
  pose proof Hhist as (n & Hn & Hnos & Hlink).
  eexists ers, σ', _, σ'', n. do 4 (split; [done|]).
  split; [by eapply linked_epochs_phases|].
  split; [by apply calls_since_app|]. by destruct with_validate.
Qed.

(** ** C10: training without validation *)

End train_manager.

Section train_manager.
Context {Inputs MM DL Meter : Type}.
Context `{!ModelManager MM Inputs, !DataLoader DL Inputs, !AverageMeter Meter}.
Context `{!Sklearn}.

Local Abbreviation Self := (TrainManager Inputs MM DL Meter).
Local Abbreviation Run := (@PhaseRun Inputs MM DL Meter).
Local Abbreviation Epoch := (@EpochRun Inputs MM DL Meter).
Implicit Types σ : Self.
Implicit Types r : Run.

(** ** C1: checkpoints *)


Lemma best_val_pred_none (rs : list Run) :
  Forall (λ r, run_best r = false) rs → best_val_pred_after rs = [].
Proof.
  unfold best_val_pred_after. generalize (@nil Qc).
  induction 1 as [|r rs Hr _ IH]; [done|]. simpl. by rewrite Hr.
Qed.


(** ** C6: the reset of the average meters *)

Lemma end_of_epoch_is_reset (ms : list (Metric Meter)) :
  Forall is_reset (end_of_epoch <$> ms).
Proof. apply Forall_fmap, Forall_true. intros m. by eexists. Qed.

Lemma run_keeps_resets phases r :
  phase_run_facts r → resets phases (run_start r) → resets phases (run_stop r).
Proof.
  intros (cs & ms & Hl & _ & _ & _ & Hms' & la & _ & Hl') Hres p Hp.
  destruct (decide (p = run_phase r)) as [->|Hne].
  - eexists. split; [done|]. apply end_of_epoch_is_reset.
  - rewrite (later_metrics _ _ _ _ Hl' p Hne), (later_metrics _ _ _ _ Hl p Hne).
    by apply Hres.
Qed.

Lemma linked_keeps_resets phases (rs : list Run) :
  ∀ σ σ', linked σ rs σ' → Forall phase_run_facts rs → resets phases σ →
          Forall (λ r, resets phases (run_start r)) rs ∧ resets phases σ'.
Proof.
  induction rs as [|r rs IH]; intros σ σ'; simpl.
  - by intros ->.
  - intros [<- Hlink] [Hr Hrs]%Forall_cons Hres.
    destruct (IH _ _ Hlink Hrs (run_keeps_resets _ _ Hr Hres)) as [? ?].
    split; [by constructor|done].
Qed.

Lemma linked_resets (rs : list Run) :
  ∀ σ σ', linked σ rs σ' → Forall phase_run_facts rs →
          resets (run_phase <$> rs) σ'.
Proof.
  induction rs as [|r rs IH]; intros σ σ'; simpl.
  - intros _ _ p Hp. by apply elem_of_nil in Hp.
  - intros [<- Hlink] [Hr Hrs]%Forall_cons p Hp.
    destruct (decide (p ∈ run_phase <$> rs)) as [Hin|Hnin]; [by eapply IH|].
    apply elem_of_cons in Hp as [->|?]; [|done].
    assert (resets [run_phase r] (run_stop r)) as Hres.
    { destruct Hr as (cs & ms & _ & _ & _ & _ & Hms' & _).
      intros p ->%list_elem_of_singleton. eexists. split; [done|].
      apply end_of_epoch_is_reset. }
    destruct (linked_keeps_resets _ _ _ _ Hlink Hrs Hres) as [_ Hres'].
    apply Hres'. by left.
Qed.

Lemma resets_add_call phases σ (c : Call Inputs) :
  resets phases σ → resets phases (add_call c σ).
Proof. done. Qed.


End train_manager.

(** ** What a computation leaves unchanged *)

Section preserves.
Context {Σ X : Type} (f : Σ → X).
Local Abbreviation preserves := (preserves f).

Lemma preserves_ret {A} (a : A) : preserves (mret a).
Proof. by intros σ r σ' [= _ <-]. Qed.

Lemma preserves_raise {A} e : preserves (raise (A:=A) e).
Proof. by intros σ r σ' [= _ <-]. Qed.

Lemma preserves_lift {A} (x : Result A) : preserves (lift x).
Proof. by intros σ r σ' [= _ <-]. Qed.

Lemma preserves_gets {A} (g : Σ → A) : preserves (gets g).
Proof. by intros σ r σ' [= _ <-]. Qed.

Lemma preserves_modify (g : Σ → Σ) : (∀ σ, f (g σ) = f σ) → preserves (modify g).
Proof. intros Hg σ r σ' [= _ <-]. apply Hg. Qed.

Lemma preserves_bind {A B} (m : Py Σ A) (k : A → Py Σ B) :
  preserves m → (∀ a, preserves (k a)) → preserves (m ≫= k).
Proof.
  intros Hm Hk σ r σ'. unfold mbind, Py_bind.
  destruct (m σ) as [[a|e] σ1] eqn:E.
  - intros Hka. rewrite (Hk a _ _ _ Hka). by eapply Hm.
  - intros [= _ <-]. by eapply Hm.
Qed.

Lemma preserves_foldM {A B} (body : B → A → Py Σ B) l :
  (∀ acc x, preserves (body acc x)) → ∀ acc, preserves (foldM body acc l).
Proof.
  intros Hbody. induction l as [|x l IH]; intros acc; simpl.
  - apply preserves_ret.
  - by apply preserves_bind.
Qed.

Lemma preserves_for_each {A} (body : A → Py Σ unit) l :
  (∀ x, preserves (body x)) → preserves (for_each l body).
Proof. intros. by apply preserves_foldM. Qed.

Lemma preserves_as_int v : preserves (as_int v).
Proof. unfold as_int. destruct (int_of v); [apply preserves_ret|apply preserves_raise]. Qed.
End preserves.

Section train_manager.
Context {Inputs MM DL Meter : Type}.
Context `{!ModelManager MM Inputs, !DataLoader DL Inputs, !AverageMeter Meter}.
Context `{!Sklearn}.

Local Abbreviation Self := (TrainManager Inputs MM DL Meter).
Implicit Types σ : Self.

Lemma preserves_cfg_get {X} (f : Self → X) key : preserves f (cfg_get key).
Proof. intros σ r σ'. unfold cfg_get. by destruct (cfg σ !! key); intros [= _ <-]. Qed.

Lemma preserves_metrics_of {X} (f : Self → X) phase : preserves f (metrics_of phase).
Proof.
  intros σ r σ'. unfold metrics_of. by destruct (metrics σ !! phase); intros [= _ <-].
Qed.

Lemma preserves_dataloader {X} (f : Self → X) phase : preserves f (dataloader phase).
Proof.
  intros σ r σ'. unfold dataloader.
  by destruct (dict_get (dataloaders σ) phase); intros [= _ <-].
Qed.

Lemma preserves_check_keys {X} (f : Self → X) l keys :
  preserves f (check_keys_from_dict l keys).
Proof.
  apply preserves_for_each. intros key.
  case_bool_decide; [apply preserves_ret|apply preserves_raise].
Qed.

Lemma preserves_call_model_manager {X A} (f : Self → X) c (g : MM → A * MM) :
  (∀ σ mm, f (add_call c (set_model_manager mm σ)) = f σ) →
  preserves f (call_model_manager c g).
Proof.
  intros Hf σ r σ'. unfold call_model_manager.
  destruct (model_manager σ) as [mm|]; [|by intros [= _ <-]].
  destruct (g mm) as [a mm']. intros [= _ <-]. apply Hf.
Qed.

Lemma preserves_batches {X} (f : Self → X) phase :
  (∀ σ d, f (set_dataloaders d σ) = f σ) → preserves f (batches phase).
Proof.
  intros Hf. unfold batches. apply preserves_bind; [apply preserves_dataloader|].
  intros dl. destruct (dl_iter dl) as [bs dl'].
  apply preserves_bind; [by apply preserves_modify|]. intros _. apply preserves_ret.
Qed.

Lemma preserves__predict_batches {X} (f : Self → X) phase :
  (∀ σ d, f (set_dataloaders d σ) = f σ) →
  (∀ σ c mm, f (add_call c (set_model_manager mm σ)) = f σ) →
  preserves f (_predict_batches phase).
Proof.
  intros Hd Hc. unfold _predict_batches.
  apply preserves_bind; [apply preserves_cfg_get|]. intros _.
  apply preserves_bind; [apply preserves_gets|]. intros self.
  apply preserves_bind; [apply preserves_check_keys|]. intros _.
  apply preserves_bind; [by apply preserves_batches|]. intros bs.
  apply preserves_foldM. intros [pred_list label_list] [inputs labels].
  apply preserves_bind; [by apply preserves_call_model_manager|].
  intros preds. apply preserves_ret.
Qed.

(** ** numpy: reshape and mean *)




(** ** C2: test-time augmentation in [_predict] *)

End train_manager.

Section raises.
Context {Σ : Type}.

Lemma raises_bind {A B} (m : Py Σ A) (k : A → Py Σ B) σ :
  raises (m ≫= k) σ ↔
  match m σ with
  | (Ok a, σ') => raises (k a) σ'
  | (Raise _, _) => True
  end.
Proof. unfold raises at 1, mbind, Py_bind. by destruct (m σ) as [[a|e] σ']. Qed.

Lemma raises_bind_ok {A B} (m : Py Σ A) (k : A → Py Σ B) σ a σ' :
  m σ = (Ok a, σ') → raises (k a) σ' → raises (m ≫= k) σ.
Proof. intros Hm Hk. unfold raises at 1, mbind, Py_bind. by rewrite Hm. Qed.

Lemma raises_raise {A} e σ : raises (raise (Σ:=Σ) (A:=A) e) σ.
Proof. done. Qed.

Lemma not_returns_raises {A} (m : Py Σ A) σ Q : raises m σ → ¬ returns m σ Q.
Proof. unfold raises, returns. destruct (m σ) as [[a|e] σ']; tauto. Qed.
End raises.

Section train_manager.
Context {Inputs MM DL Meter : Type}.
Context `{!ModelManager MM Inputs, !DataLoader DL Inputs, !AverageMeter Meter}.
Context `{!Sklearn}.

Local Abbreviation Self := (TrainManager Inputs MM DL Meter).
Implicit Types σ : Self.

(** ** C7: the choice of the model manager *)

Section init_model_manager.
Variables supported_ml_models supported_nn_models : list string.
Variable supported_pretrained_models_keys : list string.


End init_model_manager.

(** ** C5: [retrain] *)

Lemma preserves__predict {X} (f : Self → X) phase :
  (∀ σ d, f (set_dataloaders d σ) = f σ) →
  (∀ σ c mm, f (add_call c (set_model_manager mm σ)) = f σ) →
  preserves f (_predict phase).
Proof.
  intros Hd Hc. unfold _predict.
  apply preserves_bind; [by apply preserves__predict_batches|].
  intros [pred_list label_list].
  apply preserves_bind; [apply preserves_cfg_get|]. intros tta.
  destruct (truthy tta); [|apply preserves_ret].
  apply preserves_bind; [apply preserves_cfg_get|]. intros tta1.
  apply preserves_bind; [apply preserves_as_int|]. intros k.
  apply preserves_bind; [apply preserves_lift|]. intros rows.
  apply preserves_bind; [apply preserves_cfg_get|]. intros tta2.
  apply preserves_bind; [apply preserves_as_int|]. intros k'.
  apply preserves_ret.
Qed.

(** The call of [_update_by_epoch] in [retrain] passes three arguments to a
    method of two parameters. *)
Lemma _update_by_epoch_call_in_retrain phase epoch learning_anneal σ :
  _update_by_epoch_call phase [VInt epoch; learning_anneal] σ = (Raise TypeError, σ).
Proof. done. Qed.

(** With no metrics at all, [test] raises. *)
Lemma test_raises_without_metrics return_metrics phase σ :
  metrics σ = ∅ → raises (test _predict return_metrics false phase) σ.
Proof.
  intros Hms. unfold test.
  apply raises_bind. simpl. apply raises_bind.
  destruct (_predict phase σ) as [[[pred_list label_list]|e] σ1] eqn:Hp; [|done].
  assert (metrics σ1 = ∅) as Hms1.
  { rewrite <-Hms. by eapply (preserves__predict metrics). }
  apply raises_bind. unfold cfg_get at 1.
  destruct (cfg σ1 !! "return_prob") as [return_prob|]; [|done].
  apply raises_bind. destruct (truthy return_prob); [done|]. simpl.
  apply raises_bind. unfold metrics_of. by rewrite Hms1, lookup_empty.
Qed.

Lemma for_each_first_raises {A} (body : A → Py Self unit) x l σ :
  raises (body x) σ → raises (for_each (x :: l) body) σ.
Proof.
  intros Hx. unfold for_each. simpl. apply raises_bind.
  unfold raises in Hx. by destruct (body x σ) as [[[]|e] σ'].
Qed.

(** One epoch of [retrain] raises when there are no metrics. *)
Lemma retrain_epoch_raises (start_bound : bool) epoch σ :
  metrics σ = ∅ →
  raises
    (bs ← batches "retrain";
     for_each (zip (seq 0 (length bs)) bs) (retrain_batch start_bound epoch "retrain");;
     self ← gets id;
     match logger self with
     | Some _ => _record_log "retrain" epoch
     | None => mret ()
     end;;
     learning_anneal ← cfg_get "learning_anneal";
     _ ← _update_by_epoch_call "retrain" [VInt (Z.of_nat epoch); learning_anneal];
     mret ()) σ.
Proof.
  intros Hms. apply raises_bind.
  destruct (batches "retrain" σ) as [[bs|e] σ1] eqn:Hb; [|done].
  assert (metrics σ1 = ∅) as Hms1.
  { rewrite <-Hms. by eapply (preserves_batches metrics). }
  apply raises_bind. destruct bs as [|[inputs labels] bs].
  - simpl. apply raises_bind. simpl.
    apply raises_bind. destruct (logger σ1) as [lg|].
    + unfold _record_log. unfold mbind at 1, Py_bind, metrics_of.
      by rewrite Hms1, lookup_empty.
    + simpl. apply raises_bind. unfold cfg_get.
      by destruct (cfg σ1 !! "learning_anneal").
  - assert (raises (for_each (zip (seq 0 (length ((inputs, labels) :: bs)))
                                  ((inputs, labels) :: bs))
                      (retrain_batch start_bound epoch "retrain")) σ1) as Hr.
    { simpl. apply for_each_first_raises. unfold retrain_batch.
      apply raises_bind.
      destruct (call_model_manager _ _ σ1) as [[[loss predicts]|e] σ2] eqn:Hc; [|done].
      assert (metrics σ2 = ∅) as Hms2.
      { rewrite <-Hms1. by eapply (preserves_call_model_manager metrics). }
      apply raises_bind. unfold metrics_of. by rewrite Hms2, lookup_empty. }
    unfold raises in Hr. by destruct (for_each _ _ σ1) as [[[]|e] σ2].
Qed.

(** C5. [retrain] never returns: whatever the train manager, the call
    raises. With metrics, iterating the dictionary [self.metrics] yields
    strings, which have no [add_average_meter]; without, the first epoch
    fails on [self.metrics['retrain']] or on the call of [_update_by_epoch]
    with one argument too many, and with no epoch [test] fails on
    [self.metrics['test']]. *)
Theorem retrain_always_raises σ : raises retrain σ.
Proof.
  unfold retrain. apply raises_bind.
  destruct (call_model_manager _ _ σ) as [[[]|e] σ1] eqn:Hload; [|done].
  assert (metrics σ1 = metrics σ) as Hms1
    by (by eapply (preserves_call_model_manager metrics)).
  apply raises_bind. simpl.
  destruct (map_to_list (metrics σ1)) as [|[key ms] kms] eqn:Hkeys.
  - apply map_to_list_empty_iff in Hkeys.
    simpl. apply raises_bind. simpl. apply raises_bind. unfold cfg_get at 1.
    destruct (cfg σ1 !! "retrain_epochs") as [retrain_epochs|]; [|done].
    apply raises_bind. unfold as_int.
    destruct (int_of retrain_epochs) as [n|]; [|done]. simpl.
    apply raises_bind. unfold range.
    destruct (Z.to_nat n) as [|n'].
    + simpl. apply raises_bind.
      pose proof (test_raises_without_metrics true "retrain_test" σ1 Hkeys) as Ht.
      unfold raises in Ht.
      by destruct (test _predict true false "retrain_test" σ1) as [[a|e] σ2].
    + cbn [seq]. pose proof (retrain_epoch_raises false 0 σ1 Hkeys) as Hr.
      assert (∀ l, raises (for_each (0 :: l) (λ epoch,
        bs ← batches "retrain";
        for_each (zip (seq 0 (length bs)) bs) (retrain_batch false epoch "retrain");;
        self ← gets id;
        match logger self with
        | Some _ => _record_log "retrain" epoch
        | None => mret ()
        end;;
        learning_anneal ← cfg_get "learning_anneal";
        _ ← _update_by_epoch_call "retrain" [VInt (Z.of_nat epoch); learning_anneal];
        mret ())) σ1) as Hloop by (intros l; by apply for_each_first_raises).
      specialize (Hloop (seq 1 n')). unfold raises in Hloop.
      by destruct (for_each _ _ σ1) as [[[]|e] σ2].
  - cbn [fmap list_fmap fst]. apply raises_bind.
    assert (raises (for_each (key :: kms.*1)
                      (λ _ : string, raise (Σ:=Self) (A:=unit) AttributeError)) σ1) as Hr
      by by apply for_each_first_raises.
    unfold raises in Hr. by destruct (for_each _ _ σ1) as [[[]|e] σ2].
Qed.
End train_manager.

(** ** C9: the [fitted] flag of [BaseMLPredictor] *)

Section predictor.
Import BaseMLPredictor.
Context {Model X Y : Type} `{!Estimator Model X Y}.

Local Abbreviation World := (@World Model).
Local Abbreviation Op := (@Op X Y).
Implicit Types w : World.
Implicit Types op : Op.

(** What a call does to the flag: [fit] sets it, [load_model] sets it when
    it returns, nothing clears it. *)
Lemma perform_fitted op w :
  fitted (self (perform op w).2)
  = fitted (self w) || is_fit op || (is_load_model op && returned (perform op w).1).
Proof.
  destruct op as [fname|fname|x y|x|x]; simpl.
  - unfold save_model, mbind, Py_bind, gets, lift, modify, the_model. simpl.
    destruct (open_w fname (disk w)) as [d|e]; simpl; [|by rewrite !orb_false_r].
    destruct (model (self w)); simpl; by rewrite !orb_false_r.
  - unfold load_model, mbind, Py_bind, gets, lift, modify. simpl.
    destruct (read fname (disk w)) as [bytes|e]; simpl; [|by rewrite !orb_false_r].
    destruct (pickle_loads bytes) as [m|e]; simpl; [|by rewrite !orb_false_r].
    by rewrite orb_true_r.
  - rewrite orb_true_r. simpl.
    unfold fit, mbind, Py_bind, gets, lift, modify, the_model. simpl.
    destruct (model (self w)) as [m|]; simpl; [|done].
    destruct (sk_fit m x y) as [[[]|e] m']; simpl; [|done].
    destruct (sk_predict_proba m' x) as [proba|e]; simpl; [|done].
    by destruct (log_loss y proba (class_labels (self w))).
  - unfold predict, mbind, Py_bind, gets, lift, the_model. simpl.
    destruct (fitted (self w)) eqn:Hf; simpl; [|by rewrite Hf].
    destruct (model (self w)) as [m|]; simpl; [|by rewrite Hf].
    destruct (sk_predict m x); simpl; by rewrite Hf.
  - unfold predict_proba, mbind, Py_bind, lift, the_model.
    destruct (model (self w)) as [m|]; simpl; [|by rewrite !orb_false_r].
    destruct (sk_predict_proba m x); simpl; by rewrite !orb_false_r.
Qed.

Lemma run_cons op ops w :
  run (op :: ops) w
  = ((op, returned (perform op w).1) :: (run ops (perform op w).2).1,
     (run ops (perform op w).2).2).
Proof.
  simpl. destruct (perform op w) as [r w']. simpl. by destruct (run ops w').
Qed.

Lemma run_never_fitted ops :
  ∀ w, fitted (self w) = false →
       (fitted (self (run ops w).2) = false ↔ never_fitted (run ops w).1).
Proof.
  unfold never_fitted. induction ops as [|op ops IH]; intros w Hw.
  - simpl. split; [by constructor|done].
  - rewrite run_cons. simpl. rewrite Forall_cons.
    pose proof (perform_fitted op w) as Hp. rewrite Hw in Hp. simpl in Hp.
    destruct (fitted (self (perform op w).2)) eqn:Hf.
    + assert (fitted (self (run ops (perform op w).2).2) = true) as Hrun.
      { clear -Hf. revert Hf. generalize (perform op w).2. clear.
        induction ops as [|op ops IH]; intros w Hw; [done|].
        rewrite run_cons. simpl. apply IH. rewrite perform_fitted, Hw. done. }
      rewrite Hrun. split; [done|]. intros [[Hfit Hload] _]. exfalso.
      rewrite Hfit in Hp. simpl in Hp.
      destruct (is_load_model op); [|done]. rewrite Hload in Hp; done.
    + rewrite (IH _ Hf). symmetry in Hp. apply orb_false_iff in Hp as [Hfit Hload].
      split; [|by intros [_ ?]]. intros Hrest. split; [|done]. split; [done|].
      intros Hl. rewrite Hl in Hload. done.
Qed.

(** C9, as the code has it. For a predictor just constructed and any calls
    made on it since: the [fitted] flag is false exactly when [fit] was
    never called and no call of [load_model] returned; [predict] then raises
    [NotFittedError], and otherwise hands over to the estimator, whatever
    that returns or raises; and no call clears the flag. *)
Theorem predict_raises_not_fitted_until_fit_or_loaded
    labels config estimator files_ (ops : list Op) (x : X) :
  let w := (run ops {| self := __init__ labels config estimator; disk := files_ |}).2 in
  let log := (run ops {| self := __init__ labels config estimator; disk := files_ |}).1 in
  (fitted (self w) = false ↔ never_fitted log) ∧
  (never_fitted log → predict x w = (Raise NotFittedError, w)) ∧
  (¬ never_fitted log →
   predict x w = (m ← the_model; lift (sk_predict m x)) w) ∧
  (∀ op w', fitted (self w') = true → fitted (self (perform op w').2) = true).
Proof.
  intros w log.
  pose proof (run_never_fitted ops
    {| self := __init__ labels config estimator; disk := files_ |} eq_refl) as Hiff.
  fold w log in Hiff. split; [done|]. split; [|split].
  - intros Hlog. apply Hiff in Hlog. unfold predict, mbind, Py_bind, gets. simpl.
    by rewrite Hlog.
  - intros Hlog. destruct (fitted (self w)) eqn:Hf; [|exfalso; by apply Hlog, Hiff].
    unfold predict at 1, mbind at 1, Py_bind at 1, gets. simpl. by rewrite Hf.
  - intros op w' Hw'. by rewrite perform_fitted, Hw'.
Qed.
End predictor.

Section predictor_examples.
Import BaseMLPredictor DemoEstimator.

(** C9 as stated fails: after a call of [load_model] on a file that does not
    exist, which raises, [predict] still raises [NotFittedError] although
    [load_model] has been called; and on a predictor of the base class a call
    of [fit] raises for want of [self.model], after which [predict] raises
    [AttributeError] and not [NotFittedError]. *)
Lemma predict_after_failed_load_model :
  ¬ ((predict [] (run [OLoadModel "model.pkl"] fresh).2).1 = Raise NotFittedError
     ↔ neither_called (X:=list Qc) (Y:=list Qc) [OLoadModel "model.pkl"]) ∧
  (run [OFit [] [1%Qc]] fresh_base).1 = [(OFit [] [1%Qc], false)] ∧
  (predict [] (run [OFit [] [1%Qc]] fresh_base).2).1 = Raise AttributeError.
Proof.
  split; [|by split].
  intros [Hcalled _].
  assert ((predict [] (run (X:=list Qc) (Y:=list Qc) [OLoadModel "model.pkl"] fresh).2).1
          = Raise NotFittedError) as Hraise by done.
  apply Hcalled in Hraise. apply Forall_cons in Hraise as [[_ [=]] _].
Qed.
End predictor_examples.

(** ** The theorems at work on the concrete train manager [Demo.manager] *)

Section witnesses.
Import Demo.

Local Abbreviation DemoEpoch :=
  (@EpochRun (list Qc) DemoManager (list (list Qc * list Qc)) DemoMeter).

Lemma demo_train_ready with_validate :
  train_ready None with_validate false (manager config) = true.
Proof. destruct with_validate; vm_compute; reflexivity. Qed.


Lemma train_iterates_epochs_and_phases_witness :
  train_ready None true false (manager config) = true ∧
  ∃ (ers : list DemoEpoch) n, cfg (manager config) !! "epochs" ≫= int_of = Some n ∧
           epoch_no <$> ers = seq 0 (Z.to_nat n) ∧
           Forall (λ er, run_phase <$> phase_runs er = ["train"; "val"]) ers.
Proof.
  split; [apply demo_train_ready|].
  destruct (train_iterates_epochs_and_phases None true false (manager config) (demo_train_ready _))
    as (ers & σ' & result & σ'' & n & _ & _ & Hn & Hnos & Hphases & _).
  by exists ers, n.
Defined.





End witnesses.

(** ** C8: [dump_dict] and the JSON text it writes *)

Section json_text.
Import json.

(** *** Strings *)

Lemma append_cons (c : ascii) (a b : string) :
  String c a +:+ b = String c (a +:+ b).
Proof. reflexivity. Qed.

Lemma append_nil_l (a : string) : "" +:+ a = a.
Proof. reflexivity. Qed.



Lemma length_append (a b : string) :
  String.length (a +:+ b) = String.length a + String.length b.
Proof.
  induction a as [|x a IH]; [done|]. rewrite append_cons. simpl. by f_equal.
Qed.

(** *** Characters of a string *)




(** *** Numbers *)










(** *** Whitespace and the first character of a value *)




Lemma delimited_newline_indent level s :
  delimited (newline_indent level +:+ s) = true.
Proof. done. Qed.


(** *** Induction on the values of lists and dictionaries *)

End json_text.

Section json_roundtrip.
Import json.

(** *** Lists *)





(** *** Dictionaries *)








(** *** Values *)



End json_roundtrip.

Section json_load.
Import json.

(** *** The fuel [loads] gives the decoder *)



End json_load.

Section dump_dict.
Import json.





End dump_dict.

(** * Further properties of the embedded code *)

(** ** [BaseTrainManager]: the helpers *)

Section base_helpers.
Context {Inputs MM DL Meter : Type}.
Context `{!ModelManager MM Inputs, !DataLoader DL Inputs, !AverageMeter Meter}.
Context `{!Sklearn}.

Local Abbreviation Self := (TrainManager Inputs MM DL Meter).
Implicit Types σ : Self.

Lemma check_keys_first_missing (pre : list string) key post keys σ :
  (∀ k, k ∈ pre → k ∈ keys) → key ∉ keys →
  check_keys_from_dict (pre ++ key :: post) keys σ = (Raise (AssertionError key), σ).
Proof.
  unfold check_keys_from_dict, for_each. intros Hpre Hkey.
  induction pre as [|k pre IH]; simpl.
  - unfold mbind, Py_bind. by rewrite bool_decide_eq_false_2.
  - unfold mbind, Py_bind. rewrite bool_decide_eq_true_2 by (apply Hpre; by left).
    simpl. apply IH. intros k' Hk'. apply Hpre. by right.
Qed.

(** X1. [check_keys_from_dict] returns exactly when every required key is a
    key of the dictionary; otherwise it raises the [AssertionError] of the
    first required key that is missing; either way nothing is changed. *)
Theorem check_keys_from_dict_returns_iff (must_contain_keys keys : list string) σ :
  (check_keys_from_dict must_contain_keys keys σ = (Ok (), σ)
   ↔ ∀ key, key ∈ must_contain_keys → key ∈ keys) ∧
  (∀ pre key post,
     must_contain_keys = pre ++ key :: post →
     (∀ k, k ∈ pre → k ∈ keys) → key ∉ keys →
     check_keys_from_dict must_contain_keys keys σ
     = (Raise (AssertionError key), σ)) ∧
  (check_keys_from_dict must_contain_keys keys σ).2 = σ.
Proof.
  split; [|split].
  - split; [|apply check_keys_ok].
    intros Hok key Hkey. destruct (decide (key ∈ keys)) as [|Hmiss]; [done|].
    exfalso.
    assert (∃ pre k post, must_contain_keys = pre ++ k :: post ∧
              (∀ k', k' ∈ pre → k' ∈ keys) ∧ k ∉ keys) as (pre & k & post & -> & Hpre & Hk).
    { clear Hok. induction must_contain_keys as [|k l IH]; [by apply elem_of_nil in Hkey|].
      destruct (decide (k ∈ keys)) as [Hin|Hout].
      - destruct IH as (pre & k' & post & -> & Hpre & Hk').
        { apply elem_of_cons in Hkey as [->|]; done. }
        exists (k :: pre), k', post. split; [done|]. split; [|done].
        intros k'' [->|]%elem_of_cons; auto.
      - exists [], k, l. split; [done|]. split; [|done].
        intros k' Hk'. by apply elem_of_nil in Hk'. }
    by rewrite (check_keys_first_missing pre k post keys σ Hpre Hk) in Hok.
  - intros pre key post -> Hpre Hkey. by apply check_keys_first_missing.
  - destruct (check_keys_from_dict must_contain_keys keys σ) as [r σ'] eqn:Hc.
    by apply (preserves_check_keys id _ _ _ _ _ Hc).
Qed.
End base_helpers.

(** ** [_init_model_manager]: what it writes and when it gives up *)

Section init_model_manager_more.
Context {Inputs MM DL Meter : Type}.
Context `{!ModelManager MM Inputs, !DataLoader DL Inputs, !AverageMeter Meter}.
Context `{!Sklearn}.
Variables supported_ml_models supported_nn_models : list string.
Variable supported_pretrained_models_keys : list string.

Local Abbreviation Self := (TrainManager Inputs MM DL Meter).
Implicit Types σ : Self.

Local Abbreviation init :=
  (_init_model_manager (Inputs:=Inputs) (MM:=MM) (DL:=DL) (Meter:=Meter)
     supported_ml_models supported_nn_models supported_pretrained_models_keys).

Ltac lookups :=
  repeat (rewrite lookup_insert_eq || rewrite lookup_insert_ne by done).

Lemma in_strs_VStr s l : in_strs (VStr s) l = bool_decide (s ∈ l).
Proof. done. Qed.

(** X2. For a supported neural-network or pretrained model type,
    [_init_model_manager] writes into [self.cfg] the sizes it reads off the
    first data loader: [input_size] always, [seq_len] (and [batch_norm_size]
    when [cfg['batch_norm']] is true) for ['rnn'], [image_size] and
    [n_channels] for ['logmel_cnn'], ['cnn'], ['cnn_rnn'] and the pretrained
    models; it touches no other key, and the [NNModelManager] is handed the
    class labels and the configuration with these additions. *)
Theorem init_model_manager_writes_sizes σ model_type first dl rest :
  dataloaders σ = (first, dl) :: rest →
  cfg σ !! "model_type" = Some (VStr model_type) →
  model_type ∈ supported_nn_models ++ supported_pretrained_models_keys →
  (model_type = "rnn" → is_Some (cfg σ !! "batch_norm")) →
  ∃ σ',
    init σ = (Ok (Some (NNModelManager (class_labels σ) (cfg σ'))), σ') ∧
    σ' = set_cfg (cfg σ') σ ∧
    cfg σ' !! "input_size" = Some (get_input_size dl) ∧
    (model_type = "rnn" →
     cfg σ' !! "seq_len" = Some (get_seq_len dl) ∧
     ∀ batch_norm, cfg σ !! "batch_norm" = Some batch_norm →
       cfg σ' !! "batch_norm_size"
       = if truthy batch_norm then Some (get_batch_norm_size dl)
         else cfg σ !! "batch_norm_size") ∧
    (model_type ≠ "rnn" →
     model_type ∈ ["logmel_cnn"; "cnn"; "cnn_rnn"] ++ supported_pretrained_models_keys →
     cfg σ' !! "image_size" = Some (get_image_size dl) ∧
     cfg σ' !! "n_channels" = Some (get_n_channels dl)) ∧
    (∀ key, key ∉ ["input_size"; "seq_len"; "batch_norm_size";
                    "image_size"; "n_channels"] →
            cfg σ' !! key = cfg σ !! key).
Proof.
  intros Hdl Hmt Hnn Hbn.
  unfold _init_model_manager, first_dataloader, cfg_set, cfg_get, mbind, Py_bind,
    modify, gets, mret, Py_ret. rewrite Hdl. cbn [cfg set_cfg dataloaders].
  rewrite lookup_insert_ne by done. rewrite Hmt, !in_strs_VStr.
  rewrite (bool_decide_eq_true_2 _ Hnn).
  destruct (decide (model_type = "rnn")) as [->|Hrnn].
  - rewrite bool_decide_eq_true_2 by (by left).
    destruct (Hbn eq_refl) as [batch_norm Hbatch].
    cbn [cfg set_cfg dataloaders class_labels].
    rewrite lookup_insert_ne by done. rewrite Hbatch.
    destruct (truthy batch_norm) eqn:Htruthy;
      do 3 (cbn [cfg set_cfg dataloaders class_labels id]; rewrite ?Hdl);
      (match goal with |- ∃ σ', (_, ?s) = _ ∧ _ => exists s end;
       split; [reflexivity|];
       cbn [cfg set_cfg dataloaders class_labels]; split; [done|]);
      (split; [by lookups|]);
      (split; [intros _; split; [by lookups|];
                 intros bn' [= <-]; rewrite Htruthy; by lookups|]);
      (split; [done|]);
      intros key Hkey; (rewrite !lookup_insert_ne; [done|..]);
        intros <-; apply Hkey, list_elem_of_In; simpl; tauto.
  - rewrite bool_decide_eq_false_2 by (by intros [->|[]%elem_of_nil]%elem_of_cons).
    case_bool_decide as Hcnn;
      do 3 (cbn [cfg set_cfg dataloaders class_labels id]; rewrite ?Hdl);
      (match goal with |- ∃ σ', (_, ?s) = _ ∧ _ => exists s end;
       split; [reflexivity|];
       cbn [cfg set_cfg dataloaders class_labels]; split; [done|]).
    + split; [by lookups|].
      split; [done|]. split.
      * intros _ _. split; by lookups.
      * intros key Hkey; (rewrite !lookup_insert_ne; [done|..]);
          intros <-; apply Hkey, list_elem_of_In; simpl; tauto.
    + split; [by lookups|]. split; [done|]. split; [done|].
      intros key Hkey; (rewrite !lookup_insert_ne; [done|..]);
        intros <-; apply Hkey, list_elem_of_In; simpl; tauto.
Qed.

(** X3. The edges of [_init_model_manager]. Without any data loader it
    raises [IndexError] and changes nothing. For a model type that is in
    none of the supported lists (or is no string) it raises nothing: it
    returns [None], having written [cfg['input_size']] all the same. Without
    [cfg['model_type']] it raises [KeyError], after that write. *)
Theorem init_model_manager_gives_up σ :
  (dataloaders σ = [] → init σ = (Raise IndexError, σ)) ∧
  (∀ first dl rest, dataloaders σ = (first, dl) :: rest →
     let σ' := set_cfg (<["input_size" := get_input_size dl]> (cfg σ)) σ in
     (cfg σ !! "model_type" = None →
      init σ = (Raise (KeyError "model_type"), σ')) ∧
     (∀ model_type, cfg σ !! "model_type" = Some model_type →
        in_strs model_type
          (supported_nn_models ++ supported_pretrained_models_keys) = false →
        in_strs model_type supported_ml_models = false →
        init σ = (Ok None, σ'))).
Proof.
  split.
  - intros Hdl. unfold _init_model_manager, first_dataloader, mbind, Py_bind.
    by rewrite Hdl.
  - intros first dl rest Hdl σ'. split.
    + intros Hmt.
      unfold _init_model_manager, first_dataloader, cfg_set, cfg_get, mbind,
        Py_bind, modify. cbn [cfg set_cfg dataloaders class_labels]. rewrite Hdl. cbn [cfg set_cfg dataloaders class_labels].
      rewrite lookup_insert_ne by done. by rewrite Hmt.
    + intros model_type Hmt Hnn Hml.
      unfold _init_model_manager, first_dataloader, cfg_set, cfg_get, mbind,
        Py_bind, modify. cbn [cfg set_cfg dataloaders class_labels]. rewrite Hdl. cbn [cfg set_cfg dataloaders class_labels].
      rewrite lookup_insert_ne by done. by rewrite Hmt, Hnn, Hml.
Qed.
End init_model_manager_more.

(** ** [_record_log] *)

Section record_log.
Context {Inputs MM DL Meter : Type}.
Context `{!ModelManager MM Inputs, !DataLoader DL Inputs, !AverageMeter Meter}.
Context `{!Sklearn}.

Local Abbreviation Self := (TrainManager Inputs MM DL Meter).
Implicit Types σ : Self.

Lemma append_inj_r (a b c : string) : a +:+ c = b +:+ c → a = b.
Proof.
  revert b. induction a as [|x a IH]; intros [|y b] Heq; [done|..].
  - apply (f_equal String.length) in Heq.
    rewrite append_nil_l, append_cons in Heq. simpl in Heq.
    rewrite length_append in Heq. lia.
  - apply (f_equal String.length) in Heq.
    rewrite append_nil_l, append_cons in Heq. simpl in Heq.
    rewrite length_append in Heq. lia.
  - rewrite !append_cons in Heq. injection Heq as -> Heq. f_equal. by apply IH.
Qed.

Lemma dict_set_fresh {V} (d : list (string * V)) key v :
  key ∉ dict_keys d → dict_set d key v = d ++ [(key, v)].
Proof.
  induction d as [|[k w] d IH]; [done|]. intros Hkey.
  apply not_elem_of_cons in Hkey as [Hne Hkey]. cbn [dict_set app].
  rewrite bool_decide_eq_false_2 by done. by rewrite IH.
Qed.

Lemma foldl_dict_set_fresh {A V} (key : A → string) (value : A → V) (xs : list A) :
  ∀ acc, NoDup (dict_keys acc ++ (key <$> xs)) →
  foldl (λ values x, dict_set values (key x) (value x)) acc xs
  = acc ++ ((λ x, (key x, value x)) <$> xs).
Proof.
  induction xs as [|x xs IH]; intros acc Hnodup; [by rewrite app_nil_r|].
  cbn [foldl fmap list_fmap]. rewrite fmap_cons in Hnodup.
  rewrite dict_set_fresh.
  - rewrite IH; [by rewrite <-app_assoc|].
    unfold dict_keys. rewrite fmap_app. cbn [fmap list_fmap fst].
    by rewrite <-app_assoc.
  - apply NoDup_app in Hnodup as (_ & Hdisj & _). intros Hin.
    apply (Hdisj _ Hin). by left.
Qed.

(** X4. [_record_log(phase, epoch)] sends the logger exactly one record: for
    metrics with distinct names it holds, in the order of
    [self.metrics[phase]], one value per metric, the average of its meter
    under the key [phase_name_mean]. Without metrics for the phase it raises
    [KeyError], without a logger [AttributeError]; the train manager is
    otherwise unchanged. *)
Theorem record_log_sends_one_value_per_metric phase epoch σ :
  (metrics σ !! phase = None →
   _record_log phase epoch σ = (Raise (KeyError phase), σ)) ∧
  (∀ ms, metrics σ !! phase = Some ms →
     (logger σ = None → _record_log phase epoch σ = (Raise AttributeError, σ)) ∧
     (is_Some (logger σ) → NoDup (name <$> ms) →
      _record_log phase epoch σ
      = (Ok (),
         add_call
           (CLoggerUpdate epoch
              ((λ metric, (phase +:+ "_" +:+ name metric +:+ "_mean",
                           average (average_meter metric))) <$> ms)) σ))).
Proof.
  unfold _record_log, metrics_of, call_logger, mbind, Py_bind. split.
  - by intros ->.
  - intros ms ->. split.
    + by intros ->.
    + intros [lg ->] Hnames. do 2 f_equal.
      rewrite foldl_dict_set_fresh; [done|]. cbn [dict_keys fmap list_fmap app].
      change (NoDup ((λ n, phase +:+ "_" +:+ n +:+ "_mean") ∘ name <$> ms)).
      rewrite list_fmap_compose. apply NoDup_fmap_2; [|done].
      intros n1 n2 Heq. apply (inj (String.app phase)) in Heq.
      apply (inj (String.app "_")) in Heq. by apply append_inj_r in Heq.
Qed.
End record_log.

Section bind_inversion.
Context {Σ : Type}.

Lemma bind_inv {A B} (m : Py Σ A) (k : A → Py Σ B) σ b σ' :
  (m ≫= k) σ = (Ok b, σ') →
  ∃ a σ1, m σ = (Ok a, σ1) ∧ k a σ1 = (Ok b, σ').
Proof.
  unfold mbind, Py_bind. destruct (m σ) as [[a|e] σ1]; [|done]. eauto.
Qed.
End bind_inversion.

(** ** [NNTrainManager._predict] and [infer] *)

Section predict.
Import Evaluation.
Context {Inputs MM DL Meter : Type}.
Context `{!ModelManager MM Inputs, !DataLoader DL Inputs, !AverageMeter Meter}.
Context `{!Sklearn}.

Local Abbreviation Self := (TrainManager Inputs MM DL Meter).
Implicit Types σ : Self.

Lemma after_calls_nil σ mm :
  model_manager σ = Some mm → after_calls [] mm (dataloaders σ) σ = σ.
Proof. destruct σ. simpl. intros ->. unfold after_calls. simpl. by rewrite app_nil_r. Qed.

Lemma after_calls_call σ cs c mm mm' dls :
  add_call c (set_model_manager (Some mm') (after_calls cs mm dls σ))
  = after_calls (cs ++ [c]) mm' dls σ.
Proof. unfold after_calls, add_call, set_model_manager. simpl. by rewrite app_assoc. Qed.

Lemma predict_loop (bs : list (Inputs * list Qc)) :
  ∀ pred_list label_list cs mm dls σ,
    foldM (λ '(pred_list, label_list) '(inputs, labels),
             preds ← call_model_manager (CPredict inputs)
                       (λ mm, mm_predict mm inputs);
             mret (pred_list ++ preds, label_list ++ labels))
          (pred_list, label_list) bs (after_calls cs mm dls σ)
    = (Ok (pred_list ++ (predict_all mm bs.*1).1, label_list ++ concat bs.*2),
       after_calls (cs ++ (CPredict <$> bs.*1)) (predict_all mm bs.*1).2 dls σ).
Proof.
  induction bs as [|[inputs labels] bs IH]; intros pred_list label_list cs mm dls σ.
  - simpl. by rewrite !app_nil_r.
  - cbn [foldM fmap list_fmap fst snd concat predict_all].
    unfold mbind at 1, Py_bind at 1. unfold mbind at 1, Py_bind at 1.
    unfold call_model_manager. cbn [model_manager after_calls].
    destruct (mm_predict mm inputs) as [preds mm'] eqn:Hp.
    fold (after_calls cs mm dls σ). rewrite after_calls_call.
    cbn [mret Py_ret]. rewrite IH.
    destruct (predict_all mm' bs.*1) as [preds' mm''].
    cbn [fst snd]. by rewrite <-!app_assoc.
Qed.

(** The predictions and labels of a phase: what lines 64-75 of [_predict]
    do when the configuration has a batch size, the phase a data loader and
    the train manager a model manager. *)
Lemma predict_batches_spec phase σ batch_size dl mm :
  cfg σ !! "batch_size" = Some batch_size →
  dict_get (dataloaders σ) phase = Some dl →
  model_manager σ = Some mm →
  _predict_batches phase σ
  = (Ok ((predict_all mm (dl_iter dl).1.*1).1, concat (dl_iter dl).1.*2),
     after_calls (CPredict <$> (dl_iter dl).1.*1)
       (predict_all mm (dl_iter dl).1.*1).2
       (dict_set (dataloaders σ) phase (dl_iter dl).2) σ).
Proof.
  intros Hbs Hdl Hmm. unfold _predict_batches.
  unfold mbind at 1, Py_bind at 1, cfg_get. rewrite Hbs.
  unfold mbind at 1, Py_bind at 1, gets. cbn [id].
  unfold mbind at 1, Py_bind at 1.
  rewrite check_keys_ok.
  2:{ intros key [->|[]%elem_of_nil]%elem_of_cons.
      apply dict_get_is_Some. by rewrite Hdl. }
  unfold mbind at 1, Py_bind at 1, batches.
  unfold mbind at 1, Py_bind at 1, dataloader. rewrite Hdl.
  destruct (dl_iter dl) as [bs dl'] eqn:Hiter.
  unfold mbind at 1, Py_bind at 1, modify. cbn [mret Py_ret fst snd].
  assert (set_dataloaders (dict_set (dataloaders σ) phase dl') σ
          = after_calls [] mm (dict_set (dataloaders σ) phase dl') σ) as ->.
  { destruct σ. simpl in *. subst. unfold set_dataloaders, after_calls. simpl.
    by rewrite app_nil_r. }
  by rewrite predict_loop.
Qed.

Lemma predict_after_batches phase σ pred_list label_list σ1 :
  _predict_batches phase σ = (Ok (pred_list, label_list), σ1) →
  (_predict phase σ).2 = σ1.
Proof.
  intros Hb. unfold _predict. rewrite (bind_ok _ _ _ _ _ Hb). cbn beta iota.
  unfold mbind, Py_bind, cfg_get, as_int, lift, mret, Py_ret, raise.
  destruct (cfg σ1 !! "tta") as [tta|] eqn:Htta. 2: reflexivity.
  cbv beta iota. destruct (truthy tta). 2: reflexivity.
  rewrite Htta. cbv beta iota.
  destruct (int_of tta) as [k|] eqn:Hk. 2: reflexivity.
  cbv beta iota. destruct (np_reshape_rows k pred_list). 2: reflexivity.
  rewrite Htta. cbv beta iota. rewrite Hk. reflexivity.
Qed.

Lemma predict_batches_fails_fast phase σ :
  (cfg σ !! "batch_size" = None →
   _predict_batches phase σ = (Raise (KeyError "batch_size"), σ)) ∧
  (is_Some (cfg σ !! "batch_size") → dict_get (dataloaders σ) phase = None →
   _predict_batches phase σ = (Raise (AssertionError phase), σ)).
Proof.
  split.
  - intros Hbs. unfold _predict_batches, mbind, Py_bind, cfg_get. by rewrite Hbs.
  - intros [batch_size Hbs] Hdl. unfold _predict_batches.
    unfold mbind at 1, Py_bind at 1, cfg_get. rewrite Hbs.
    unfold mbind at 1, Py_bind at 1, gets. cbn [id].
    unfold mbind at 1, Py_bind at 1.
    rewrite (check_keys_first_missing [] phase [] _ σ); [done|by intros ? ?%elem_of_nil|].
    intros Hin%dict_get_is_Some. rewrite Hdl in Hin. by destruct Hin.
Qed.

(** X5. Without test-time augmentation ([cfg['tta']] is [0], [None] or
    false) [_predict] asks the model manager for the predictions of every
    batch of the phase's loader, once each and in order, and returns them
    concatenated, with the concatenated labels; it changes neither the
    configuration nor the metrics. *)
Theorem predict_without_tta_concatenates phase σ batch_size tta dl mm :
  cfg σ !! "batch_size" = Some batch_size →
  cfg σ !! "tta" = Some tta → truthy tta = false →
  dict_get (dataloaders σ) phase = Some dl →
  model_manager σ = Some mm →
  ∃ σ',
    _predict phase σ
    = (Ok ((predict_all mm (dl_iter dl).1.*1).1, concat (dl_iter dl).1.*2), σ') ∧
    calls σ' = calls σ ++ (CPredict <$> (dl_iter dl).1.*1) ∧
    model_manager σ' = Some (predict_all mm (dl_iter dl).1.*1).2 ∧
    metrics σ' = metrics σ ∧ cfg σ' = cfg σ.
Proof.
  intros Hbs Htta Htruthy Hdl Hmm.
  pose proof (predict_batches_spec phase σ batch_size dl mm Hbs Hdl Hmm) as Hb.
  match type of Hb with _ = (_, ?s) => exists s end. split; [|done].
  unfold _predict. rewrite (bind_ok _ _ _ _ _ Hb). cbn beta iota.
  unfold mbind, Py_bind, cfg_get. cbn [cfg after_calls]. by rewrite Htta, Htruthy.
Qed.

(** X6. [_predict] fails before it touches the model manager or a data
    loader when the configuration has no [batch_size] (a key it reads and
    never uses), with [KeyError], and when the phase has no data loader, with
    the [AssertionError] of [check_keys_from_dict]: nothing is changed. *)
Theorem predict_fails_fast phase σ :
  (cfg σ !! "batch_size" = None →
   _predict phase σ = (Raise (KeyError "batch_size"), σ)) ∧
  (is_Some (cfg σ !! "batch_size") → dict_get (dataloaders σ) phase = None →
   _predict phase σ = (Raise (AssertionError phase), σ)).
Proof.
  destruct (predict_batches_fails_fast phase σ) as [Hkey Hloader].
  split.
  - intros Hbs. unfold _predict. by rewrite (bind_raise _ _ _ _ _ (Hkey Hbs)).
  - intros Hbs Hdl. unfold _predict.
    by rewrite (bind_raise _ _ _ _ _ (Hloader Hbs Hdl)).
Qed.

(** X7. With test-time augmentation [_predict] first collects all the
    predictions, then reshapes: when [cfg['tta']] is a negative integer or
    an integer that does not divide the number of predictions, it raises
    [ValueError] after the model manager has predicted every batch. *)
Theorem predict_refuses_uneven_tta phase σ batch_size tta k dl mm :
  cfg σ !! "batch_size" = Some batch_size →
  cfg σ !! "tta" = Some tta → int_of tta = Some k → k ≠ 0%Z →
  dict_get (dataloaders σ) phase = Some dl →
  model_manager σ = Some mm →
  (k < 0 ∨ Z.of_nat (length (predict_all mm (dl_iter dl).1.*1).1) `mod` k ≠ 0)%Z →
  ∃ σ',
    _predict phase σ = (Raise ValueError, σ') ∧
    calls σ' = calls σ ++ (CPredict <$> (dl_iter dl).1.*1).
Proof.
  intros Hbs Htta Hk Hk0 Hdl Hmm Huneven.
  pose proof (predict_batches_spec phase σ batch_size dl mm Hbs Hdl Hmm) as Hb.
  match type of Hb with _ = (_, ?s) => exists s end. split; [|done].
  unfold _predict. rewrite (bind_ok _ _ _ _ _ Hb). cbn beta iota.
  assert (truthy tta = true) as Htruthy.
  { destruct tta; simpl in *; try done; injection Hk as <-.
    - by destruct b.
    - by apply negb_true_iff, Z.eqb_neq. }
  unfold mbind, Py_bind, cfg_get, as_int, lift. cbn [cfg after_calls].
  rewrite Htta, Htruthy. cbn [cfg after_calls]. rewrite Htta. cbv beta iota.
  rewrite Hk. cbn [mret Py_ret].
  unfold np_reshape_rows. destruct Huneven as [Hneg|Hmod].
  - by rewrite bool_decide_eq_true_2 by lia.
  - case_bool_decide; [done|]. by rewrite bool_decide_eq_false_2.
Qed.

Lemma predict_loop_calls (bs : list (Inputs * list Qc)) :
  ∀ acc σ r σ',
    foldM (λ '(pred_list, label_list) '(inputs, labels),
             preds ← call_model_manager (CPredict inputs)
                       (λ mm, mm_predict mm inputs);
             mret (pred_list ++ preds, label_list ++ labels))
          acc bs σ = (Ok r, σ') →
    calls σ' = calls σ ++ (CPredict <$> bs.*1) ∧
    metrics σ' = metrics σ ∧ cfg σ' = cfg σ ∧
    dict_keys (dataloaders σ') = dict_keys (dataloaders σ).
Proof.
  induction bs as [|[inputs labels] bs IH]; intros [pred_list label_list] σ r σ' Hloop.
  - injection Hloop as _ <-. by rewrite app_nil_r.
  - cbn [foldM] in Hloop. unfold mbind at 1, Py_bind at 1 in Hloop.
    unfold mbind at 1, Py_bind at 1, call_model_manager in Hloop.
    destruct (model_manager σ) as [mm|]; [|done].
    destruct (mm_predict mm inputs) as [preds mm']. cbn [mret Py_ret] in Hloop.
    apply IH in Hloop as (-> & -> & -> & ->).
    cbn [fmap list_fmap fst calls metrics cfg dataloaders add_call set_model_manager].
    by rewrite <-app_assoc.
Qed.

Lemma predict_batches_calls phase σ r σ' dl :
  _predict_batches phase σ = (Ok r, σ') →
  dict_get (dataloaders σ) phase = Some dl →
  calls σ' = calls σ ++ (CPredict <$> (dl_iter dl).1.*1) ∧
  metrics σ' = metrics σ ∧ cfg σ' = cfg σ.
Proof.
  intros Hb Hdl. unfold _predict_batches in Hb.
  unfold mbind at 1, Py_bind at 1, cfg_get in Hb.
  destruct (cfg σ !! "batch_size") as [batch_size|]; [|done].
  unfold mbind at 1, Py_bind at 1, gets in Hb. cbn [id] in Hb.
  unfold mbind at 1, Py_bind at 1 in Hb.
  rewrite check_keys_ok in Hb.
  2:{ intros key [->|[]%elem_of_nil]%elem_of_cons.
      apply dict_get_is_Some. by rewrite Hdl. }
  unfold mbind at 1, Py_bind at 1, batches in Hb.
  unfold mbind at 1, Py_bind at 1, dataloader in Hb. rewrite Hdl in Hb.
  destruct (dl_iter dl) as [bs dl'].
  unfold mbind at 1, Py_bind at 1, modify in Hb. cbn [mret Py_ret] in Hb.
  by apply predict_loop_calls in Hb as (-> & -> & -> & _).
Qed.

Lemma predict_returns_batches phase σ r σ' :
  _predict phase σ = (Ok r, σ') →
  ∃ pred_list label_list,
    _predict_batches phase σ = (Ok (pred_list, label_list), σ').
Proof.
  intros Hp. destruct (_predict_batches phase σ) as [[[p l]|e] σ1] eqn:Hb.
  - pose proof (predict_after_batches _ _ _ _ _ Hb) as Hstate.
    rewrite Hp in Hstate. simpl in Hstate. subst. eauto.
  - unfold _predict in Hp. by rewrite (bind_raise _ _ _ _ _ Hb) in Hp.
Qed.

(** X8. A call of [infer] that returns has loaded the checkpoint first, and
    only if [load_best] is true, then asked for the predictions of every
    batch of the phase's loader, once each and in order; it makes no other
    call on the model manager (no fit, no save) and leaves the metrics and
    the configuration as they were. *)
Theorem infer_only_loads_and_predicts load_best phase σ preds σ' dl :
  infer _predict load_best phase σ = (Ok preds, σ') →
  dict_get (dataloaders σ) phase = Some dl →
  calls σ' = calls σ ++ (if load_best then [CLoadModel] else [])
                     ++ (CPredict <$> (dl_iter dl).1.*1) ∧
  metrics σ' = metrics σ ∧ cfg σ' = cfg σ.
Proof.
  intros Hinfer Hdl. unfold infer in Hinfer.
  apply bind_inv in Hinfer as ([] & σ1 & Hload & Hinfer).
  apply bind_inv in Hinfer as ([p l] & σ2 & Hp & Hret).
  injection Hret as _ <-.
  apply predict_returns_batches in Hp as (p' & l' & Hb).
  destruct load_best.
  - unfold call_model_manager in Hload.
    destruct (model_manager σ) as [mm|]; [|done]. injection Hload as <-.
    apply (predict_batches_calls _ _ _ _ dl) in Hb as (-> & -> & ->); [|done].
    cbn [calls add_call set_model_manager metrics cfg].
    by rewrite <-app_assoc.
  - injection Hload as <-.
    by apply (predict_batches_calls _ _ _ _ dl) in Hb.
Qed.
End predict.

(** ** [test] *)

Section test.
Import Evaluation.
Context {Inputs MM DL Meter : Type}.
Context `{!ModelManager MM Inputs, !DataLoader DL Inputs, !AverageMeter Meter}.
Context `{!Sklearn}.

Local Abbreviation Self := (TrainManager Inputs MM DL Meter).
Implicit Types σ : Self.

Lemma preserves_one_hot {X} (f : Self → X) n xs :
  preserves f (one_hot (Σ:=Self) n xs).
Proof.
  apply preserves_foldM. intros rows x. cbv zeta.
  case_bool_decide; [apply preserves_ret|apply preserves_raise].
Qed.

Lemma preserves_test_metric {X} (f : Self → X) pred_list label_list loss_value im :
  (∀ σ c mm, f (add_call c (set_model_manager mm σ)) = f σ) →
  (∀ σ i g, f (set_metrics (alter (alter g i) "test" (metrics σ)) σ) = f σ) →
  preserves f (test_metric pred_list label_list loss_value im).
Proof.
  intros Hc Hm. destruct im as [i metric]. unfold test_metric.
  apply preserves_bind.
  - case_bool_decide; [|apply preserves_ret].
    apply preserves_bind; [apply preserves_cfg_get|]. intros task_type.
    destruct (in_strs task_type ["classify"]).
    + apply preserves_bind; [apply preserves_gets|]. intros self.
      apply preserves_bind; [apply preserves_one_hot|]. intros y_onehot.
      apply preserves_bind; [apply preserves_cfg_get|]. intros return_prob.
      apply preserves_bind.
      { destruct (negb (truthy return_prob));
          [apply preserves_one_hot|apply preserves_raise]. }
      intros pred_onehot.
      apply preserves_bind; [by apply preserves_call_model_manager|].
      intros l. apply preserves_ret.
    + apply preserves_bind; [apply preserves_cfg_get|]. intros model_type.
      destruct (in_strs model_type ["rnn"; "cnn"; "cnn_rnn"]); [|apply preserves_ret].
      apply preserves_bind; [by apply preserves_call_model_manager|].
      intros l. apply preserves_ret.
  - intros [l|]; [|apply preserves_raise].
    apply preserves_bind; [apply preserves_modify; intros σ; apply Hm|]. intros _.
    apply preserves_bind; [apply preserves_modify; intros σ; apply Hm|]. intros _.
    apply preserves_ret.
Qed.

Lemma preserves_test {X} (f : Self → X) return_metrics load_best phase :
  (∀ σ d, f (set_dataloaders d σ) = f σ) →
  (∀ σ c mm, f (add_call c (set_model_manager mm σ)) = f σ) →
  (∀ σ i g, f (set_metrics (alter (alter g i) "test" (metrics σ)) σ) = f σ) →
  preserves f (test _predict return_metrics load_best phase).
Proof.
  intros Hd Hc Hm. unfold test.
  apply preserves_bind.
  { destruct load_best; [by apply preserves_call_model_manager|apply preserves_ret]. }
  intros _. apply preserves_bind; [by apply preserves__predict|].
  intros [pred_list label_list].
  apply preserves_bind; [apply preserves_cfg_get|]. intros return_prob.
  apply preserves_bind.
  { destruct (truthy return_prob); [apply preserves_raise|apply preserves_ret]. }
  intros pred_list'.
  apply preserves_bind; [apply preserves_metrics_of|]. intros ms.
  apply preserves_bind.
  { apply preserves_foldM. intros acc im. by apply preserves_test_metric. }
  intros _. apply preserves_bind; [apply preserves_cfg_get|]. intros task_type.
  apply preserves_bind.
  { destruct (in_strs task_type ["classify"]); [|apply preserves_ret].
    apply preserves_bind; [apply preserves_gets|]. intros self.
    apply preserves_lift. }
  intros _. destruct return_metrics; [|apply preserves_ret].
  apply preserves_bind; [apply preserves_cfg_get|]. intros return_prob'.
  destruct (truthy return_prob'); [apply preserves_raise|].
  apply preserves_bind; [apply preserves_gets|]. intros self. apply preserves_ret.
Qed.

(** X9. Whatever phase [test] is called for, the metrics it updates are
    those of [self.metrics['test']]: the metrics of every other phase (also
    of the phase predicted on), the configuration and the class labels are
    as before, whether [test] returns or raises. *)
Theorem test_touches_only_test_metrics return_metrics load_best phase σ r σ' :
  test _predict return_metrics load_best phase σ = (r, σ') →
  (∀ q, q ≠ "test" → metrics σ' !! q = metrics σ !! q) ∧
  cfg σ' = cfg σ ∧ class_labels σ' = class_labels σ.
Proof.
  intros Htest. split; [|split].
  - intros q Hq.
    apply (preserves_test (λ σ, metrics σ !! q) _ _ _) in Htest; [done|done|done|].
    intros σ0 i g. cbn [metrics set_metrics]. by rewrite lookup_alter_ne.
  - by apply (preserves_test cfg _ _ _) in Htest.
  - by apply (preserves_test class_labels _ _ _) in Htest.
Qed.

(** X10. With [cfg['return_prob']] true, [test] of an [NNTrainManager]
    never returns: [_predict] flattens the predictions into one dimension,
    and [np.argmax(pred_list, axis=1)] refuses a one-dimensional array. *)
Theorem test_with_return_prob_raises return_metrics load_best phase σ return_prob :
  cfg σ !! "return_prob" = Some return_prob → truthy return_prob = true →
  raises (test _predict return_metrics load_best phase) σ.
Proof.
  intros Hrp Htruthy. unfold test. apply raises_bind.
  match goal with
  | |- match ?m σ with _ => _ end => destruct (m σ) as [[[]|e] σ1] eqn:Hload
  end; [|done].
  assert (cfg σ1 = cfg σ) as Hcfg1.
  { destruct load_best.
    - by apply (preserves_call_model_manager cfg) in Hload.
    - by injection Hload as <-. }
  apply raises_bind.
  destruct (_predict phase σ1) as [[[pred_list label_list]|e] σ2] eqn:Hp; [|done].
  assert (cfg σ2 = cfg σ1) as Hcfg2 by (by apply (preserves__predict cfg) in Hp).
  apply raises_bind. unfold cfg_get at 1. rewrite Hcfg2, Hcfg1, Hrp.
  apply raises_bind. by rewrite Htruthy.
Qed.

(** *** What [test] computes *)

Lemma one_hot_loop n xs :
  class_indices n xs →
  ∀ rows σ,
    foldM (λ rows x,
             let i := long_of x in
             if bool_decide (0 ≤ i < Z.of_nat n)%Z
             then mret (rows ++ [(λ j, if bool_decide (j = Z.to_nat i)
                                       then 1%Qc else 0%Qc) <$> seq 0 n])
             else raise RuntimeError)
          rows xs σ
    = (Ok (rows ++ one_hot_rows n xs), σ).
Proof.
  induction 1 as [|x xs Hx Hxs IH]; intros rows σ.
  - simpl. by rewrite app_nil_r.
  - cbn [foldM]. cbv zeta. rewrite (bool_decide_eq_true_2 _ Hx).
    unfold mbind, Py_bind. cbn [mret Py_ret]. rewrite IH.
    unfold one_hot_rows. rewrite fmap_cons. by rewrite <-app_assoc.
Qed.

Lemma one_hot_class_indices n xs σ :
  class_indices n xs → one_hot n xs σ = (Ok (one_hot_rows n xs), σ).
Proof. intros Hxs. unfold one_hot. by rewrite one_hot_loop. Qed.

Lemma with_test_metrics_id σ ms mm :
  metrics σ !! "test" = Some ms → model_manager σ = Some mm →
  with_test_metrics ms [] mm σ = σ.
Proof.
  destruct σ. simpl. intros Hms ->. unfold with_test_metrics. simpl.
  by rewrite app_nil_r, insert_id.
Qed.

Lemma with_test_metrics_mutate σ ms cs mm i f :
  set_metrics (alter (alter f i) "test" (metrics (with_test_metrics ms cs mm σ)))
    (with_test_metrics ms cs mm σ)
  = with_test_metrics (alter f i ms) cs mm σ.
Proof.
  unfold with_test_metrics, set_metrics. simpl. by rewrite alter_insert_eq.
Qed.

Lemma with_test_metrics_call σ ms cs mm mm' c :
  add_call c (set_model_manager (Some mm') (with_test_metrics ms cs mm σ))
  = with_test_metrics ms (cs ++ [c]) mm' σ.
Proof. unfold with_test_metrics, add_call, set_model_manager. simpl. by rewrite app_assoc. Qed.

Lemma alter_middle {A} (f : A → A) (pre : list A) x rest :
  alter f (length pre) (pre ++ x :: rest) = pre ++ f x :: rest.
Proof.
  replace (length pre) with (length pre + 0) by lia. by rewrite alter_app_r.
Qed.

(** The end of the body of the loop of [test], for the metric at the index
    [length pre]. *)
Lemma test_metric_updates pred_list label_list l pre metric rest cs mm σ :
  (mutate_metric "test" (length pre)
     (λ metric, metric_update metric l pred_list label_list);;
   mutate_metric "test" (length pre) (λ metric,
     set_average_meter (update_best (average_meter metric)).2 metric);;
   mret (Some l)) (with_test_metrics (pre ++ metric :: rest) cs mm σ)
  = (Ok (Some l),
     with_test_metrics (pre ++ tested l pred_list label_list metric :: rest) cs mm σ).
Proof.
  unfold mbind, Py_bind, mutate_metric, modify. cbn [mret Py_ret].
  by rewrite !with_test_metrics_mutate, !alter_middle.
Qed.

Section classify.
Variables (pred_list label_list : list Qc) (mm : MM) (σ2 : Self).
Variable return_prob : Val.
Hypothesis Htask : cfg σ2 !! "task_type" = Some (VStr "classify").
Hypothesis Hprob : cfg σ2 !! "return_prob" = Some return_prob.
Hypothesis Hfalse : truthy return_prob = false.
Hypothesis Hpreds : class_indices (length (class_labels σ2)) pred_list.
Hypothesis Hlabels : class_indices (length (class_labels σ2)) label_list.

Local Abbreviation pred_onehot :=
  (T2 (one_hot_rows (length (class_labels σ2)) pred_list)).
Local Abbreviation y_onehot :=
  (T2 (one_hot_rows (length (class_labels σ2)) label_list)).
Local Abbreviation loss_of :=
  (test_loss (mm_criterion mm pred_onehot y_onehot)).

Lemma test_metric_loss_classify loss_value (metric : Metric Meter) ms cs :
  (if bool_decide (name metric = "loss") then
     task_type ← cfg_get "task_type";
     if in_strs task_type ["classify"] then
       self ← gets id;
       y_onehot ← one_hot (length (class_labels self)) label_list;
       return_prob ← cfg_get "return_prob";
       pred_onehot ←
         (if negb (truthy return_prob)
          then one_hot (length (class_labels self)) pred_list
          else raise UnboundLocalError);
       l ← call_model_manager (CCriterion (T2 pred_onehot) (T2 y_onehot))
             (λ mm, (mm_criterion mm (T2 pred_onehot) (T2 y_onehot), mm));
       mret (Some l)
     else
       model_type ← cfg_get "model_type";
       if in_strs model_type ["rnn"; "cnn"; "cnn_rnn"] then
         l ← call_model_manager (CCriterion (T1 pred_list) (T1 label_list))
               (λ mm, (mm_criterion mm (T1 pred_list) (T1 label_list), mm));
         mret (Some l)
       else mret loss_value
   else mret (Some (Qc_of_Z 10000000))) (with_test_metrics ms cs mm σ2)
  = (Ok (Some (loss_of metric)),
     with_test_metrics ms (cs ++ criterion_calls pred_onehot y_onehot [metric]) mm σ2).
Proof.
  unfold test_loss, criterion_calls. cbn [mbind list_bind app].
  case_bool_decide as Hname.
  - unfold mbind at 1, Py_bind at 1, cfg_get. cbn [cfg with_test_metrics].
    rewrite Htask. cbn [in_strs].
    rewrite bool_decide_eq_true_2 by (by left).
    unfold mbind at 1, Py_bind at 1, gets. cbn [id class_labels with_test_metrics].
    unfold mbind at 1, Py_bind at 1. rewrite one_hot_class_indices by done.
    unfold mbind at 1, Py_bind at 1. cbn [cfg with_test_metrics].
    rewrite Hprob, Hfalse. cbn [negb].
    unfold mbind at 1, Py_bind at 1. rewrite one_hot_class_indices by done.
    unfold mbind at 1, Py_bind at 1, call_model_manager.
    fold (with_test_metrics ms cs mm σ2).
    cbn [model_manager with_test_metrics].
    fold (with_test_metrics ms cs mm σ2).
    by rewrite with_test_metrics_call.
  - cbn [mret Py_ret]. by rewrite !app_nil_r.
Qed.

Lemma test_metric_classify loss_value pre (metric : Metric Meter) rest cs :
  test_metric pred_list label_list loss_value (length pre, metric)
    (with_test_metrics (pre ++ metric :: rest) cs mm σ2)
  = (Ok (Some (loss_of metric)),
     with_test_metrics
       (pre ++ tested (loss_of metric) pred_list label_list metric :: rest)
       (cs ++ criterion_calls pred_onehot y_onehot [metric]) mm σ2).
Proof.
  unfold test_metric. unfold mbind at 1, Py_bind at 1.
  rewrite test_metric_loss_classify. cbv beta iota. apply test_metric_updates.
Qed.

Lemma test_loop_classify (rest : list (Metric Meter)) :
  ∀ pre loss_value cs,
    ∃ loss_value',
      foldM (test_metric pred_list label_list) loss_value
        (zip (seq (length pre) (length rest)) rest)
        (with_test_metrics (pre ++ rest) cs mm σ2)
      = (Ok loss_value',
         with_test_metrics
           (pre ++ ((λ metric, tested (loss_of metric) pred_list label_list metric)
                      <$> rest))
           (cs ++ criterion_calls pred_onehot y_onehot rest) mm σ2).
Proof.
  induction rest as [|metric rest IH]; intros pre loss_value cs.
  - exists loss_value. cbn [length seq zip zip_with foldM fmap list_fmap].
    unfold criterion_calls. cbn [mbind list_bind]. by rewrite !app_nil_r.
  - cbn [length seq zip zip_with foldM].
    unfold mbind at 1, Py_bind at 1. rewrite test_metric_classify.
    destruct (IH (pre ++ [tested (loss_of metric) pred_list label_list metric])
                 (Some (loss_of metric))
                 (cs ++ criterion_calls pred_onehot y_onehot [metric]))
      as [loss_value' Hloop].
    rewrite length_app, Nat.add_1_r, <-!app_assoc in Hloop. cbn [app] in Hloop.
    exists loss_value'. rewrite Hloop. rewrite fmap_cons. do 2 f_equal.
    unfold criterion_calls. cbn [mbind list_bind]. by rewrite app_nil_r.
Qed.
End classify.

Lemma test_loads load_best σ :
  (load_best = true → is_Some (model_manager σ)) →
  (if load_best
   then call_model_manager CLoadModel (λ mm, ((), mm_load_model mm))
   else mret ()) σ = (Ok (), loaded load_best σ).
Proof.
  intros Hmm. unfold loaded. destruct load_best; [|done].
  destruct (Hmm eq_refl) as [mm Hmm']. unfold call_model_manager. by rewrite Hmm'.
Qed.

Lemma loaded_frame load_best σ :
  cfg (loaded load_best σ) = cfg σ ∧
  metrics (loaded load_best σ) = metrics σ ∧
  class_labels (loaded load_best σ) = class_labels σ.
Proof. unfold loaded. by destruct load_best, (model_manager σ). Qed.

Lemma predict_frame phase σ r σ' :
  _predict phase σ = (r, σ') →
  cfg σ' = cfg σ ∧ metrics σ' = metrics σ ∧ class_labels σ' = class_labels σ.
Proof.
  intros Hp. split; [|split].
  - by apply (preserves__predict cfg) in Hp.
  - by apply (preserves__predict metrics) in Hp.
  - by apply (preserves__predict class_labels) in Hp.
Qed.

(** X11. [test] in a classification task, with [cfg['return_prob']] false:
    once the checkpoint is loaded (if asked) and [_predict] has returned
    predictions and labels that are class indices, every metric of
    [self.metrics['test']] is updated once with them, then has its best value
    updated; the metric named ['loss'] is given the criterion of the model
    manager on the one-hot predictions and labels, every other metric the
    constant 10000000. [test] returns the predictions, the labels and, if
    asked, the metrics. *)
Theorem test_classifies_and_updates
    return_metrics load_best phase σ pred_list label_list σ2 mm return_prob ms :
  (load_best = true → is_Some (model_manager σ)) →
  _predict phase (loaded load_best σ) = (Ok (pred_list, label_list), σ2) →
  model_manager σ2 = Some mm →
  cfg σ !! "return_prob" = Some return_prob → truthy return_prob = false →
  cfg σ !! "task_type" = Some (VStr "classify") →
  metrics σ !! "test" = Some ms →
  class_indices (length (class_labels σ)) pred_list →
  class_indices (length (class_labels σ)) label_list →
  confusion_matrix label_list pred_list (length (class_labels σ)) = Ok () →
  let pred_onehot := T2 (one_hot_rows (length (class_labels σ)) pred_list) in
  let y_onehot := T2 (one_hot_rows (length (class_labels σ)) label_list) in
  let loss := mm_criterion mm pred_onehot y_onehot in
  let σ' :=
    with_test_metrics
      ((λ metric, tested (test_loss loss metric) pred_list label_list metric) <$> ms)
      (criterion_calls pred_onehot y_onehot ms) mm σ2 in
  test _predict return_metrics load_best phase σ
  = (Ok (pred_list, label_list,
         if return_metrics then Some (metrics σ') else None), σ').
Proof.
  intros Hmm Hp Hmm2 Hprob Hfalse Htask Hms Hpreds Hlabels Hcm.
  destruct (loaded_frame load_best σ) as (Hcfg1 & Hms1 & Hcl1).
  destruct (predict_frame _ _ _ _ Hp) as (Hcfg2 & Hms2 & Hcl2).
  rewrite Hcfg1 in Hcfg2. rewrite Hms1 in Hms2. rewrite Hcl1 in Hcl2.
  rewrite <-Hcfg2 in Hprob, Htask. rewrite <-Hms2 in Hms.
  rewrite <-Hcl2 in Hpreds, Hlabels, Hcm |- *.
  intros pred_onehot y_onehot loss σ'.
  unfold test. rewrite (bind_ok _ _ _ _ _ (test_loads _ _ Hmm)).
  rewrite (bind_ok _ _ _ _ _ Hp). cbv beta iota.
  unfold mbind at 1, Py_bind at 1, cfg_get. rewrite Hprob, Hfalse.
  unfold mbind at 1, Py_bind at 1. cbn [mret Py_ret].
  unfold mbind at 1, Py_bind at 1, metrics_of. rewrite Hms.
  destruct (test_loop_classify pred_list label_list mm σ2 return_prob
              Htask Hprob Hfalse Hpreds Hlabels ms [] None [])
    as [loss_value Hloop].
  cbn [app length] in Hloop. rewrite (with_test_metrics_id _ _ _ Hms Hmm2) in Hloop.
  unfold mbind at 1, Py_bind at 1. rewrite Hloop. fold loss pred_onehot y_onehot σ'.
  unfold mbind at 1, Py_bind at 1. cbn [cfg with_test_metrics σ'].
  rewrite Htask. cbn [in_strs]. rewrite bool_decide_eq_true_2 by (by left).
  unfold mbind at 1, Py_bind at 1.
  unfold mbind at 1, Py_bind at 1, gets, lift.
  cbn [id class_labels with_test_metrics]. rewrite Hcm.
  destruct return_metrics; [|done].
  unfold mbind, Py_bind. cbn [cfg with_test_metrics]. by rewrite Hprob, Hfalse.
Qed.

Section other_task.
Variables (pred_list label_list : list Qc) (mm : MM) (σ2 : Self).
Variables task_type model_type : Val.
Hypothesis Htask : cfg σ2 !! "task_type" = Some task_type.
Hypothesis Hother : in_strs task_type ["classify"] = false.
Hypothesis Hmodel : cfg σ2 !! "model_type" = Some model_type.
Hypothesis Hnone : in_strs model_type ["rnn"; "cnn"; "cnn_rnn"] = false.

Lemma test_metric_loss_other loss_value (metric : Metric Meter) ms cs :
  (if bool_decide (name metric = "loss") then
     task_type ← cfg_get "task_type";
     if in_strs task_type ["classify"] then
       self ← gets id;
       y_onehot ← one_hot (length (class_labels self)) label_list;
       return_prob ← cfg_get "return_prob";
       pred_onehot ←
         (if negb (truthy return_prob)
          then one_hot (length (class_labels self)) pred_list
          else raise UnboundLocalError);
       l ← call_model_manager (CCriterion (T2 pred_onehot) (T2 y_onehot))
             (λ mm, (mm_criterion mm (T2 pred_onehot) (T2 y_onehot), mm));
       mret (Some l)
     else
       model_type ← cfg_get "model_type";
       if in_strs model_type ["rnn"; "cnn"; "cnn_rnn"] then
         l ← call_model_manager (CCriterion (T1 pred_list) (T1 label_list))
               (λ mm, (mm_criterion mm (T1 pred_list) (T1 label_list), mm));
         mret (Some l)
       else mret loss_value
   else mret (Some (Qc_of_Z 10000000))) (with_test_metrics ms cs mm σ2)
  = (Ok (if bool_decide (name metric = "loss") then loss_value
         else Some (Qc_of_Z 10000000)),
     with_test_metrics ms cs mm σ2).
Proof.
  case_bool_decide as Hname; [|done].
  unfold mbind at 1, Py_bind at 1, cfg_get. cbn [cfg with_test_metrics].
  rewrite Htask, Hother.
  unfold mbind at 1, Py_bind at 1. cbn [cfg with_test_metrics].
  by rewrite Hmodel, Hnone.
Qed.

Lemma test_metric_other loss_value pre (metric : Metric Meter) rest cs :
  test_metric pred_list label_list loss_value (length pre, metric)
    (with_test_metrics (pre ++ metric :: rest) cs mm σ2)
  = match (if bool_decide (name metric = "loss") then loss_value
           else Some (Qc_of_Z 10000000)) with
    | Some l =>
        (Ok (Some l),
         with_test_metrics (pre ++ tested l pred_list label_list metric :: rest)
           cs mm σ2)
    | None =>
        (Raise UnboundLocalError,
         with_test_metrics (pre ++ metric :: rest) cs mm σ2)
    end.
Proof.
  unfold test_metric. unfold mbind at 1, Py_bind at 1.
  rewrite test_metric_loss_other. cbv beta iota.
  destruct (if bool_decide (name metric = "loss") then loss_value else _) as [l|];
    [apply test_metric_updates|done].
Qed.

Lemma test_loop_other (rest : list (Metric Meter)) :
  ∀ pre cs,
    foldM (test_metric pred_list label_list) (Some (Qc_of_Z 10000000))
      (zip (seq (length pre) (length rest)) rest)
      (with_test_metrics (pre ++ rest) cs mm σ2)
    = (Ok (Some (Qc_of_Z 10000000)),
       with_test_metrics
         (pre ++ (tested (Qc_of_Z 10000000) pred_list label_list <$> rest))
         cs mm σ2).
Proof.
  induction rest as [|metric rest IH]; intros pre cs; [done|].
  cbn [length seq zip zip_with foldM].
  unfold mbind at 1, Py_bind at 1. rewrite test_metric_other.
  assert ((if bool_decide (name metric = "loss") then Some (Qc_of_Z 10000000)
           else Some (Qc_of_Z 10000000)) = Some (Qc_of_Z 10000000)) as ->
    by (by case_bool_decide).
  specialize (IH (pre ++ [tested (Qc_of_Z 10000000) pred_list label_list metric]) cs).
  rewrite length_app, Nat.add_1_r, <-!app_assoc in IH. cbn [app] in IH.
  by rewrite IH, fmap_cons.
Qed.
End other_task.

(** X12. [test] outside a classification task, for a model type other
    than ['rnn'], ['cnn'] and ['cnn_rnn'], computes no loss at all: the local
    variable [loss_value] is assigned by the metrics not named ['loss'] only.
    When the first metric of [self.metrics['test']] is named ['loss'], [test]
    raises [UnboundLocalError] after the predictions were made, and no metric
    is updated; otherwise every metric, also one named ['loss'], is updated
    with the constant 10000000 left by the metric before it. *)
Theorem test_without_loss_for_other_models
    return_metrics load_best phase σ pred_list label_list σ2 mm
    return_prob task_type model_type metric ms :
  (load_best = true → is_Some (model_manager σ)) →
  _predict phase (loaded load_best σ) = (Ok (pred_list, label_list), σ2) →
  model_manager σ2 = Some mm →
  cfg σ !! "return_prob" = Some return_prob → truthy return_prob = false →
  cfg σ !! "task_type" = Some task_type → in_strs task_type ["classify"] = false →
  cfg σ !! "model_type" = Some model_type →
  in_strs model_type ["rnn"; "cnn"; "cnn_rnn"] = false →
  metrics σ !! "test" = Some (metric :: ms) →
  if bool_decide (name metric = "loss")
  then test _predict return_metrics load_best phase σ = (Raise UnboundLocalError, σ2)
  else
    let σ' :=
      with_test_metrics
        (tested (Qc_of_Z 10000000) pred_list label_list <$> metric :: ms) [] mm σ2 in
    test _predict return_metrics load_best phase σ
    = (Ok (pred_list, label_list,
           if return_metrics then Some (metrics σ') else None), σ').
Proof.
  intros Hmm Hp Hmm2 Hprob Hfalse Htask Hother Hmodel Hnone Hms.
  destruct (loaded_frame load_best σ) as (Hcfg1 & Hms1 & Hcl1).
  destruct (predict_frame _ _ _ _ Hp) as (Hcfg2 & Hms2 & Hcl2).
  rewrite Hcfg1 in Hcfg2. rewrite Hms1 in Hms2.
  rewrite <-Hcfg2 in Hprob, Htask, Hmodel. rewrite <-Hms2 in Hms.
  assert (test _predict return_metrics load_best phase σ
          = (foldM (test_metric pred_list label_list) None
               (zip (seq 0 (length (metric :: ms))) (metric :: ms));;
             task_type ← cfg_get "task_type";
             (if in_strs task_type ["classify"] then
                self ← gets id;
                lift (confusion_matrix label_list pred_list
                        (length (class_labels self)))
              else mret ());;
             if return_metrics then
               return_prob ← cfg_get "return_prob";
               if truthy return_prob then raise UnboundLocalError
               else self ← gets id; mret (pred_list, label_list, Some (metrics self))
             else mret (pred_list, label_list, None))
              (with_test_metrics (metric :: ms) [] mm σ2)) as ->.
  { rewrite (with_test_metrics_id σ2 (metric :: ms) mm Hms Hmm2).
    unfold test. rewrite (bind_ok _ _ _ _ _ (test_loads _ _ Hmm)).
    rewrite (bind_ok _ _ _ _ _ Hp). cbv beta iota.
    unfold mbind at 1, Py_bind at 1, cfg_get at 1. rewrite Hprob, Hfalse.
    unfold mbind at 1, Py_bind at 1. cbn [mret Py_ret].
    unfold mbind at 1, Py_bind at 1, metrics_of. by rewrite Hms. }
  cbn [length seq zip zip_with foldM].
  pose proof (test_metric_other pred_list label_list mm σ2 task_type model_type
                Htask Hother Hmodel Hnone None [] metric ms []) as Hfirst.
  cbn [app length] in Hfirst.
  case_bool_decide as Hname.
  - unfold mbind at 1, Py_bind at 1. unfold mbind at 1, Py_bind at 1.
    rewrite Hfirst. by rewrite with_test_metrics_id.
  - unfold mbind at 1, Py_bind at 1. unfold mbind at 1, Py_bind at 1.
    rewrite Hfirst.
    pose proof (test_loop_other pred_list label_list mm σ2 task_type model_type
                  Htask Hother Hmodel Hnone ms
                  [tested (Qc_of_Z 10000000) pred_list label_list metric] [])
      as Hloop.
    cbn [app length] in Hloop. rewrite Hloop.
    unfold mbind at 1, Py_bind at 1, cfg_get. cbn [cfg with_test_metrics].
    rewrite Htask, Hother.
    unfold mbind at 1, Py_bind at 1. cbn [mret Py_ret].
    destruct return_metrics; [|done].
    unfold mbind, Py_bind. cbn [cfg with_test_metrics]. by rewrite Hprob, Hfalse.
Qed.
End test.

(** ** [_update_by_epoch] and [train], further *)

Section train_more.
Import Evaluation.
Context {Inputs MM DL Meter : Type}.
Context `{!ModelManager MM Inputs, !DataLoader DL Inputs, !AverageMeter Meter}.
Context `{!Sklearn}.

Local Abbreviation Self := (TrainManager Inputs MM DL Meter).
Local Abbreviation Run := (@PhaseRun Inputs MM DL Meter).
Local Abbreviation Epoch := (@EpochRun Inputs MM DL Meter).
Implicit Types σ : Self.
Implicit Types r : Run.

(** X13. [_update_by_epoch] saves the model once for every metric of the
    phase ['val'] that is flagged [save_model] and attains a new best value,
    so possibly several times at the end of one epoch, and never in another
    phase; it returns true exactly when it saved. It then anneals the
    learning rate if the phase is ['train']. Every metric of the phase ends
    with its best value updated and its meter reset; the metrics of the
    other phases and the configuration are untouched. *)
Theorem update_by_epoch_saves_per_improved_metric phase learning_anneal σ ms :
  metrics σ !! phase = Some ms →
  is_Some (model_manager σ) → is_Some (cfg σ !! "model_path") →
  ∃ σ',
    _update_by_epoch phase learning_anneal σ
    = (Ok (bool_decide (0 < saves_of phase ms)), σ') ∧
    saves_of phase ms
    = (if bool_decide (phase = "val")
       then length (filter (λ metric, save_model metric = true ∧
                      (update_best (average_meter metric)).1 = true) ms)
       else 0) ∧
    calls σ' = calls σ ++ replicate (saves_of phase ms) CSaveModel
                       ++ (if bool_decide (phase = "train")
                           then [CAnnealLr learning_anneal] else []) ∧
    metrics σ' !! phase = Some (end_of_epoch <$> ms) ∧
    (∀ q, q ≠ phase → metrics σ' !! q = metrics σ !! q) ∧
    cfg σ' = cfg σ.
Proof.
  intros Hms Hmm Hpath.
  pose proof (returns__update_by_epoch phase learning_anneal σ ms Hms Hmm Hpath) as Hr.
  apply returns_iff in Hr as (b & σ' & Hu & -> & Hms' & Hlater).
  exists σ'. split; [done|]. split.
  { unfold saves_of. destruct (bool_decide (phase = "val")); [|done]. f_equal.
    apply list_filter_iff. intros metric. unfold attains_best.
    rewrite andb_true_iff. tauto. }
  split; [apply (later_calls _ _ _ _ Hlater)|]. split; [done|].
  split; [apply (later_metrics _ _ _ _ Hlater)|apply (later_cfg _ _ _ _ Hlater)].
Qed.

Lemma linked_epochs_keeps_resets phases (ers : list Epoch) :
  ∀ σ σ', linked_epochs phases σ ers σ' → Forall phase_run_facts (all_runs ers) →
          resets phases σ → resets phases σ'.
Proof.
  induction ers as [|er ers IH]; intros σ σ'; simpl; [by intros ->|].
  change (all_runs (er :: ers)) with (phase_runs er ++ all_runs ers).
  intros [(Hps & _ & σ_mid & Hlink & Hstop) Hlinks] [Hr Hrs]%Forall_app Hres.
  destruct (linked_keeps_resets _ _ _ _ Hlink Hr Hres) as [_ Hmid].
  eapply IH; [done|done|]. rewrite Hstop. by apply resets_add_call.
Qed.

(** X14. After at least one epoch, the metrics [train] returns are
    [self.metrics] with the meters of every phase it ran just reset by
    [_update_by_epoch]: the averages of the last epoch are no longer in them
    (the copies in [epoch_metrics] are local to [train]). *)
Theorem train_returns_reset_metrics new_model_manager with_validate only_validate σ n :
  train_ready new_model_manager with_validate only_validate σ = true →
  cfg σ !! "epochs" ≫= int_of = Some n → (1 ≤ n)%Z →
  ∃ final_metrics best_val_pred σ'',
    train new_model_manager with_validate only_validate σ
    = (Ok (final_metrics, best_val_pred), σ'') ∧
    final_metrics = metrics σ'' ∧
    ∀ phase, phase ∈ phases_of with_validate only_validate →
      ∃ ms, final_metrics !! phase = Some ms ∧ Forall is_reset ms.
Proof.
  intros Hready Hn Hn1.
  destruct (train_course _ _ _ _ Hready)
    as (ers & σ' & σ'' & Hhist & Hfacts & Htrain & Hms & Hcfg & Hcalls).
  exists (metrics σ''), (best_val_pred_after (all_runs ers)), σ''.
  split; [done|]. split; [done|]. rewrite Hms.
  destruct Hhist as (n' & Hn' & Hnos & Hlink).
  rewrite Hn in Hn'. injection Hn' as <-.
  destruct ers as [|er ers].
  { exfalso. unfold range in Hnos. destruct (Z.to_nat n) eqn:E; [lia|done]. }
  cbn [linked_epochs] in Hlink.
  destruct Hlink as [(Hps & _ & σ_mid & Hlink & Hstop) Hlinks].
  change (all_runs (er :: ers)) with (phase_runs er ++ all_runs ers) in Hfacts.
  apply Forall_app in Hfacts as [Hr Hrs].
  pose proof (linked_resets _ _ _ Hlink Hr) as Hres. rewrite Hps in Hres.
  apply (linked_epochs_keeps_resets _ _ _ _ Hlinks Hrs).
  rewrite Hstop. by apply resets_add_call.
Qed.

(** X15. [train] checks its data loaders before anything else: when a
    phase it is to run has none, it raises the [AssertionError] of the first
    such phase, before any call on the model manager; only a model manager
    passed as argument has been installed. *)
Theorem train_requires_a_loader_per_phase
    new_model_manager with_validate only_validate σ pre phase post :
  phases_of with_validate only_validate = pre ++ phase :: post →
  (∀ p, p ∈ pre → is_Some (dict_get (dataloaders σ) p)) →
  dict_get (dataloaders σ) phase = None →
  train new_model_manager with_validate only_validate σ
  = (Raise (AssertionError phase), train_start new_model_manager σ).
Proof.
  intros Hphases Hpre Hphase. unfold train.
  erewrite bind_ok with (σ' := train_start new_model_manager σ) (a := ());
    [|by destruct new_model_manager].
  erewrite bind_ok; [|done]. cbn [id]. rewrite Hphases.
  erewrite bind_raise; [done|].
  apply check_keys_first_missing.
  - intros p Hp. apply dict_get_is_Some.
    assert (dataloaders (train_start new_model_manager σ) = dataloaders σ) as ->
      by (by destruct new_model_manager).
    by apply Hpre.
  - intros Hin%dict_get_is_Some.
    assert (dataloaders (train_start new_model_manager σ) = dataloaders σ) as Heq
      by (by destruct new_model_manager).
    rewrite Heq, Hphase in Hin. by destruct Hin.
Qed.

(** *** The calls of the batches of a phase *)










(** X17. [train(with_validate=False, only_validate=True)] runs the phase
    ['val'] only, and still ends by saving the model: the last call is
    [save_model], after the epochs and the closing of the logger, although
    no phase ['train'] was run. *)
Theorem train_only_validate_still_saves new_model_manager σ :
  train_ready new_model_manager false true σ = true →
  ∃ (ers : list Epoch) σ' result σ'',
    train new_model_manager false true σ = (Ok result, σ'') ∧
    is_train_history new_model_manager false true σ ers σ' ∧
    Forall (λ r, run_phase r = "val") (all_runs ers) ∧
    calls_since σ σ''
    = (concat (epoch_calls <$> ers)
       ++ match logger σ with Some _ => [CLoggerClose] | None => [] end)
      ++ [CSaveModel].
Proof.
  intros Hready.
  destruct (train_course _ _ _ _ Hready)
    as (ers & σ' & σ'' & Hhist & Hfacts & Htrain & Hms & Hcfg & Hcalls).
  eexists ers, σ', _, σ''. do 2 (split; [done|]). split.
  - destruct Hhist as (n & _ & _ & Hlink).
    pose proof (linked_epochs_phases _ _ _ _ Hlink) as Hphases.
    clear -Hphases. induction Hphases as [|er ers Her _ IH]; [constructor|].
    change (all_runs (er :: ers)) with (phase_runs er ++ all_runs ers).
    apply Forall_app. split; [|done].
    simpl in Her. destruct (phase_runs er) as [|r [|r' rs]]; try done.
    injection Her as Her. by repeat constructor.
  - rewrite (calls_since_app _ _ _ Hcalls). unfold closing_calls.
    by rewrite !app_assoc.
Qed.

(** X18. With [cfg['epochs']] zero or negative [train] runs no epoch: it
    makes no call on the model manager but the final [save_model] when
    [with_validate] is false (and closes the logger if there is one), and
    returns the metrics as they were with an empty [best_val_pred]. *)
Theorem train_without_epochs new_model_manager with_validate only_validate σ n :
  train_ready new_model_manager with_validate only_validate σ = true →
  cfg σ !! "epochs" ≫= int_of = Some n → (n ≤ 0)%Z →
  ∃ σ'',
    train new_model_manager with_validate only_validate σ
    = (Ok (metrics σ, []), σ'') ∧
    calls σ'' = calls σ ++ closing_calls with_validate (logger σ).
Proof.
  intros Hready Hn Hn0.
  destruct (train_course _ _ _ _ Hready)
    as (ers & σ' & σ'' & Hhist & Hfacts & Htrain & Hms & Hcfg & Hcalls).
  destruct Hhist as (n' & Hn' & Hnos & Hlink).
  rewrite Hn in Hn'. injection Hn' as <-.
  assert (ers = []) as ->.
  { unfold range in Hnos. replace (Z.to_nat n) with 0 in Hnos by lia.
    by destruct ers. }
  cbn [linked_epochs] in Hlink. subst σ'.
  exists σ''. split; [|done]. rewrite Htrain, Hms.
  by destruct new_model_manager.
Qed.

(** X19. [train(with_validate=False, only_validate=False)] never sets
    [best_val_pred]: it returns the empty array, whatever the metrics did. *)
Theorem train_without_validation_returns_no_prediction new_model_manager σ :
  train_ready new_model_manager false false σ = true →
  ∃ final_metrics σ'',
    train new_model_manager false false σ = (Ok (final_metrics, []), σ'').
Proof.
  intros Hready.
  destruct (train_course _ _ _ _ Hready)
    as (ers & σ' & σ'' & Hhist & Hfacts & Htrain & Hms & Hcfg & Hcalls).
  exists (metrics σ''), σ''. rewrite Htrain. do 3 f_equal.
  apply best_val_pred_none.
  destruct Hhist as (n & _ & _ & Hlink).
  pose proof (linked_epochs_phases _ _ _ _ Hlink) as Hphases.
  assert (Forall (λ r, run_phase r = "train") (all_runs ers)) as Htrainp.
  { clear -Hphases. induction Hphases as [|er ers Her _ IH]; [constructor|].
    change (all_runs (er :: ers)) with (phase_runs er ++ all_runs ers).
    apply Forall_app. split; [|done].
    simpl in Her. destruct (phase_runs er) as [|r [|r' rs]]; try done.
    injection Her as Her. by repeat constructor. }
  rewrite Forall_forall in Hfacts, Htrainp. apply Forall_forall. intros r Hr.
  destruct (Hfacts r Hr) as (cs & ms & _ & _ & _ & -> & _).
  rewrite (Htrainp r Hr). unfold saves_of.
  rewrite (bool_decide_eq_false_2 ("train" = "val")) by done.
  apply bool_decide_eq_false_2. lia.
Qed.
End train_more.

(** ** [BaseMLPredictor]: the model file *)

Section predictor_files.
Import BaseMLPredictor.
Context {Model X Y : Type} `{!Estimator Model X Y}.

Local Abbreviation World := (@World Model).
Implicit Types w : World.

(** X20. What [save_model(fname)] writes, [load_model(fname)] reads back,
    on any predictor that sees the file: when unpickling gives back the
    model that was pickled, the predictor that loads has that model
    afterwards and counts as fitted, whether or not the model saved had ever
    been fitted. Saving changes nothing of the predictor that saves. *)
Theorem save_model_then_load_model fname w m (other : Predictor) :
  model (self w) = Some m →
  fname ∉ locked (disk w) →
  pickle_loads (pickle_dumps m) = Ok m →
  ∃ w1 w2,
    save_model fname w = (Ok (), w1) ∧
    self w1 = self w ∧
    files (disk w1) = <[fname := pickle_dumps m]> (files (disk w)) ∧
    load_model fname {| self := other; disk := disk w1 |} = (Ok (), w2) ∧
    model (self w2) = Some m ∧ fitted (self w2) = true ∧
    disk w2 = disk w1.
Proof.
  intros Hm Hfname Hpickle.
  eexists {| self := self w;
             disk := {| files := <[fname := pickle_dumps m]> (files (disk w));
                        locked := locked (disk w) |} |}, _.
  split; [|split; [done|split; [done|]]].
  - unfold save_model, mbind, Py_bind, gets, lift, open_w, modify, the_model.
    cbn [id]. rewrite bool_decide_eq_false_2 by done.
    cbn [set_disk self disk]. rewrite Hm. unfold write, set_disk.
    cbn [self disk files locked]. do 3 f_equal.
    by rewrite alter_insert_eq.
  - unfold load_model, mbind, Py_bind, gets, lift, read, modify.
    cbn [id self disk files]. rewrite lookup_insert_eq, Hpickle.
    by cbn [set_model set_fitted self disk model fitted].
Qed.

(** X21. [save_model] opens the file before it looks at [self.model]: on a
    predictor without a model (the base class itself) it raises
    [AttributeError] and leaves the file empty, whatever it held before; the
    other files and the predictor are untouched. On a path that cannot be
    opened it raises [OSError] and changes nothing. *)
Theorem save_model_without_model_empties_file fname w :
  model (self w) = None →
  (fname ∈ locked (disk w) → save_model fname w = (Raise OSError, w)) ∧
  (fname ∉ locked (disk w) →
   ∃ w',
     save_model fname w = (Raise AttributeError, w') ∧
     self w' = self w ∧
     files (disk w') = <[fname := ""]> (files (disk w))).
Proof.
  intros Hm. split.
  - intros Hfname. unfold save_model, mbind, Py_bind, gets, lift, open_w.
    cbn [id]. by rewrite bool_decide_eq_true_2.
  - intros Hfname.
    exists {| self := self w;
              disk := {| files := <[fname := ""]> (files (disk w));
                         locked := locked (disk w) |} |}.
    split; [|done].
    unfold save_model, mbind, Py_bind, gets, lift, open_w, modify, the_model.
    cbn [id]. rewrite bool_decide_eq_false_2 by done.
    cbn [set_disk self disk]. by rewrite Hm.
Qed.

(** X22. [load_model] is all or nothing: when it returns, the file existed,
    its content was unpickled into the new [self.model] and the predictor
    counts as fitted; when it raises (no such file, or a content that cannot
    be unpickled), the predictor is exactly as before. It never writes. *)
Theorem load_model_all_or_nothing fname w r w' :
  load_model fname w = (r, w') →
  disk w' = disk w ∧
  match r with
  | Ok _ =>
      ∃ bytes m, files (disk w) !! fname = Some bytes ∧
                 pickle_loads bytes = Ok m ∧
                 model (self w') = Some m ∧ fitted (self w') = true
  | Raise _ => w' = w
  end.
Proof.
  unfold load_model, mbind, Py_bind, gets, lift, read, modify. cbn [id].
  destruct (files (disk w) !! fname) as [bytes|] eqn:Hfile.
  - destruct (pickle_loads bytes) as [m|e] eqn:Hpickle.
    + intros [= <- <-]. split; [done|]. by exists bytes, m.
    + by intros [= <- <-].
  - by intros [= <- <-].
Qed.
End predictor_files.

(** ** [KNN.predict_proba] *)

Section knn.
Import BaseMLPredictor Evaluation.
Context {Model X Y : Type} `{!Estimator Model X Y}.

Local Abbreviation World := (@World Model).
Implicit Types w : World.

Lemma np_eye_rows_loop n (idx : list Z) :
  Forall (λ i, (0 ≤ i < Z.of_nat n)%Z) idx →
  ∀ rows w,
    foldM (λ rows i,
             if bool_decide (- Z.of_nat n ≤ i < Z.of_nat n)%Z
             then mret (rows ++ [(λ j, if bool_decide (j = Z.to_nat (i `mod` Z.of_nat n))
                                       then 1%Qc else 0%Qc) <$> seq 0 n])
             else raise IndexError)
          rows idx w
    = (Ok (rows ++ ((λ i, (λ j, if bool_decide (j = Z.to_nat i)
                                then 1%Qc else 0%Qc) <$> seq 0 n) <$> idx)), w).
Proof.
  induction 1 as [|i idx Hi Hidx IH]; intros rows w.
  - simpl. by rewrite app_nil_r.
  - cbn [foldM]. rewrite bool_decide_eq_true_2 by lia.
    unfold mbind, Py_bind. cbn [mret Py_ret]. rewrite IH.
    rewrite fmap_cons, <-app_assoc. rewrite Z.mod_small by lia. done.
Qed.

Lemma Qc_sum_indicator n k i :
  Qc_sum ((λ j, if bool_decide (j = i) then 1%Qc else 0%Qc) <$> seq k n)
  = if bool_decide (k ≤ i < k + n) then 1%Qc else 0%Qc.
Proof.
  revert k. induction n as [|n IH]; intros k.
  - simpl. by rewrite bool_decide_eq_false_2 by lia.
  - cbn [seq fmap list_fmap Qc_sum foldr]. fold (Qc_sum
      ((λ j, if bool_decide (j = i) then 1%Qc else 0%Qc) <$> seq (S k) n)).
    rewrite IH. repeat case_bool_decide; try lia; ring.
Qed.

(** X23. [KNN.predict_proba] turns the classes the estimator predicts into
    probabilities that are certainties: for predictions that are class
    indices it returns, for every sample, the row of length
    [len(class_labels)] that is 1 at the predicted class and 0 elsewhere, so
    every row sums to 1 and its only non-zero entry gives the prediction
    back; the predictor is unchanged. *)
Theorem knn_predict_proba_is_one_hot x w m preds :
  model (self w) = Some m →
  sk_predict m x = Ok preds →
  class_indices (length (class_labels (self w))) preds →
  KNN.predict_proba x w
  = (Ok (one_hot_rows (length (class_labels (self w))) preds), w) ∧
  Forall2 (λ pred row,
             length row = length (class_labels (self w)) ∧
             Qc_sum row = 1%Qc ∧
             ∀ j, j < length (class_labels (self w)) →
                  row !! j = Some (if bool_decide (j = Z.to_nat (long_of pred))
                                   then 1%Qc else 0%Qc))
    preds (one_hot_rows (length (class_labels (self w))) preds).
Proof.
  intros Hm Hpreds Hclasses. split.
  - unfold KNN.predict_proba, mbind, Py_bind, gets, the_model, lift. cbn [id].
    rewrite Hm, Hpreds. unfold KNN.np_eye_rows.
    rewrite np_eye_rows_loop.
    + unfold one_hot_rows. by rewrite <-list_fmap_compose.
    + unfold class_indices in Hclasses. by apply Forall_fmap.
  - unfold one_hot_rows. apply Forall2_fmap_r, Forall_Forall2_diag.
    eapply Forall_impl; [exact Hclasses|]. intros pred Hpred. cbv beta in *.
    split; [by rewrite length_fmap, length_seq|]. split.
    + rewrite Qc_sum_indicator. by rewrite bool_decide_eq_true_2 by lia.
    + intros j Hj. rewrite list_lookup_fmap, lookup_seq_lt by done. done.
Qed.
End knn.

(** ** [dump_dict]: the file it leaves *)

Section dump_dict_more.
Import json Text.

Lemma dump_dict_locked path o disk :
  path ∈ locked disk → utils.dump_dict path o disk = (Raise OSError, disk).
Proof.
  intros Hpath. unfold utils.dump_dict.
  unfold mbind, Py_bind, gets, lift, open_w. cbn [id].
  by rewrite bool_decide_eq_true_2.
Qed.

Lemma dump_dict_unlocked path o disk :
  path ∉ locked disk →
  utils.dump_dict path o disk
  = (if (encode 0 o).2 then Ok () else Raise TypeError,
     {| files := <[path := (encode 0 o).1]> (files disk);
        locked := locked disk |}).
Proof.
  intros Hpath. unfold utils.dump_dict, dump.
  destruct (encode 0 o) as [text ok].
  unfold mbind, Py_bind, gets, lift, modify, open_w, mret, Py_ret, write, raise.
  cbn [id]. rewrite bool_decide_eq_false_2 by done. cbn [files locked fst snd].
  rewrite alter_insert_eq. by destruct ok.
Qed.

(** X24. [dump_dict(path, d)] replaces the file: on a path that can be
    opened, the file holds afterwards exactly what the encoder wrote,
    whatever it held before, and no other file is touched. For a value
    [json] cannot encode (a dictionary with a tuple as key, say) that is the
    text written before the failure: [dump_dict] raises [TypeError] and
    leaves this truncated file. On a path that cannot be opened it raises
    [OSError] and changes nothing. *)
Theorem dump_dict_replaces_file path o disk :
  (path ∈ locked disk → utils.dump_dict path o disk = (Raise OSError, disk)) ∧
  (path ∉ locked disk →
   utils.dump_dict path o disk
   = (if (encode 0 o).2 then Ok () else Raise TypeError,
      {| files := <[path := (encode 0 o).1]> (files disk);
         locked := locked disk |})).
Proof. split; [apply dump_dict_locked|apply dump_dict_unlocked]. Qed.

(** *** The characters written *)











End dump_dict_more.

(** ** [dump_dict] then [json.load], on every value [json] can write *)

Section json_reload.
Import json Reload.







(** *** What is read back is plain *)






End json_reload.

(** ** [train] on a train manager that has no model manager *)

Section train_without_manager.
Context {Inputs MM DL Meter : Type}.
Context `{!ModelManager MM Inputs, !DataLoader DL Inputs, !AverageMeter Meter}.

Local Abbreviation Self := (TrainManager Inputs MM DL Meter).
Implicit Types σ : Self.

(** X27. A train manager whose [model_type] is not a supported one has no
    model manager ([_init_model_manager] returned [None]). [train] called on
    it without one, with at least one epoch to run and a first phase whose
    loader yields a batch, raises [AttributeError] at the first [fit]: the
    loader of that phase has been iterated once, and no call was made, no
    metric updated and nothing saved. *)
Theorem train_without_model_manager_raises
    with_validate only_validate σ n dl batch bs dl' :
  model_manager σ = None →
  (∀ p, p ∈ phases_of with_validate only_validate →
        is_Some (dict_get (dataloaders σ) p)) →
  cfg σ !! "epochs" ≫= int_of = Some n → (1 ≤ n)%Z →
  dict_get (dataloaders σ) (if only_validate then "val" else "train") = Some dl →
  dl_iter dl = (batch :: bs, dl') →
  train None with_validate only_validate σ
  = (Raise AttributeError,
     set_dataloaders
       (dict_set (dataloaders σ) (if only_validate then "val" else "train") dl') σ).
Proof.
  intros Hmm Hloaders Hepochs Hn Hdl Hiter. unfold train.
  erewrite bind_ok; [|done]. erewrite bind_ok; [|done]. cbn [id].
  erewrite bind_ok;
    [|apply check_keys_ok; intros p Hp; by apply dict_get_is_Some, Hloaders].
  destruct (cfg σ !! "epochs") as [epochs|] eqn:Hcfg; [|done].
  cbn [mbind option_bind] in Hepochs.
  erewrite bind_ok; [|by unfold cfg_get; rewrite Hcfg].
  erewrite bind_ok; [|by apply as_int_of].
  apply bind_raise.
  unfold range. destruct (Z.to_nat n) as [|m] eqn:Hm; [lia|].
  cbn [seq foldM]. apply bind_raise. unfold train_epoch. apply bind_raise.
  assert (∃ rest, phases_of with_validate only_validate
                  = (if only_validate then "val" else "train") :: rest)
    as [rest ->] by (destruct with_validate, only_validate; by eexists).
  cbn [foldM]. apply bind_raise. unfold train_phase. apply bind_raise.
  unfold train_batches. unfold batches.
  erewrite bind_ok; [|erewrite bind_ok; [|by unfold dataloader; rewrite Hdl];
                      rewrite Hiter; erewrite bind_ok; done].
  apply bind_raise. cbn [length seq zip zip_with foldM]. apply bind_raise.
  unfold train_batch. destruct batch as [inputs labels]. apply bind_raise.
  unfold call_model_manager. cbn [model_manager set_dataloaders]. by rewrite Hmm.
Qed.
End train_without_manager.

(** ** The further theorems at work on concrete train managers *)

Section more_witnesses.
Import Demo Evaluation.

Local Abbreviation DemoSelf :=
  (TrainManager (list Qc) DemoManager (list (list Qc * list Qc)) DemoMeter).
Local Abbreviation DemoEpoch :=
  (@EpochRun (list Qc) DemoManager (list (list Qc * list Qc)) DemoMeter).

Lemma init_model_manager_writes_sizes_witness :
  ∃ σ' : DemoSelf,
    _init_model_manager ["knn"; "sgdc"; "svm"; "nb"]
      ["nn"; "cnn"; "rnn"; "cnn_rnn"; "logmel_cnn"] ["resnet"] (manager config)
    = (Ok (Some (NNModelManager [VInt 0; VInt 1] (cfg σ'))), σ') ∧
    cfg σ' !! "input_size" = Some (VInt 1) ∧
    cfg σ' !! "image_size" = Some (VInt 1) ∧
    cfg σ' !! "epochs" = Some (VInt 2).
Proof.
  destruct (init_model_manager_writes_sizes ["knn"; "sgdc"; "svm"; "nb"]
              ["nn"; "cnn"; "rnn"; "cnn_rnn"; "logmel_cnn"] ["resnet"]
              (manager config) "cnn" "train" one_batch
              [("val", one_batch); ("test", one_batch);
               ("retrain", one_batch); ("retrain_test", one_batch)])
    as (σ' & Hinit & _ & Hinput & _ & Himage & Hrest).
  - reflexivity.
  - vm_compute. reflexivity.
  - apply list_elem_of_In. simpl. tauto.
  - discriminate.
  - exists σ'. split; [exact Hinit|]. split; [exact Hinput|]. split.
    + apply Himage; [discriminate|]. apply list_elem_of_In. simpl. tauto.
    + rewrite Hrest; [vm_compute; reflexivity|].
      intros Hin. apply list_elem_of_In in Hin. simpl in Hin.
      repeat destruct Hin as [Hin|Hin]; done.
Defined.

Lemma predict_without_tta_concatenates_witness :
  ∃ σ' : DemoSelf,
    _predict "test" (DemoEvaluation.manager DemoEvaluation.config)
    = (Ok (Qc_of_Z <$> [0; 1; 1; 1]%Z, Qc_of_Z <$> [0; 1; 0; 1]%Z), σ') ∧
    calls σ' = [CPredict (Qc_of_Z <$> [0; 1; 1]%Z); CPredict (Qc_of_Z <$> [1]%Z)].
Proof.
  destruct (predict_without_tta_concatenates "test"
              (DemoEvaluation.manager DemoEvaluation.config)
              (VInt 4) (VInt 0) DemoEvaluation.test_batches
              {| lr := 1%Qc; fits := 0; saves := 0 |})
    as (σ' & Hpredict & Hcalls & _).
  - vm_compute. reflexivity.
  - vm_compute. reflexivity.
  - reflexivity.
  - reflexivity.
  - reflexivity.
  - exists σ'. split; [exact Hpredict|exact Hcalls].
Defined.

Lemma predict_refuses_uneven_tta_witness :
  ∃ σ' : DemoSelf,
    _predict "test" (manager (<["tta" := VInt 3]> config)) = (Raise ValueError, σ') ∧
    calls σ' = [CPredict (Qc_of_Z <$> [1; 2; 3; 4]%Z)].
Proof.
  destruct (predict_refuses_uneven_tta "test" (manager (<["tta" := VInt 3]> config))
              (VInt 4) (VInt 3) 3 one_batch
              {| lr := 1%Qc; fits := 0; saves := 0 |})
    as (σ' & Hpredict & Hcalls).
  - vm_compute. reflexivity.
  - vm_compute. reflexivity.
  - reflexivity.
  - lia.
  - reflexivity.
  - reflexivity.
  - right. vm_compute. discriminate.
  - exists σ'. split; [exact Hpredict|exact Hcalls].
Defined.

Lemma infer_only_loads_and_predicts_witness :
  ∃ (preds : list Qc) (σ' : DemoSelf),
    infer _predict true "test" (DemoEvaluation.manager DemoEvaluation.config)
    = (Ok preds, σ') ∧
    calls σ' = [CLoadModel; CPredict (Qc_of_Z <$> [0; 1; 1]%Z);
                CPredict (Qc_of_Z <$> [1]%Z)] ∧
    metrics σ' = metrics (DemoEvaluation.manager DemoEvaluation.config).
Proof.
  exists (Qc_of_Z <$> [0; 1; 1; 1]%Z),
    (infer _predict true "test" (DemoEvaluation.manager DemoEvaluation.config)).2.
  assert (infer _predict true "test" (DemoEvaluation.manager DemoEvaluation.config)
          = (Ok (Qc_of_Z <$> [0; 1; 1; 1]%Z),
             (infer _predict true "test"
                (DemoEvaluation.manager DemoEvaluation.config)).2)) as Hinfer
    by (vm_compute; reflexivity).
  split; [exact Hinfer|].
  destruct (infer_only_loads_and_predicts true "test"
              (DemoEvaluation.manager DemoEvaluation.config) _ _
              DemoEvaluation.test_batches Hinfer eq_refl) as (Hcalls & Hmetrics & _).
  split; [exact Hcalls|exact Hmetrics].
Defined.

Lemma test_touches_only_test_metrics_witness :
  ∃ r (σ' : DemoSelf),
    test _predict true true "test" (DemoEvaluation.manager DemoEvaluation.config)
    = (r, σ') ∧
    metrics σ' !! "train" = Some [loss_metric] ∧
    cfg σ' = DemoEvaluation.config.
Proof.
  exists (test _predict true true "test"
            (DemoEvaluation.manager DemoEvaluation.config)).1,
    (test _predict true true "test"
       (DemoEvaluation.manager DemoEvaluation.config)).2.
  assert (test _predict true true "test" (DemoEvaluation.manager DemoEvaluation.config)
          = ((test _predict true true "test"
                (DemoEvaluation.manager DemoEvaluation.config)).1,
             (test _predict true true "test"
                (DemoEvaluation.manager DemoEvaluation.config)).2)) as Htest
    by (vm_compute; reflexivity).
  split; [exact Htest|].
  destruct (test_touches_only_test_metrics true true "test"
              (DemoEvaluation.manager DemoEvaluation.config) _ _ Htest)
    as (Hmetrics & Hcfg & _).
  split; [|exact Hcfg].
  rewrite Hmetrics; [vm_compute; reflexivity|discriminate].
Defined.

Lemma test_with_return_prob_raises_witness :
  raises (test _predict false true "test")
    (DemoEvaluation.manager (<["return_prob" := VBool true]> DemoEvaluation.config)).
Proof.
  apply (test_with_return_prob_raises false true "test"
           (DemoEvaluation.manager
              (<["return_prob" := VBool true]> DemoEvaluation.config))
           (VBool true)).
  - vm_compute. reflexivity.
  - reflexivity.
Defined.

Lemma demo_class_indices (zs : list Z) :
  forallb (λ z, (0 <=? z)%Z && (z <? 2)%Z) zs = true →
  class_indices 2 (Qc_of_Z <$> zs).
Proof.
  intros Hzs. unfold class_indices. apply Forall_fmap, Forall_forall.
  intros z Hz. apply list_elem_of_In in Hz.
  pose proof (proj1 (forallb_forall _ _) Hzs z Hz) as Hin.
  apply andb_true_iff in Hin as [?%Z.leb_le ?%Z.ltb_lt].
  cbn [compose]. replace (long_of (Qc_of_Z z)) with z; [lia|].
  unfold long_of. cbn. by rewrite Z.quot_1_r.
Qed.

Lemma test_classifies_and_updates_witness :
  ∃ (ms : list (Metric DemoMeter)) (σ' : DemoSelf),
    test _predict true true "test" (DemoEvaluation.manager DemoEvaluation.config)
    = (Ok (Qc_of_Z <$> [0; 1; 1; 1]%Z, Qc_of_Z <$> [0; 1; 0; 1]%Z,
           Some (metrics σ')), σ') ∧
    metrics σ' !! "test" = Some ms ∧
    (count ∘ average_meter) <$> ms = [1; 1] ∧
    (this ∘ total ∘ average_meter) <$> ms = [inject_Z 10000000; 0%Q].
Proof.
  opose proof* (test_classifies_and_updates true true "test"
                (DemoEvaluation.manager DemoEvaluation.config)
                (Qc_of_Z <$> [0; 1; 1; 1]%Z) (Qc_of_Z <$> [0; 1; 0; 1]%Z)
                (_predict "test"
                   (loaded true (DemoEvaluation.manager DemoEvaluation.config))).2
                {| lr := 1%Qc; fits := 0; saves := 0 |} (VBool false)
                [DemoEvaluation.accuracy_metric; loss_metric]) as Htest.
  - intros _. by eexists.
  - vm_compute. reflexivity.
  - reflexivity.
  - vm_compute. reflexivity.
  - reflexivity.
  - vm_compute. reflexivity.
  - vm_compute. reflexivity.
  - by apply (demo_class_indices [0; 1; 1; 1]%Z).
  - by apply (demo_class_indices [0; 1; 0; 1]%Z).
  - reflexivity.
  - cbv beta iota zeta in Htest. eexists _, _. split; [exact Htest|].
    split; [apply lookup_insert_eq|]. split; vm_compute; reflexivity.
Defined.

Lemma test_without_loss_for_other_models_witness :
  ∃ σ' : DemoSelf,
    test _predict false false "test"
      (DemoEvaluation.manager
         (<["task_type" := VStr "regress"]>
            (<["model_type" := VStr "nn"]> DemoEvaluation.config)))
    = (Ok (Qc_of_Z <$> [0; 1; 1; 1]%Z, Qc_of_Z <$> [0; 1; 0; 1]%Z, None), σ') ∧
    fmap (M:=list) (this ∘ total ∘ average_meter) <$> metrics σ' !! "test"
    = Some [inject_Z 10000000; inject_Z 10000000].
Proof.
  opose proof* (test_without_loss_for_other_models false false "test"
                (DemoEvaluation.manager
                   (<["task_type" := VStr "regress"]>
                      (<["model_type" := VStr "nn"]> DemoEvaluation.config)))
                (Qc_of_Z <$> [0; 1; 1; 1]%Z) (Qc_of_Z <$> [0; 1; 0; 1]%Z)
                (_predict "test"
                   (DemoEvaluation.manager
                      (<["task_type" := VStr "regress"]>
                         (<["model_type" := VStr "nn"]> DemoEvaluation.config)))).2
                {| lr := 1%Qc; fits := 0; saves := 0 |} (VBool false)
                (VStr "regress") (VStr "nn")
                DemoEvaluation.accuracy_metric [loss_metric]) as Htest.
  - discriminate.
  - vm_compute. reflexivity.
  - reflexivity.
  - vm_compute. reflexivity.
  - reflexivity.
  - vm_compute. reflexivity.
  - reflexivity.
  - vm_compute. reflexivity.
  - reflexivity.
  - vm_compute. reflexivity.
  - cbv beta iota zeta in Htest.
    change (bool_decide (name DemoEvaluation.accuracy_metric = "loss"))
      with false in Htest.
    cbv beta iota zeta in Htest. eexists. split; [exact Htest|].
    vm_compute. reflexivity.
Defined.

Lemma update_by_epoch_saves_per_improved_metric_witness :
  ∃ σ' : DemoSelf,
    _update_by_epoch "val" (VFloat (Qc_of_Z 2)) (manager config) = (Ok true, σ') ∧
    calls σ' = [CSaveModel] ∧
    metrics σ' !! "val" = Some [end_of_epoch loss_metric].
Proof.
  destruct (update_by_epoch_saves_per_improved_metric "val" (VFloat (Qc_of_Z 2))
              (manager config) [loss_metric])
    as (σ' & Hupdate & _ & Hcalls & Hmetrics & _).
  - vm_compute. reflexivity.
  - by eexists.
  - by eexists.
  - exists σ'. split; [exact Hupdate|]. split; [exact Hcalls|exact Hmetrics].
Defined.

Lemma train_returns_reset_metrics_witness :
  ∃ final_metrics best_val_pred (σ'' : DemoSelf),
    train None true false (manager config) = (Ok (final_metrics, best_val_pred), σ'') ∧
    ∃ ms, final_metrics !! "val" = Some ms ∧ Forall is_reset ms.
Proof.
  destruct (train_returns_reset_metrics None true false (manager config) 2)
    as (final_metrics & best_val_pred & σ'' & Htrain & _ & Hreset).
  - apply demo_train_ready.
  - vm_compute. reflexivity.
  - lia.
  - exists final_metrics, best_val_pred, σ''. split; [exact Htrain|].
    apply Hreset. apply list_elem_of_In. simpl. tauto.
Defined.

Lemma train_requires_a_loader_per_phase_witness :
  (train None true false (DemoEvaluation.manager DemoEvaluation.config)).1
  = Raise (AssertionError "val").
Proof.
  rewrite (train_requires_a_loader_per_phase None true false
             (DemoEvaluation.manager DemoEvaluation.config) ["train"] "val" []).
  - reflexivity.
  - reflexivity.
  - intros p Hp. apply list_elem_of_In in Hp. simpl in Hp.
    destruct Hp as [<-|[]]. by eexists.
  - reflexivity.
Defined.


Lemma train_only_validate_still_saves_witness :
  train_ready None false true (manager config) = true ∧
  ∃ (ers : list DemoEpoch) (σ'' : DemoSelf),
    Forall (λ r, run_phase r = "val") (all_runs ers) ∧
    calls_since (manager config) σ''
    = concat (epoch_calls <$> ers) ++ [CSaveModel].
Proof.
  assert (train_ready None false true (manager config) = true) as Hready
    by (vm_compute; reflexivity).
  split; [exact Hready|].
  destruct (train_only_validate_still_saves None (manager config) Hready)
    as (ers & σ' & result & σ'' & _ & _ & Hval & Hcalls).
  exists ers, σ''. split; [exact Hval|].
  rewrite Hcalls. cbn [logger manager]. by rewrite app_nil_r.
Defined.

Lemma train_without_epochs_witness :
  ∃ σ'' : DemoSelf,
    train None true false (manager (<["epochs" := VInt 0]> config))
    = (Ok (metrics (manager (<["epochs" := VInt 0]> config)), []), σ'') ∧
    calls σ'' = [].
Proof.
  destruct (train_without_epochs None true false
              (manager (<["epochs" := VInt 0]> config)) 0)
    as (σ'' & Htrain & Hcalls).
  - vm_compute. reflexivity.
  - vm_compute. reflexivity.
  - lia.
  - exists σ''. split; [exact Htrain|exact Hcalls].
Defined.

Lemma train_without_validation_returns_no_prediction_witness :
  ∃ final_metrics (σ'' : DemoSelf),
    train None false false (manager config) = (Ok (final_metrics, []), σ'').
Proof.
  apply (train_without_validation_returns_no_prediction None (manager config)).
  apply demo_train_ready.
Defined.

Lemma train_without_model_manager_raises_witness :
  (train None true false (set_model_manager None (manager config))).1
  = Raise AttributeError ∧
  calls (train None true false (set_model_manager None (manager config))).2 = [].
Proof.
  rewrite (train_without_model_manager_raises true false
             (set_model_manager None (manager config)) 2 one_batch
             (Qc_of_Z <$> [1; 2; 3; 4]%Z, Qc_of_Z <$> [0; 1; 0; 1]%Z) [] one_batch).
  - done.
  - reflexivity.
  - intros p Hp. apply list_elem_of_In in Hp. simpl in Hp.
    destruct Hp as [<-|[<-|[]]]; by eexists.
  - vm_compute. reflexivity.
  - lia.
  - reflexivity.
  - reflexivity.
Defined.
End more_witnesses.

(** ** The theorems on predictors at work *)

Section predictor_witnesses.
Import BaseMLPredictor DemoEstimator.

Lemma save_model_then_load_model_witness :
  ∃ w1 w2,
    save_model "model.pkl" fresh = (Ok (), w1) ∧
    load_model "model.pkl" {| self := self fresh_base; disk := disk w1 |}
    = (Ok (), w2) ∧
    model (self w2) = Some [] ∧ fitted (self w2) = true.
Proof.
  destruct (save_model_then_load_model "model.pkl" fresh [] (self fresh_base))
    as (w1 & w2 & Hsave & _ & _ & Hload & Hmodel & Hfitted & _).
  - reflexivity.
  - apply not_elem_of_empty.
  - reflexivity.
  - by exists w1, w2.
Defined.

Lemma save_model_without_model_empties_file_witness :
  ∃ w',
    save_model "model.pkl" fresh_base = (Raise AttributeError, w') ∧
    files (disk w') !! "model.pkl" = Some "".
Proof.
  destruct (save_model_without_model_empties_file "model.pkl" fresh_base eq_refl)
    as [_ Hopen].
  destruct Hopen as (w' & Hsave & _ & Hfiles); [apply not_elem_of_empty|].
  exists w'. split; [exact Hsave|]. rewrite Hfiles. apply lookup_insert_eq.
Defined.

Lemma load_model_all_or_nothing_witness :
  ∃ w',
    load_model "model.pkl" (save_model "model.pkl" fresh).2 = (Ok (), w') ∧
    disk w' = disk (save_model "model.pkl" fresh).2 ∧
    fitted (self w') = true.
Proof.
  exists (load_model "model.pkl" (save_model "model.pkl" fresh).2).2.
  assert (load_model "model.pkl" (save_model "model.pkl" fresh).2
          = (Ok (), (load_model "model.pkl" (save_model "model.pkl" fresh).2).2))
    as Hload by (vm_compute; reflexivity).
  split; [exact Hload|].
  destruct (load_model_all_or_nothing "model.pkl" _ _ _ Hload)
    as (Hdisk & bytes & m & _ & _ & _ & Hfitted).
  by split.
Defined.

Lemma knn_predict_proba_is_one_hot_witness :
  (KNN.predict_proba [] (set_model (Qc_of_Z <$> [0; 1; 1]%Z) fresh)).1
  = Ok (Evaluation.one_hot_rows 2 (Qc_of_Z <$> [0; 1; 1]%Z)).
Proof.
  destruct (knn_predict_proba_is_one_hot [] (set_model (Qc_of_Z <$> [0; 1; 1]%Z) fresh)
              (Qc_of_Z <$> [0; 1; 1]%Z) (Qc_of_Z <$> [0; 1; 1]%Z))
    as [Hproba _].
  - reflexivity.
  - reflexivity.
  - by apply (demo_class_indices [0; 1; 1]%Z).
  - by rewrite Hproba.
Defined.


End predictor_witnesses.
